(** * usbmuxd USB device manager (src/usb.c): model and verified properties

    The development embeds the parts of [usb.c] that the specification
    talks about: the public accessors, the bulk write path ([usb_send]),
    the serial-number decoding of [get_serial_callback], the mode
    negotiation chain ([guess_mode], [get_mode_cb], [switch_mode_cb],
    [device_complete_initialization]) and the failure accounting of
    [usb_discover].

    Conventions.
    - C integers are values of [Z]; conversions to a fixed width are
      written out ([to_uint32], ...).  The C operators [/] and [%] are
      [Z.quot] and [Z.rem].
    - Pointers are natural numbers, [NULL] being [0]; a pointer that the
      code only tests against [NULL] is an [option].
    - libusb is an environment: every call the code makes is appended to a
      trace, and what libusb answers is given by an oracle that sees the
      whole history of calls.
    - Logging ([usbmuxd_log]) has no effect on the state and is left out. *)

From Stdlib Require Import ZArith List Bool Lia String Ascii.
From Stdlib Require Import Init.Byte.
From stdpp Require Import base list.
From Equations Require Import Equations.
Import ListNotations.
Local Open Scope Z_scope.

(** ** Machine integers and pointers *)

Definition to_uint8 (z : Z) : Z := z mod 2 ^ 8.
Definition to_uint16 (z : Z) : Z := z mod 2 ^ 16.
Definition to_uint32 (z : Z) : Z := z mod 2 ^ 32.

(** Conversion of a wider integer to [int] (two's complement, 32 bits). *)
Definition to_int32 (z : Z) : Z := (z + 2 ^ 31) mod 2 ^ 32 - 2 ^ 31.

Definition is_uint8 (z : Z) : Prop := 0 <= z < 256.

Definition ptr := nat.
Definition NULL : ptr := 0%nat.

(** ** libusb constants (libusb.h) *)

Definition LIBUSB_ENDPOINT_IN : Z := 0x80.
Definition LIBUSB_ENDPOINT_OUT : Z := 0x00.
Definition LIBUSB_REQUEST_TYPE_VENDOR : Z := 0x40.
Definition LIBUSB_RECIPIENT_DEVICE : Z := 0x00.
Definition LIBUSB_REQUEST_GET_DESCRIPTOR : Z := 0x06.
Definition LIBUSB_DT_STRING : Z := 0x03.
Definition LIBUSB_CONTROL_SETUP_SIZE : Z := 8.
Definition LIBUSB_TRANSFER_FREE_TRANSFER : Z := 4.

Inductive libusb_transfer_status :=
| LIBUSB_TRANSFER_COMPLETED
| LIBUSB_TRANSFER_ERROR
| LIBUSB_TRANSFER_TIMED_OUT
| LIBUSB_TRANSFER_CANCELLED
| LIBUSB_TRANSFER_STALL
| LIBUSB_TRANSFER_NO_DEVICE
| LIBUSB_TRANSFER_OVERFLOW.

Definition status_completed (s : libusb_transfer_status) : bool :=
  match s with LIBUSB_TRANSFER_COMPLETED => true | _ => false end.

Inductive libusb_speed :=
| LIBUSB_SPEED_UNKNOWN
| LIBUSB_SPEED_LOW
| LIBUSB_SPEED_FULL
| LIBUSB_SPEED_HIGH
| LIBUSB_SPEED_SUPER
| LIBUSB_SPEED_SUPER_PLUS.

Inductive libusb_transfer_type :=
| LIBUSB_TRANSFER_TYPE_CONTROL
| LIBUSB_TRANSFER_TYPE_BULK.

(** ** Descriptors (libusb.h), with the fields [usb.c] reads *)

Record libusb_device_descriptor := {
  idVendor : Z;
  idProduct : Z;
  iSerialNumber : Z;
  bNumConfigurations : Z
}.

Record libusb_endpoint_descriptor := {
  bEndpointAddress : Z
}.

(** [bNumEndpoints] is the length of the [endpoint] array. *)
Record libusb_interface_descriptor := {
  bInterfaceNumber : Z;
  bInterfaceClass : Z;
  bInterfaceSubClass : Z;
  bInterfaceProtocol : Z;
  endpoint : list libusb_endpoint_descriptor
}.

Definition bNumEndpoints (i : libusb_interface_descriptor) : Z :=
  Z.of_nat (length (endpoint i)).

(** An interface is its array of alternate settings; the code reads
    [altsetting[0]] of every interface, so the array is kept non-empty:
    first setting and the others. *)
Record libusb_interface := {
  altsetting0 : libusb_interface_descriptor;
  altsetting_more : list libusb_interface_descriptor
}.

(** [bNumInterfaces] is the length of the [interface] array. *)
Record libusb_config_descriptor := {
  bConfigurationValue : Z;
  interface : list libusb_interface
}.

Definition bNumInterfaces (c : libusb_config_descriptor) : Z :=
  Z.of_nat (length (interface c)).

(** ** Collections (libimobiledevice-glue/collection.h)

    A collection is an array of slots, an empty slot being [None].
    [collection_add] fills the first empty slot or grows the array,
    [collection_remove] empties the first slot that holds the element,
    FOREACH visits the full slots in index order. *)

Definition collection (A : Type) := list (option A).

Definition collection_init {A} : collection A := [].

Fixpoint collection_add {A} (col : collection A) (x : A) : collection A :=
  match col with
  | [] => [Some x]
  | None :: rest => Some x :: rest
  | Some y :: rest => Some y :: collection_add rest x
  end.

Fixpoint collection_remove {A} (eqb : A -> A -> bool)
    (col : collection A) (x : A) : collection A :=
  match col with
  | [] => []
  | None :: rest => None :: collection_remove eqb rest x
  | Some y :: rest =>
      if eqb y x then None :: rest else Some y :: collection_remove eqb rest x
  end.

(** The elements FOREACH visits, in order. *)
Definition collection_elements {A} (col : collection A) : list A :=
  omap id col.

Definition collection_count {A} (col : collection A) : Z :=
  Z.of_nat (length (collection_elements col)).

(** ** [struct usb_device] and [struct mode_context] *)

Definition libusb_device_handle := ptr.
Definition libusb_device := ptr.

Record usb_device := {
  usbdev_self : ptr;                        (* address of the struct itself *)
  handle : option libusb_device_handle;     (* [None] is a NULL handle *)
  bus : Z;
  address : Z;
  serial : list byte;                       (* char serial[256] *)
  alive : Z;
  usb_interface : Z;                        (* uint8_t interface *)
  ep_in : Z;
  ep_out : Z;
  rx_xfers : collection ptr;
  tx_xfers : collection ptr;
  wMaxPacketSize : Z;
  speed : Z;
  devdesc : libusb_device_descriptor
}.

Record mode_context := {
  ctx_dev : libusb_device;
  ctx_bus : Z;
  ctx_address : Z;
  ctx_bRequest : Z;
  ctx_wValue : Z;
  ctx_wIndex : Z;
  ctx_wLength : Z;
  ctx_timeout : Z
}.

Definition set_tx_xfers (d : usb_device) (c : collection ptr) : usb_device :=
  {| usbdev_self := usbdev_self d; handle := handle d; bus := bus d;
     address := address d; serial := serial d; alive := alive d;
     usb_interface := usb_interface d; ep_in := ep_in d; ep_out := ep_out d;
     rx_xfers := rx_xfers d; tx_xfers := c;
     wMaxPacketSize := wMaxPacketSize d; speed := speed d;
     devdesc := devdesc d |}.

Definition set_alive (d : usb_device) (a : Z) : usb_device :=
  {| usbdev_self := usbdev_self d; handle := handle d; bus := bus d;
     address := address d; serial := serial d; alive := a;
     usb_interface := usb_interface d; ep_in := ep_in d; ep_out := ep_out d;
     rx_xfers := rx_xfers d; tx_xfers := tx_xfers d;
     wMaxPacketSize := wMaxPacketSize d; speed := speed d;
     devdesc := devdesc d |}.

Definition set_serial (d : usb_device) (s : list byte) : usb_device :=
  {| usbdev_self := usbdev_self d; handle := handle d; bus := bus d;
     address := address d; serial := s; alive := alive d;
     usb_interface := usb_interface d; ep_in := ep_in d; ep_out := ep_out d;
     rx_xfers := rx_xfers d; tx_xfers := tx_xfers d;
     wMaxPacketSize := wMaxPacketSize d; speed := speed d;
     devdesc := devdesc d |}.

(** ** Public accessors (usb.c, lines 907-937) *)

(** [usb_get_serial]: [None] is the NULL result, otherwise the pointer to
    the [serial] array of the record. *)
Definition usb_get_serial (dev : usb_device) : option (list byte) :=
  match handle dev with
  | None => None
  | Some _ => Some (serial dev)
  end.

(** [usb_get_location]: [bus] and [address] are promoted to [int]; the
    [int] result is converted to the [uint32_t] return type. *)
Definition usb_get_location (dev : usb_device) : Z :=
  match handle dev with
  | None => 0
  | Some _ => to_uint32 (Z.lor (Z.shiftl (bus dev) 16) (address dev))
  end.

Definition usb_get_pid (dev : usb_device) : Z :=
  match handle dev with
  | None => 0
  | Some _ => idProduct (devdesc dev)
  end.

Definition usb_get_speed (dev : usb_device) : Z :=
  match handle dev with
  | None => 0
  | Some _ => speed dev
  end.

(** ** Transfers and the libusb environment *)

Record libusb_control_setup := {
  bmRequestType : Z;
  bRequest : Z;
  wValue : Z;
  wIndex : Z;
  wLength : Z
}.

(** The completion callbacks of [usb.c] a transfer can carry. *)
Inductive transfer_cb :=
| CB_tx_callback
| CB_rx_callback
| CB_get_serial_callback
| CB_get_langid_callback
| CB_get_mode_cb
| CB_switch_mode_cb.

(** [user_data] of a transfer: a [struct usb_device *] or a
    [struct mode_context *]. *)
Inductive transfer_user_data :=
| UD_device (p : ptr)
| UD_context (c : mode_context).

(** [struct libusb_transfer] as filled by [libusb_fill_bulk_transfer] and
    [libusb_fill_control_transfer].  [xfer_ptr] is the address returned by
    [libusb_alloc_transfer]; [setup] is the control setup packet at the
    head of the buffer of a control transfer. *)
Record libusb_transfer := {
  xfer_ptr : ptr;
  dev_handle : option libusb_device_handle;
  flags : Z;
  xfer_endpoint : Z;
  xfer_type : libusb_transfer_type;
  timeout : Z;
  xfer_length : Z;
  callback : transfer_cb;
  user_data : transfer_user_data;
  buffer : ptr;
  setup : option libusb_control_setup
}.

(** The calls into libusb, with the answer libusb gave. *)
Inductive libusb_call :=
| Call_alloc_transfer (p : ptr)
| Call_submit_transfer (t : libusb_transfer) (rc : Z)
| Call_free_transfer (p : ptr)
| Call_get_configuration (h : option libusb_device_handle) (rc config : Z)
| Call_get_config_descriptor_by_value (d : libusb_device) (value : Z)
    (res : option libusb_config_descriptor)
| Call_free_config_descriptor (c : libusb_config_descriptor)
| Call_kernel_driver_active (h : option libusb_device_handle) (intf rc : Z)
| Call_detach_kernel_driver (h : option libusb_device_handle) (intf rc : Z)
| Call_set_configuration (h : option libusb_device_handle) (config rc : Z)
| Call_claim_interface (h : option libusb_device_handle) (intf rc : Z)
| Call_get_max_packet_size (d : libusb_device) (ep rc : Z)
| Call_get_device_speed (d : libusb_device) (s : libusb_speed)
| Call_get_device_list (cnt : Z) (devs : list libusb_device)
| Call_free_device_list (devs : list libusb_device)
| Call_get_device_descriptor (d : libusb_device)
    (res : option libusb_device_descriptor)
| Call_open (d : libusb_device) (res : option libusb_device_handle).

(** [struct timeval] *)
Record timeval := {
  tv_sec : Z;
  tv_usec : Z
}.

(** What libusb answers, as a function of the calls made so far and of the
    arguments.  [usb_get_config_descriptor_by_value],
    [usb_get_device_descriptor] and [usb_open] answer [None] for a
    non-zero return code.  The last three fields are the other external
    functions: the allocator where the code checks its result, and
    [get_tick_count] of utils.h. *)
Record libusb_oracle := {
  usb_submit_transfer : list libusb_call -> libusb_transfer -> Z;
  usb_get_configuration :
    list libusb_call -> option libusb_device_handle -> Z * Z;
  usb_get_config_descriptor_by_value :
    list libusb_call -> libusb_device -> Z -> option libusb_config_descriptor;
  usb_kernel_driver_active :
    list libusb_call -> option libusb_device_handle -> Z -> Z;
  usb_detach_kernel_driver :
    list libusb_call -> option libusb_device_handle -> Z -> Z;
  usb_set_configuration :
    list libusb_call -> option libusb_device_handle -> Z -> Z;
  usb_claim_interface :
    list libusb_call -> option libusb_device_handle -> Z -> Z;
  usb_get_max_packet_size : list libusb_call -> libusb_device -> Z -> Z;
  usb_get_device_speed : list libusb_call -> libusb_device -> libusb_speed;
  usb_get_device_list : list libusb_call -> Z * list libusb_device;
  usb_get_bus_number : libusb_device -> Z;
  usb_get_device_address : libusb_device -> Z;
  usb_get_device_descriptor :
    list libusb_call -> libusb_device -> option libusb_device_descriptor;
  usb_open : list libusb_call -> libusb_device -> option libusb_device_handle;
  usb_alloc_fails : list libusb_call -> bool;
  malloc_fails : list libusb_call -> bool;
  get_tick_count : list libusb_call -> timeval
}.

(** The part of the world [usb.c] shares with libusb and the allocator:
    the calls so far, oldest first, and the last address handed out. *)
Record libusb_world := {
  trace : list libusb_call;
  last_ptr : ptr
}.

Definition log_call (c : libusb_call) (w : libusb_world) : libusb_world :=
  {| trace := trace w ++ [c]; last_ptr := last_ptr w |}.

(** [malloc] and [libusb_alloc_transfer] where the code uses the result
    unchecked: a fresh non-NULL address. *)
Definition malloc (w : libusb_world) : ptr * libusb_world :=
  (S (last_ptr w), {| trace := trace w; last_ptr := S (last_ptr w) |}).

Definition libusb_alloc_transfer (w : libusb_world) : ptr * libusb_world :=
  let p := S (last_ptr w) in
  (p, {| trace := trace w ++ [Call_alloc_transfer p]; last_ptr := p |}).

Definition libusb_free_transfer (p : ptr) (w : libusb_world) : libusb_world :=
  log_call (Call_free_transfer p) w.

Definition libusb_fill_bulk_transfer (xfer : ptr)
    (h : option libusb_device_handle) (ep : Z) (buf : ptr) (len : Z)
    (cb : transfer_cb) (ud : transfer_user_data) (tmo : Z) : libusb_transfer :=
  {| xfer_ptr := xfer; dev_handle := h; flags := 0; xfer_endpoint := ep;
     xfer_type := LIBUSB_TRANSFER_TYPE_BULK; timeout := tmo;
     xfer_length := len; callback := cb; user_data := ud; buffer := buf;
     setup := None |}.

(** The calls made between two worlds, and the transfers handed to
    [libusb_submit_transfer] among some calls. *)
Definition new_calls (w w' : libusb_world) : list libusb_call :=
  drop (length (trace w)) (trace w').

Definition submitted (calls : list libusb_call) : list libusb_transfer :=
  omap (fun c => match c with
                 | Call_submit_transfer t _ => Some t
                 | _ => None
                 end) calls.

Definition freed (calls : list libusb_call) : list ptr :=
  omap (fun c => match c with
                 | Call_free_transfer p => Some p
                 | _ => None
                 end) calls.

Section Libusb.

Variable usb : libusb_oracle.

Definition libusb_submit_transfer (t : libusb_transfer) (w : libusb_world)
    : Z * libusb_world :=
  let rc := usb_submit_transfer usb (trace w) t in
  (rc, log_call (Call_submit_transfer t rc) w).

(** ** [usb_send] (usb.c, lines 215-240) *)

Definition usb_send (dev : usb_device) (buf : ptr) (length : Z)
    (w : libusb_world) : Z * usb_device * libusb_world :=
  let '(xfer, w) := libusb_alloc_transfer w in
  let t := libusb_fill_bulk_transfer xfer (handle dev) (ep_out dev) buf
             length CB_tx_callback (UD_device (usbdev_self dev)) 0 in
  let '(res, w) := libusb_submit_transfer t w in
  if res <? 0 then
    let w := libusb_free_transfer xfer w in
    (res, dev, w)
  else
    let dev := set_tx_xfers dev (collection_add (tx_xfers dev) xfer) in
    if Z.rem length (wMaxPacketSize dev) =? 0 then
      (* Send Zero Length Packet *)
      let '(xfer, w) := libusb_alloc_transfer w in
      let '(buffer, w) := malloc w in
      let t := libusb_fill_bulk_transfer xfer (handle dev) (ep_out dev)
                 buffer 0 CB_tx_callback (UD_device (usbdev_self dev)) 0 in
      let '(res, w) := libusb_submit_transfer t w in
      if res <? 0 then
        let w := libusb_free_transfer xfer w in
        (res, dev, w)
      else
        let dev := set_tx_xfers dev (collection_add (tx_xfers dev) xfer) in
        (0, dev, w)
    else
      (0, dev, w).

(** The payload transfer [usb_send] builds, the answer libusb gives to its
    submission, and the same for the zero-length packet that may follow. *)
Definition usb_send_payload (dev : usb_device) (buf : ptr) (length : Z)
    (w : libusb_world) : libusb_transfer :=
  libusb_fill_bulk_transfer (fst (libusb_alloc_transfer w)) (handle dev)
    (ep_out dev) buf length CB_tx_callback (UD_device (usbdev_self dev)) 0.

Definition usb_send_payload_rc (dev : usb_device) (buf : ptr) (length : Z)
    (w : libusb_world) : Z :=
  fst (libusb_submit_transfer (usb_send_payload dev buf length w)
         (snd (libusb_alloc_transfer w))).

Definition usb_send_after_payload (dev : usb_device) (buf : ptr) (length : Z)
    (w : libusb_world) : libusb_world :=
  snd (libusb_submit_transfer (usb_send_payload dev buf length w)
         (snd (libusb_alloc_transfer w))).

Definition usb_send_zlp (dev : usb_device) (buf : ptr) (length : Z)
    (w : libusb_world) : libusb_transfer :=
  let w1 := usb_send_after_payload dev buf length w in
  let '(xfer, w2) := libusb_alloc_transfer w1 in
  libusb_fill_bulk_transfer xfer (handle dev) (ep_out dev)
    (fst (malloc w2)) 0 CB_tx_callback (UD_device (usbdev_self dev)) 0.

Definition usb_send_zlp_rc (dev : usb_device) (buf : ptr) (length : Z)
    (w : libusb_world) : Z :=
  let w1 := usb_send_after_payload dev buf length w in
  let w2 := snd (libusb_alloc_transfer w1) in
  fst (libusb_submit_transfer (usb_send_zlp dev buf length w)
         (snd (malloc w2))).

(** The transfers one call of [usb_send] hands to libusb, in order. *)
Definition usb_send_submitted (dev : usb_device) (buf : ptr) (length : Z)
    (w : libusb_world) : list libusb_transfer :=
  submitted (new_calls w (snd (usb_send dev buf length w))).

End Libusb.

(** ** Serial-number decoding ([get_serial_callback], usb.c lines 321-342)

    [data] is what [libusb_control_transfer_get_data] points at: the
    string descriptor the device returned, inside a zero-filled buffer, so
    that a read past the returned bytes yields 0. *)

Definition byte_val (b : byte) : Z := Z.of_N (Byte.to_N b).

Definition data_at (data : list byte) (i : Z) : byte :=
  nth (Z.to_nat i) data x00.

(** [sizeof(usbdev->serial)] *)
Definition serial_size : Z := 256.

(** The de-unicode loop (lines 323-330), from a given [di] and [si]; the
    result is the [serial] array and the final [di]. *)
Equations? deunicode_loop (data serial : list byte) (di si : Z)
    : list byte * Z by wf (Z.to_nat (byte_val (data_at data 0) - si)) lt :=
  deunicode_loop data serial di si
    with Z_lt_dec si (byte_val (data_at data 0)),
         Z_lt_dec di (serial_size - 1) => {
    | left _, left _ :=
        if negb (Z.land (byte_val (data_at data si)) 0x80 =? 0)
           || negb (byte_val (data_at data (si + 1)) =? 0)
        then (* non-ASCII *)
          deunicode_loop data (<[Z.to_nat di := "?"%byte]> serial)
            (di + 1) (si + 2)
        else if byte_val (data_at data si) =? 0 then (serial, di)
        else
          deunicode_loop data (<[Z.to_nat di := data_at data si]> serial)
            (di + 1) (si + 2);
    | _, _ := (serial, di) }.
Proof. all: lia. Qed.

(** Lines 323-331: the loop from [di = 0], [si = 2], then the terminator. *)
Definition get_serial_decode (data serial : list byte) : list byte * Z :=
  let '(serial, di) := deunicode_loop data serial 0 2 in
  (<[Z.to_nat di := x00]> serial, di).

(** [memmove(&buf[dst], &buf[src], n)] inside one array. *)
Definition memmove (buf : list byte) (dst src n : nat) : list byte :=
  take dst buf ++ take n (drop src buf) ++ drop (dst + n) buf.

(** Lines 337-342: new style UDID. *)
Definition get_serial_hyphenate (serial : list byte) (di : Z) : list byte :=
  if di =? 24 then
    let serial := memmove serial 9 8 16 in
    let serial := <[8%nat := "-"%byte]> serial in
    <[Z.to_nat (di + 1) := x00]> serial
  else serial.

(** The [serial] array [get_serial_callback] leaves in the device when the
    transfer completed; on any other status it returns before line 321. *)
Definition get_serial_callback_serial (status : libusb_transfer_status)
    (data : list byte) (usbdev : usb_device) : usb_device :=
  if status_completed status then
    let '(serial, di) := get_serial_decode data (serial usbdev) in
    set_serial usbdev (get_serial_hyphenate serial di)
  else usbdev.

(** The C string held by a [char] array: the bytes before the first NUL. *)
Fixpoint c_string (buf : list byte) : list byte :=
  match buf with
  | [] => []
  | b :: rest => if Byte.eqb b x00 then [] else b :: c_string rest
  end.

(** *** The decoding as the specification words it

    The units of the descriptor are the 2-byte units that start at the
    even offsets 2, 4, ... below the descriptor length [data[0]]; a unit is
    (low byte, high byte). *)
Definition descriptor_units (data : list byte) : list (byte * byte) :=
  map (fun k : nat =>
         (data_at data (2 + 2 * Z.of_nat k),
          data_at data (2 + 2 * Z.of_nat k + 1)))
      (seq 0 (Z.to_nat ((byte_val (data_at data 0) - 1) / 2))).

Definition unit_is_nul (u : byte * byte) : bool :=
  Byte.eqb (fst u) x00 && Byte.eqb (snd u) x00.

Definition unit_is_ascii (u : byte * byte) : bool :=
  Byte.eqb (snd u) x00 && negb (Z.testbit (byte_val (fst u)) 7).

Definition spec_decode_unit (u : byte * byte) : byte :=
  if unit_is_ascii u then fst u else "?"%byte.

Fixpoint until_nul (us : list (byte * byte)) : list (byte * byte) :=
  match us with
  | [] => []
  | u :: rest => if unit_is_nul u then [] else u :: until_nul rest
  end.

Definition spec_decode (data : list byte) : list byte :=
  take 255 (map spec_decode_unit (until_nul (descriptor_units data))).

(** Insertion of a hyphen between character 8 and character 9, and removal
    of the character at an index. *)
Definition insert_hyphen (s : list byte) : list byte :=
  take 8 s ++ "-"%byte :: drop 8 s.

Definition remove_index (i : nat) (s : list byte) : list byte :=
  take i s ++ drop (S i) s.

(** ** Field updates of [struct usb_device] *)

Definition set_handle (d : usb_device) (h : option libusb_device_handle)
    : usb_device :=
  {| usbdev_self := usbdev_self d; handle := h; bus := bus d;
     address := address d; serial := serial d; alive := alive d;
     usb_interface := usb_interface d; ep_in := ep_in d; ep_out := ep_out d;
     rx_xfers := rx_xfers d; tx_xfers := tx_xfers d;
     wMaxPacketSize := wMaxPacketSize d; speed := speed d;
     devdesc := devdesc d |}.

Definition set_location (d : usb_device) (b a : Z) : usb_device :=
  {| usbdev_self := usbdev_self d; handle := handle d; bus := b;
     address := a; serial := serial d; alive := alive d;
     usb_interface := usb_interface d; ep_in := ep_in d; ep_out := ep_out d;
     rx_xfers := rx_xfers d; tx_xfers := tx_xfers d;
     wMaxPacketSize := wMaxPacketSize d; speed := speed d;
     devdesc := devdesc d |}.

Definition set_endpoints (d : usb_device) (intf out in_ : Z) : usb_device :=
  {| usbdev_self := usbdev_self d; handle := handle d; bus := bus d;
     address := address d; serial := serial d; alive := alive d;
     usb_interface := intf; ep_in := in_; ep_out := out;
     rx_xfers := rx_xfers d; tx_xfers := tx_xfers d;
     wMaxPacketSize := wMaxPacketSize d; speed := speed d;
     devdesc := devdesc d |}.

Definition set_wMaxPacketSize (d : usb_device) (m : Z) : usb_device :=
  {| usbdev_self := usbdev_self d; handle := handle d; bus := bus d;
     address := address d; serial := serial d; alive := alive d;
     usb_interface := usb_interface d; ep_in := ep_in d; ep_out := ep_out d;
     rx_xfers := rx_xfers d; tx_xfers := tx_xfers d;
     wMaxPacketSize := m; speed := speed d;
     devdesc := devdesc d |}.

Definition set_speed (d : usb_device) (s : Z) : usb_device :=
  {| usbdev_self := usbdev_self d; handle := handle d; bus := bus d;
     address := address d; serial := serial d; alive := alive d;
     usb_interface := usb_interface d; ep_in := ep_in d; ep_out := ep_out d;
     rx_xfers := rx_xfers d; tx_xfers := tx_xfers d;
     wMaxPacketSize := wMaxPacketSize d; speed := s;
     devdesc := devdesc d |}.

Definition set_devdesc (d : usb_device) (dd : libusb_device_descriptor)
    : usb_device :=
  {| usbdev_self := usbdev_self d; handle := handle d; bus := bus d;
     address := address d; serial := serial d; alive := alive d;
     usb_interface := usb_interface d; ep_in := ep_in d; ep_out := ep_out d;
     rx_xfers := rx_xfers d; tx_xfers := tx_xfers d;
     wMaxPacketSize := wMaxPacketSize d; speed := speed d;
     devdesc := dd |}.

(** ** The device table

    [device_list] holds the device records by value, one per slot; the
    record found by [find_device] is named by its slot. *)

Record usb_state := {
  device_list : collection usb_device;
  libusb : libusb_world
}.

Definition with_libusb (st : usb_state) (w : libusb_world) : usb_state :=
  {| device_list := device_list st; libusb := w |}.

(** Write a record back into its slot. *)
Definition store_device (slot : nat) (d : usb_device) (st : usb_state)
    (w : libusb_world) : usb_state :=
  {| device_list := <[slot := Some d]> (device_list st); libusb := w |}.

(** [find_device] (lines 422-430): the first full slot, counted from
    [slot], whose record has the given bus and address. *)
Fixpoint find_device_from (col : collection usb_device) (slot : nat)
    (bus_ address_ : Z) : option (nat * usb_device) :=
  match col with
  | [] => None
  | None :: rest => find_device_from rest (S slot) bus_ address_
  | Some usbdev :: rest =>
      if (bus usbdev =? bus_) && (address usbdev =? address_)
      then Some (slot, usbdev)
      else find_device_from rest (S slot) bus_ address_
  end.

Definition find_device (st : usb_state) (bus_ address_ : Z)
    : option (nat * usb_device) :=
  find_device_from (device_list st) 0 bus_ address_.

(** ** [atoi] (libc)

    Optional white space, an optional sign, decimal digits.  As glibc has
    it, [atoi] is [strtol] in base 10 converted to [int]: [strtol]
    answers the number the string spells, kept within the bounds of
    [long] (64 bits), and the conversion to [int] keeps the low 32
    bits. *)

Definition isspace (c : ascii) : bool :=
  let n := Z.of_N (N_of_ascii c) in
  (n =? 32) || ((9 <=? n) && (n <=? 13)).

Definition digit_of (c : ascii) : option Z :=
  let n := Z.of_N (N_of_ascii c) in
  if (48 <=? n) && (n <=? 57) then Some (n - 48) else None.

Fixpoint atoi_digits (s : string) (acc : Z) : Z :=
  match s with
  | EmptyString => acc
  | String c rest =>
      match digit_of c with
      | Some d => atoi_digits rest (10 * acc + d)
      | None => acc
      end
  end.

(** The number the string spells. *)
Fixpoint strtol_number (s : string) : Z :=
  match s with
  | EmptyString => 0
  | String c rest =>
      if isspace c then strtol_number rest
      else if Ascii.eqb c "-" then - atoi_digits rest 0
      else if Ascii.eqb c "+" then atoi_digits rest 0
      else atoi_digits s 0
  end.

Definition LONG_MIN : Z := - 2 ^ 63.
Definition LONG_MAX : Z := 2 ^ 63 - 1.

Definition strtol (s : string) : Z :=
  Z.max LONG_MIN (Z.min LONG_MAX (strtol_number s)).

Definition atoi (s : string) : Z := to_int32 (strtol s).

Section Core.

Variable usb : libusb_oracle.

(** Constants of usb.h. *)
Variables INTERFACE_CLASS INTERFACE_SUBCLASS INTERFACE_PROTOCOL : Z.
Variables APPLE_VEND_SPECIFIC_GET_MODE APPLE_VEND_SPECIFIC_SET_MODE : Z.
Variables VID_APPLE PID_APPLE_T2_COPROCESSOR : Z.
Variables PID_APPLE_SILICON_RESTORE_LOW PID_APPLE_SILICON_RESTORE_MAX : Z.
Variables PID_RANGE_LOW PID_RANGE_MAX : Z.

(** ** libusb calls that consult the oracle *)

Definition libusb_get_config_descriptor_by_value (dev : libusb_device)
    (value : Z) (w : libusb_world)
    : option libusb_config_descriptor * libusb_world :=
  let r := usb_get_config_descriptor_by_value usb (trace w) dev value in
  (r, log_call (Call_get_config_descriptor_by_value dev value r) w).

Definition libusb_free_config_descriptor (c : libusb_config_descriptor)
    (w : libusb_world) : libusb_world :=
  log_call (Call_free_config_descriptor c) w.

Definition libusb_get_configuration (h : option libusb_device_handle)
    (w : libusb_world) : Z * Z * libusb_world :=
  let '(rc, config) := usb_get_configuration usb (trace w) h in
  (rc, config, log_call (Call_get_configuration h rc config) w).

Definition libusb_kernel_driver_active (h : option libusb_device_handle)
    (intf : Z) (w : libusb_world) : Z * libusb_world :=
  let rc := usb_kernel_driver_active usb (trace w) h intf in
  (rc, log_call (Call_kernel_driver_active h intf rc) w).

Definition libusb_detach_kernel_driver (h : option libusb_device_handle)
    (intf : Z) (w : libusb_world) : Z * libusb_world :=
  let rc := usb_detach_kernel_driver usb (trace w) h intf in
  (rc, log_call (Call_detach_kernel_driver h intf rc) w).

Definition libusb_set_configuration (h : option libusb_device_handle)
    (config : Z) (w : libusb_world) : Z * libusb_world :=
  let rc := usb_set_configuration usb (trace w) h config in
  (rc, log_call (Call_set_configuration h config rc) w).

Definition libusb_claim_interface (h : option libusb_device_handle)
    (intf : Z) (w : libusb_world) : Z * libusb_world :=
  let rc := usb_claim_interface usb (trace w) h intf in
  (rc, log_call (Call_claim_interface h intf rc) w).

Definition libusb_get_max_packet_size (dev : libusb_device) (ep : Z)
    (w : libusb_world) : Z * libusb_world :=
  let rc := usb_get_max_packet_size usb (trace w) dev ep in
  (rc, log_call (Call_get_max_packet_size dev ep rc) w).

Definition libusb_get_device_speed (dev : libusb_device) (w : libusb_world)
    : libusb_speed * libusb_world :=
  let s := usb_get_device_speed usb (trace w) dev in
  (s, log_call (Call_get_device_speed dev s) w).

Definition libusb_get_device_list (w : libusb_world)
    : Z * list libusb_device * libusb_world :=
  let '(cnt, devs) := usb_get_device_list usb (trace w) in
  (cnt, devs, log_call (Call_get_device_list cnt devs) w).

Definition libusb_get_device_descriptor (dev : libusb_device)
    (w : libusb_world) : option libusb_device_descriptor * libusb_world :=
  let r := usb_get_device_descriptor usb (trace w) dev in
  (r, log_call (Call_get_device_descriptor dev r) w).

Definition libusb_open (dev : libusb_device) (w : libusb_world)
    : option libusb_device_handle * libusb_world :=
  let r := usb_open usb (trace w) dev in
  (r, log_call (Call_open dev r) w).

(** Allocation where the code tests the result against NULL. *)
Definition libusb_alloc_transfer_checked (w : libusb_world)
    : option ptr * libusb_world :=
  if usb_alloc_fails usb (trace w)
  then (None, log_call (Call_alloc_transfer NULL) w)
  else let '(p, w) := libusb_alloc_transfer w in (Some p, w).

Definition malloc_checked (w : libusb_world) : option ptr * libusb_world :=
  if malloc_fails usb (trace w) then (None, w)
  else let '(p, w) := malloc w in (Some p, w).

Definition libusb_fill_control_setup
    (bmRequestType_ bRequest_ wValue_ wIndex_ wLength_ : Z)
    : libusb_control_setup :=
  {| bmRequestType := to_uint8 bmRequestType_; bRequest := to_uint8 bRequest_;
     wValue := to_uint16 wValue_; wIndex := to_uint16 wIndex_;
     wLength := to_uint16 wLength_ |}.

(** [libusb_fill_control_transfer] on a transfer whose [flags] are [fl]. *)
Definition libusb_fill_control_transfer (xfer : ptr) (fl : Z)
    (h : option libusb_device_handle) (buf : ptr)
    (s : libusb_control_setup) (cb : transfer_cb)
    (ud : transfer_user_data) (tmo : Z) : libusb_transfer :=
  {| xfer_ptr := xfer; dev_handle := h; flags := fl; xfer_endpoint := 0;
     xfer_type := LIBUSB_TRANSFER_TYPE_CONTROL; timeout := tmo;
     xfer_length := LIBUSB_CONTROL_SETUP_SIZE + wLength s;
     callback := cb; user_data := ud; buffer := buf; setup := Some s |}.

(** ** [submit_vendor_specific] (lines 407-420) *)

Definition submit_vendor_specific (h : option libusb_device_handle)
    (context : mode_context) (callback_ : transfer_cb) (w : libusb_world)
    : Z * libusb_world :=
  let '(ctrl_transfer, w) := libusb_alloc_transfer w in
  let '(buffer_, w) := malloc w in
  let bRequestType :=
    Z.lor (Z.lor LIBUSB_REQUEST_TYPE_VENDOR LIBUSB_ENDPOINT_IN)
          LIBUSB_RECIPIENT_DEVICE in
  let s := libusb_fill_control_setup bRequestType (ctx_bRequest context)
             (ctx_wValue context) (ctx_wIndex context) (ctx_wLength context) in
  let t := libusb_fill_control_transfer ctrl_transfer
             LIBUSB_TRANSFER_FREE_TRANSFER h buffer_ s callback_
             (UD_context context) (ctx_timeout context) in
  libusb_submit_transfer usb t w.

(** ** [guess_mode] (lines 437-505)

    Returns 0 - undetermined, 1 - initial, 2 - valeria, 3 - cdc_ncm,
    4 - usbeth+cdc_ncm, 5 - cdc_ncm direct. *)

(** One round of the loop over the interfaces of configuration 5
    (lines 473-489) on [(has_valeria, has_cdc_ncm, has_usbmux)]. *)
Definition guess_mode_interface (acc : bool * bool * bool)
    (i : libusb_interface) : bool * bool * bool :=
  let '(has_valeria, has_cdc_ncm, has_usbmux) := acc in
  let intf := altsetting0 i in
  let has_valeria :=
    if (bInterfaceClass intf =? INTERFACE_CLASS)
       && (bInterfaceSubClass intf =? 42)
       && (bInterfaceProtocol intf =? 255)
    then true else has_valeria in
  let has_cdc_ncm :=
    if (bInterfaceClass intf =? 2) && (bInterfaceSubClass intf =? 0xd)
    then true else has_cdc_ncm in
  let has_usbmux :=
    if (bInterfaceClass intf =? INTERFACE_CLASS)
       && (bInterfaceSubClass intf =? INTERFACE_SUBCLASS)
       && (bInterfaceProtocol intf =? INTERFACE_PROTOCOL)
    then true else has_usbmux in
  (has_valeria, has_cdc_ncm, has_usbmux).

Definition guess_mode (dev : libusb_device) (usbdev : usb_device)
    (w : libusb_world) : Z * libusb_world :=
  let devdesc_ := devdesc usbdev in
  if bNumConfigurations devdesc_ =? 1 then
    (* CDC-NCM Direct *)
    (5, w)
  else if bNumConfigurations devdesc_ <=? 4 then
    (* Assume this is initial mode *)
    (1, w)
  else if bNumConfigurations devdesc_ =? 6 then
    (* USB Ethernet + CDC-NCM *)
    (4, w)
  else if negb (bNumConfigurations devdesc_ =? 5) then
    (* No known modes with more then 5 configurations *)
    (0, w)
  else
    match libusb_get_config_descriptor_by_value dev 5 w with
    | (None, w) => (0, w)
    | (Some config, w) =>
        let '(has_valeria, has_cdc_ncm, has_usbmux) :=
          fold_left guess_mode_interface (interface config)
            (false, false, false) in
        let w := libusb_free_config_descriptor config w in
        if has_valeria && has_usbmux then (2, w)
        else if has_cdc_ncm && has_usbmux then (3, w)
        else (0, w)
    end.

(** ** [set_valid_configuration] (lines 508-600) *)

Definition endpoint_address (intf : libusb_interface_descriptor) (n : nat)
    : Z :=
  bEndpointAddress (nth n (endpoint intf) {| bEndpointAddress := 0 |}).

(** The loop over the interfaces of one configuration (lines 528-558):
    the record with the chosen interface and endpoints, and [found]. *)
Fixpoint scan_interfaces (intfs : list libusb_interface)
    (usbdev : usb_device) (found : bool) : usb_device * bool :=
  match intfs with
  | [] => (usbdev, found)
  | i :: rest =>
      let intf := altsetting0 i in
      if (bInterfaceClass intf =? INTERFACE_CLASS)
         || (bInterfaceSubClass intf =? INTERFACE_SUBCLASS)
         || (bInterfaceProtocol intf =? INTERFACE_PROTOCOL)
      then
        if negb (bNumEndpoints intf =? 2) then
          scan_interfaces rest usbdev found
        else if (Z.land (endpoint_address intf 0) 0x80 =? LIBUSB_ENDPOINT_OUT)
                && (Z.land (endpoint_address intf 1) 0x80 =? LIBUSB_ENDPOINT_IN)
        then
          (set_endpoints usbdev (bInterfaceNumber intf)
             (endpoint_address intf 0) (endpoint_address intf 1), true)
        else if (Z.land (endpoint_address intf 1) 0x80 =? LIBUSB_ENDPOINT_OUT)
                && (Z.land (endpoint_address intf 0) 0x80 =? LIBUSB_ENDPOINT_IN)
        then
          (set_endpoints usbdev (bInterfaceNumber intf)
             (endpoint_address intf 1) (endpoint_address intf 0), true)
        else scan_interfaces rest usbdev found
      else scan_interfaces rest usbdev found
  end.

(** The loop that detaches the kernel drivers (lines 569-582). *)
Fixpoint detach_kernel_drivers (intfs : list libusb_interface)
    (h : option libusb_device_handle) (w : libusb_world) : libusb_world :=
  match intfs with
  | [] => w
  | i :: rest =>
      let intf1 := altsetting0 i in
      let '(res, w) :=
        libusb_kernel_driver_active h (bInterfaceNumber intf1) w in
      if res <? 0 then detach_kernel_drivers rest h w
      else if res =? 1 then
        let '(_, w) :=
          libusb_detach_kernel_driver h (bInterfaceNumber intf1) w in
        detach_kernel_drivers rest h w
      else detach_kernel_drivers rest h w
  end.

(** The loop over the configurations (lines 523-592), [j] counting down
    to 1; [found] is not reset between rounds. *)
Fixpoint set_valid_configuration_loop (j : nat) (dev : libusb_device)
    (h : option libusb_device_handle) (current_config : Z)
    (usbdev : usb_device) (found : bool) (w : libusb_world)
    : usb_device * bool * libusb_world :=
  match j with
  | O => (usbdev, found, w)
  | S j' =>
      match libusb_get_config_descriptor_by_value dev (Z.of_nat j) w with
      | (None, w) =>
          set_valid_configuration_loop j' dev h current_config usbdev found w
      | (Some config, w) =>
          let '(usbdev, found) :=
            scan_interfaces (interface config) usbdev found in
          if negb found then
            let w := libusb_free_config_descriptor config w in
            set_valid_configuration_loop j' dev h current_config usbdev found w
          else if (current_config =? 0)
                  || negb (bConfigurationValue config =? current_config)
          then
            let w := detach_kernel_drivers (interface config) h w in
            let '(res, w) := libusb_set_configuration h (Z.of_nat j) w in
            if negb (res =? 0) then
              let w := libusb_free_config_descriptor config w in
              set_valid_configuration_loop j' dev h current_config usbdev
                found w
            else
              let w := libusb_free_config_descriptor config w in
              (usbdev, found, w)
          else
            let w := libusb_free_config_descriptor config w in
            (usbdev, found, w)
      end
  end.

Definition set_valid_configuration (dev : libusb_device)
    (usbdev : usb_device) (h : option libusb_device_handle)
    (w : libusb_world) : Z * usb_device * libusb_world :=
  let devdesc_ := devdesc usbdev in
  let '(res, current_config, w) := libusb_get_configuration h w in
  if negb (res =? 0) then (-1, usbdev, w)
  else
    let '(usbdev, found, w) :=
      set_valid_configuration_loop (Z.to_nat (bNumConfigurations devdesc_))
        dev h current_config usbdev false w in
    if negb found then (-1, usbdev, w) else (0, usbdev, w).

(** ** [device_complete_initialization] (lines 602-695) *)

Definition speed_of (s : libusb_speed) : Z :=
  match s with
  | LIBUSB_SPEED_LOW => 1500000
  | LIBUSB_SPEED_FULL => 12000000
  | LIBUSB_SPEED_SUPER => 5000000000
  | LIBUSB_SPEED_SUPER_PLUS => 10000000000
  | LIBUSB_SPEED_HIGH | LIBUSB_SPEED_UNKNOWN => 480000000
  end.

Definition device_complete_initialization (context : mode_context)
    (h : option libusb_device_handle) (st : usb_state) : usb_state :=
  match find_device st (ctx_bus context) (ctx_address context) with
  | None => st
  | Some (slot, usbdev) =>
      let dev := ctx_dev context in
      let devdesc_ := devdesc usbdev in
      let bus_ := ctx_bus context in
      let address_ := ctx_address context in
      let '(res, usbdev, w) :=
        set_valid_configuration dev usbdev h (libusb st) in
      if negb (res =? 0) then store_device slot (set_alive usbdev 0) st w
      else
        let '(res, w) := libusb_claim_interface h (usb_interface usbdev) w in
        if negb (res =? 0) then store_device slot (set_alive usbdev 0) st w
        else
          match libusb_alloc_transfer_checked w with
          | (None, w) => store_device slot (set_alive usbdev 0) st w
          | (Some transfer, w) =>
              match malloc_checked w with
              | (None, w) => store_device slot (set_alive usbdev 0) st w
              | (Some transfer_buffer, w) =>
                  let usbdev :=
                    set_serial usbdev (<[0%nat := x00]> (serial usbdev)) in
                  let usbdev := set_location usbdev bus_ address_ in
                  let usbdev := set_devdesc usbdev devdesc_ in
                  let usbdev := set_speed usbdev 480000000 in
                  let usbdev := set_handle usbdev h in
                  let usbdev := set_alive usbdev 1 in
                  let '(mps, w) :=
                    libusb_get_max_packet_size dev (ep_out usbdev) w in
                  let usbdev :=
                    if mps <=? 0 then set_wMaxPacketSize usbdev 64
                    else set_wMaxPacketSize usbdev mps in
                  let '(sp, w) := libusb_get_device_speed dev w in
                  let usbdev := set_speed usbdev (speed_of sp) in
                  let s :=
                    libusb_fill_control_setup LIBUSB_ENDPOINT_IN
                      LIBUSB_REQUEST_GET_DESCRIPTOR
                      (Z.shiftl LIBUSB_DT_STRING 8) 0
                      (1024 + LIBUSB_CONTROL_SETUP_SIZE) in
                  let t :=
                    libusb_fill_control_transfer transfer 0 h transfer_buffer
                      s CB_get_langid_callback
                      (UD_device (usbdev_self usbdev)) 1000 in
                  let '(res, w) := libusb_submit_transfer usb t w in
                  if res <? 0 then
                    let w := libusb_free_transfer transfer w in
                    store_device slot (set_alive usbdev 0) st w
                  else store_device slot usbdev st w
              end
          end
  end.

(** ** Completion of a control transfer, as its callback sees it:
    the transfer, its [status], and the bytes
    [libusb_control_transfer_get_data] points at. *)
Record transfer_completion := {
  completed_xfer : libusb_transfer;
  status : libusb_transfer_status;
  control_data : list byte
}.

(** ** [switch_mode_cb] (lines 697-721); [context] is the transfer's
    [user_data]. *)
Definition switch_mode_cb (context : mode_context)
    (transfer : transfer_completion) (st : usb_state) : usb_state :=
  (* a device missing from the list is only logged (lines 701-704) *)
  if negb (status_completed (status transfer)) then
    device_complete_initialization context
      (dev_handle (completed_xfer transfer)) st
  else
    let data := control_data transfer in
    if negb (byte_val (data_at data 0) =? 0) then
      device_complete_initialization context
        (dev_handle (completed_xfer transfer)) st
    else st.

(** The context [get_mode_cb] turns into a SET_MODE request
    (lines 756-759). *)
Definition set_mode_context (context : mode_context) (desired_mode : Z)
    : mode_context :=
  {| ctx_dev := ctx_dev context; ctx_bus := ctx_bus context;
     ctx_address := ctx_address context;
     ctx_bRequest := to_uint8 APPLE_VEND_SPECIFIC_SET_MODE;
     ctx_wValue := 0; ctx_wIndex := to_uint16 desired_mode;
     ctx_wLength := 1; ctx_timeout := ctx_timeout context |}.

(** Line 746; [desired_mode_char] is the result of
    [getenv(ENV_DEVICE_MODE)], [None] when the variable is unset.  The
    result is the [int] that [atoi] returns. *)
Definition get_desired_mode (desired_mode_char : option string) : Z :=
  match desired_mode_char with
  | Some s => atoi s
  | None => 1
  end.

(** ** [get_mode_cb] (lines 723-774); [context] is the transfer's
    [user_data]. *)
Definition get_mode_cb (desired_mode_char : option string)
    (context : mode_context) (transfer : transfer_completion)
    (st : usb_state) : usb_state :=
  match find_device st (ctx_bus context) (ctx_address context) with
  | None => st
  | Some (slot, dev) =>
      if negb (status_completed (status transfer)) then
        device_complete_initialization context
          (dev_handle (completed_xfer transfer)) st
      else
        let desired_mode := get_desired_mode desired_mode_char in
        let '(guessed_mode, w) :=
          guess_mode (ctx_dev context) dev (libusb st) in
        if (desired_mode >=? 1) && (desired_mode <=? 5)
           && (guessed_mode >? 0) (* do not switch mode if guess failed *)
           && negb (guessed_mode =? desired_mode)
        then
          let context := set_mode_context context desired_mode in
          let '(res, w) :=
            submit_vendor_specific (dev_handle (completed_xfer transfer))
              context CB_switch_mode_cb w in
          if negb (res =? 0) then store_device slot (set_alive dev 0) st w
          else with_libusb st w
        else
          device_complete_initialization context
            (dev_handle (completed_xfer transfer)) (with_libusb st w)
  end.

(** ** [usb_device_add] (lines 776-850) *)

(** The record of lines 811-823: zeroed, then filled. *)
Definition new_usb_device (self : ptr) (bus_ address_ : Z)
    (devdesc_ : libusb_device_descriptor) (h : libusb_device_handle)
    : usb_device :=
  {| usbdev_self := self; handle := Some h; bus := bus_; address := address_;
     serial := repeat x00 256; alive := 1;
     usb_interface := 0; ep_in := 0; ep_out := 0;
     rx_xfers := collection_init; tx_xfers := collection_init;
     wMaxPacketSize := 0; speed := 0; devdesc := devdesc_ |}.

Definition get_mode_context (dev : libusb_device) (bus_ address_ : Z)
    : mode_context :=
  {| ctx_dev := dev; ctx_bus := bus_; ctx_address := address_;
     ctx_bRequest := to_uint8 APPLE_VEND_SPECIFIC_GET_MODE;
     ctx_wValue := 0; ctx_wIndex := 0; ctx_wLength := 4;
     ctx_timeout := 1000 |}.

Definition usb_device_add (dev : libusb_device) (st : usb_state)
    : Z * usb_state :=
  let bus_ := usb_get_bus_number usb dev in
  let address_ := usb_get_device_address usb dev in
  match find_device st bus_ address_ with
  | Some (slot, usbdev) =>
      (* device already found *)
      (0, store_device slot (set_alive usbdev 1) st (libusb st))
  | None =>
      match libusb_get_device_descriptor dev (libusb st) with
      | (None, w) => (-1, with_libusb st w)
      | (Some devdesc_, w) =>
          if negb (idVendor devdesc_ =? VID_APPLE) then (-1, with_libusb st w)
          else if negb (idProduct devdesc_ =? PID_APPLE_T2_COPROCESSOR)
                  && ((idProduct devdesc_ <? PID_APPLE_SILICON_RESTORE_LOW)
                      || (idProduct devdesc_ >? PID_APPLE_SILICON_RESTORE_MAX))
                  && ((idProduct devdesc_ <? PID_RANGE_LOW)
                      || (idProduct devdesc_ >? PID_RANGE_MAX))
          then (-1, with_libusb st w)
          else
            match libusb_open dev w with
            | (None, w) => (-1, with_libusb st w)
            | (Some h, w) =>
                let '(self, w) := malloc w in
                let usbdev := new_usb_device self bus_ address_ devdesc_ h in
                let '(_, w) := malloc w in
                let context := get_mode_context dev bus_ address_ in
                let '(res, w) :=
                  submit_vendor_specific (Some h) context CB_get_mode_cb w in
                if negb (res =? 0) then
                  (* Schedule device for close and cleanup *)
                  (-1, {| device_list :=
                            collection_add (device_list st)
                              (set_alive usbdev 0);
                          libusb := w |})
                else
                  (0, {| device_list := collection_add (device_list st) usbdev;
                         libusb := w |})
            end
      end
  end.

(** ** [usb_discover] (lines 852-905) *)

(** [reap_dead_devices] removes the records that are not alive through
    the collaborator's [device_remove] and [usb_disconnect], which pumps
    libusb events and thereby runs completion callbacks; its effect on the
    device table is a parameter. *)
Variable reap_dead_devices : usb_state -> usb_state.

(** The static variables of usb.c that [usb_discover] uses.
    [devlist_failures] is an [int]; the model does not wrap it, which
    would take 2^31 failed fetches in a row. *)
Record usb_core := {
  core_state : usb_state;
  devlist_failures : Z;
  next_dev_poll_time : timeval
}.

Definition DEVICE_POLL_TIME : Z := 1000.

(** Lines 867-870 and 899-902. *)
Definition schedule_next_poll (w : libusb_world) : timeval :=
  let tv := get_tick_count usb (trace w) in
  let usec := tv_usec tv + DEVICE_POLL_TIME * 1000 in
  {| tv_sec := tv_sec tv + Z.quot usec 1000000;
     tv_usec := Z.rem usec 1000000 |}.

(** Lines 880-882. *)
Definition mark_all_dead (col : collection usb_device)
    : collection usb_device :=
  map (fun slot => match slot with
                   | Some usbdev => Some (set_alive usbdev 0)
                   | None => None
                   end) col.

(** Lines 886-892. *)
Fixpoint add_devices (devs : list libusb_device) (st : usb_state)
    (valid_count : Z) : Z * usb_state :=
  match devs with
  | [] => (valid_count, st)
  | dev :: rest =>
      let '(res, st) := usb_device_add dev st in
      if res <? 0 then add_devices rest st valid_count
      else add_devices rest st (valid_count + 1)
  end.

Definition usb_discover (g : usb_core) : Z * usb_core :=
  let st := core_state g in
  let '(cnt, devs, w) := libusb_get_device_list (libusb st) in
  if cnt <? 0 then
    let failures := devlist_failures g + 1 in
    (* sometimes libusb fails getting the device list if you've just
       removed something *)
    if failures >? 5 then
      (cnt, {| core_state := with_libusb st w;
               devlist_failures := failures;
               next_dev_poll_time := next_dev_poll_time g |})
    else
      (0, {| core_state := with_libusb st w;
             devlist_failures := failures;
             next_dev_poll_time := schedule_next_poll w |})
  else
    let st := {| device_list := mark_all_dead (device_list st);
                 libusb := w |} in
    let '(valid_count, st) :=
      add_devices (take (Z.to_nat cnt) devs) st 0 in
    let st := reap_dead_devices st in
    let w := log_call (Call_free_device_list devs) (libusb st) in
    (valid_count, {| core_state := with_libusb st w;
                     devlist_failures := 0;
                     next_dev_poll_time := schedule_next_poll w |}).

(** Whether the device-list fetch of the next [usb_discover] fails. *)
Definition fetch_fails (g : usb_core) : bool :=
  fst (usb_get_device_list usb (trace (libusb (core_state g)))) <? 0.

(** [n] calls of [usb_discover] in a row: their results, oldest first,
    and the state they leave. *)
Fixpoint usb_discover_times (n : nat) (g : usb_core) : list Z * usb_core :=
  match n with
  | O => ([], g)
  | S n' =>
      let '(res, g) := usb_discover g in
      let '(rest, g) := usb_discover_times n' g in
      (res :: rest, g)
  end.

(** Whether the fetch fails in each of the next [n] calls. *)
Fixpoint fetch_fails_times (n : nat) (g : usb_core) : bool :=
  match n with
  | O => true
  | S n' => fetch_fails g && fetch_fails_times n' (snd (usb_discover g))
  end.

End Core.

(** * Notions used in the statements *)

(** ** Writes *)

(** A zero-length packet follows the payload of a write: the call hands
    exactly two transfers to libusb, the payload and then a transfer of
    length 0 on the same endpoint. *)
Definition zlp_follows (usb : libusb_oracle) (dev : usb_device) (buf : ptr)
    (len : Z) (w : libusb_world) : Prop :=
  exists z, usb_send_submitted usb dev buf len w
            = [usb_send_payload dev buf len w; z]
            /\ xfer_length z = 0 /\ xfer_endpoint z = ep_out dev.

(** ** Serial decoding *)

(** [n] units from offset [si] on. *)
Fixpoint units_from (data : list byte) (si : Z) (n : nat)
    : list (byte * byte) :=
  match n with
  | O => []
  | S n' =>
      (data_at data si, data_at data (si + 1)) :: units_from data (si + 2) n'
  end.

(** The number of rounds the loop still makes when it is at [si]. *)
Definition units_left (data : list byte) (si : Z) : nat :=
  Z.to_nat ((byte_val (data_at data 0) - si + 1) / 2).

(** The effect of [serial[di++] = b] for each [b] of [out]. *)
Fixpoint write_bytes (buf : list byte) (i : nat) (out : list byte)
    : list byte :=
  match out with
  | [] => buf
  | b :: rest => write_bytes (<[i := b]> buf) (S i) rest
  end.

(** ** Traces *)

(** [w'] is [w] after some more calls, none of them a submission. *)
Definition quiet (w w' : libusb_world) : Prop :=
  exists calls, trace w' = trace w ++ calls /\ submitted calls = [].

(** [w'] is [w] after some more calls, whose submissions all satisfy [P]. *)
Definition submits_only (P : libusb_transfer -> Prop) (w w' : libusb_world)
    : Prop :=
  exists calls, trace w' = trace w ++ calls /\ Forall P (submitted calls).

(** The request for the language IDs that ends
    [device_complete_initialization]. *)
Definition from_get_langid (t : libusb_transfer) : Prop :=
  callback t = CB_get_langid_callback
  /\ setup t = Some (libusb_fill_control_setup LIBUSB_ENDPOINT_IN
                       LIBUSB_REQUEST_GET_DESCRIPTOR
                       (Z.shiftl LIBUSB_DT_STRING 8) 0
                       (1024 + LIBUSB_CONTROL_SETUP_SIZE)).

(** Configuration selection has started between two states: the first
    new call is [libusb_get_configuration], with which
    [set_valid_configuration] begins. *)
Definition starts_configuration (st st' : usb_state) : bool :=
  match new_calls (libusb st) (libusb st') with
  | Call_get_configuration _ _ _ :: _ => true
  | _ => false
  end.

(** The SET_MODE transfer completed and the device answered 0x00. *)
Definition switch_accepted (transfer : transfer_completion) : bool :=
  status_completed (status transfer)
  && (byte_val (data_at (control_data transfer) 0) =? 0).

(** A SET_MODE request: vendor, device-to-host, to the device, with the
    SET_MODE request code. *)
Definition is_set_mode_request (APPLE_VEND_SPECIFIC_SET_MODE : Z)
    (t : libusb_transfer) : bool :=
  match setup t with
  | Some s => (bmRequestType s =? 0xC0)
              && (bRequest s =? to_uint8 APPLE_VEND_SPECIFIC_SET_MODE)
  | None => false
  end.

(** ** The mode table as the specification words it *)

Section ModeTable.

Variables INTERFACE_CLASS INTERFACE_SUBCLASS INTERFACE_PROTOCOL : Z.

Definition is_multiplexer_interface (intf : libusb_interface_descriptor)
    : bool :=
  (bInterfaceClass intf =? INTERFACE_CLASS)
  && (bInterfaceSubClass intf =? INTERFACE_SUBCLASS)
  && (bInterfaceProtocol intf =? INTERFACE_PROTOCOL).

(** The vendor class is [INTERFACE_CLASS] of usb.h. *)
Definition is_valeria_interface (intf : libusb_interface_descriptor) : bool :=
  (bInterfaceClass intf =? INTERFACE_CLASS)
  && (bInterfaceSubClass intf =? 42)
  && (bInterfaceProtocol intf =? 255).

Definition is_cdc_ncm_interface (intf : libusb_interface_descriptor) : bool :=
  (bInterfaceClass intf =? 2) && (bInterfaceSubClass intf =? 0x0d).

Definition config_has (p : libusb_interface_descriptor -> bool)
    (config : libusb_config_descriptor) : bool :=
  existsb (fun i => p (altsetting0 i)) (interface config).

(** The mode read off configuration 5; [None] is an unreadable
    configuration. *)
Definition spec_mode_of_config5 (r : option libusb_config_descriptor) : Z :=
  match r with
  | None => 0
  | Some config =>
      if config_has is_valeria_interface config
         && config_has is_multiplexer_interface config then 2
      else if config_has is_cdc_ncm_interface config
              && config_has is_multiplexer_interface config then 3
      else 0
  end.

End ModeTable.

(** * Concrete devices, states and answers of libusb *)

Definition ex_devdesc (n : Z) : libusb_device_descriptor :=
  {| idVendor := 0x05ac; idProduct := 0x12a8; iSerialNumber := 3;
     bNumConfigurations := n |}.

(** A live device at 1-5 with [n] configurations. *)
Definition ex_device (n : Z) : usb_device :=
  {| usbdev_self := 100%nat; handle := Some 7%nat; bus := 1; address := 5;
     serial := repeat x00 256; alive := 1;
     usb_interface := 1; ep_in := 0x85; ep_out := 0x04;
     rx_xfers := collection_init; tx_xfers := collection_init;
     wMaxPacketSize := 64; speed := 480000000; devdesc := ex_devdesc n |}.

Definition ex_dead_device : usb_device := set_handle (ex_device 4) None.

Definition ex_world : libusb_world := {| trace := []; last_ptr := 100%nat |}.

Definition ex_state (n : Z) : usb_state :=
  {| device_list := [Some (ex_device n)]; libusb := ex_world |}.

(** Configuration 5 of a device in valeria mode. *)
Definition ex_config5 : libusb_config_descriptor :=
  {| bConfigurationValue := 5;
     interface :=
       [ {| altsetting0 :=
              {| bInterfaceNumber := 0; bInterfaceClass := 255;
                 bInterfaceSubClass := 254; bInterfaceProtocol := 2;
                 endpoint := [ {| bEndpointAddress := 0x04 |};
                               {| bEndpointAddress := 0x85 |} ] |};
            altsetting_more := [] |};
         {| altsetting0 :=
              {| bInterfaceNumber := 1; bInterfaceClass := 255;
                 bInterfaceSubClass := 42; bInterfaceProtocol := 255;
                 endpoint := [] |};
            altsetting_more := [] |} ] |}.

(** libusb answering [submit t] to the submission of [t], [fetch] to
    every request for the device list, and success elsewhere. *)
Definition ex_libusb (submit : libusb_transfer -> Z)
    (fetch : Z * list libusb_device) : libusb_oracle :=
  {| usb_submit_transfer := fun _ t => submit t;
     usb_get_configuration := fun _ _ => (0, 4);
     usb_get_config_descriptor_by_value :=
       fun _ _ v => if v =? 5 then Some ex_config5 else None;
     usb_kernel_driver_active := fun _ _ _ => 0;
     usb_detach_kernel_driver := fun _ _ _ => 0;
     usb_set_configuration := fun _ _ _ => 0;
     usb_claim_interface := fun _ _ _ => 0;
     usb_get_max_packet_size := fun _ _ _ => 512;
     usb_get_device_speed := fun _ _ => LIBUSB_SPEED_HIGH;
     usb_get_device_list := fun _ => fetch;
     usb_get_bus_number := fun _ => 1;
     usb_get_device_address := fun d => Z.of_nat d;
     usb_get_device_descriptor := fun _ _ => Some (ex_devdesc 4);
     usb_open := fun _ d => Some d;
     usb_alloc_fails := fun _ => false;
     malloc_fails := fun _ => false;
     get_tick_count := fun _ => {| tv_sec := 10; tv_usec := 500000 |} |}.

(** Every submission accepted; every submission refused with
    LIBUSB_ERROR_IO; only the zero-length ones refused. *)
Definition ex_usb_ok : libusb_oracle := ex_libusb (fun _ => 0) (0, []).

Definition ex_usb_refusing : libusb_oracle := ex_libusb (fun _ => -1) (0, []).

Definition ex_usb_zlp_refused : libusb_oracle :=
  ex_libusb (fun t => if xfer_length t =? 0 then -1 else 0) (0, []).

(** The device list cannot be fetched (LIBUSB_ERROR_NO_MEM). *)
Definition ex_usb_no_list : libusb_oracle := ex_libusb (fun _ => 0) (-11, []).

(** The context and the completion of a vendor request to the device at
    1-5: [status] and the response bytes. *)
Definition ex_context : mode_context :=
  {| ctx_dev := 9%nat; ctx_bus := 1; ctx_address := 5; ctx_bRequest := 0x52;
     ctx_wValue := 0; ctx_wIndex := 2; ctx_wLength := 1;
     ctx_timeout := 1000 |}.

Definition ex_completion (st : libusb_transfer_status) (response : list byte)
    : transfer_completion :=
  {| completed_xfer :=
       libusb_fill_control_transfer 101%nat LIBUSB_TRANSFER_FREE_TRANSFER
         (Some 7%nat) 102%nat
         (libusb_fill_control_setup 0xC0 (ctx_bRequest ex_context)
            (ctx_wValue ex_context) (ctx_wIndex ex_context)
            (ctx_wLength ex_context))
         CB_switch_mode_cb (UD_context ex_context) 1000;
     status := st;
     control_data := response |}.

Definition ex_core : usb_core :=
  {| core_state := ex_state 4; devlist_failures := 0;
     next_dev_poll_time := {| tv_sec := 0; tv_usec := 0 |} |}.

(** [usb_discover] with the constants of usb.h for Apple devices and a
    reaper that finds nothing to remove. *)
Definition ex_usb_discover (usb : libusb_oracle) (g : usb_core)
    : Z * usb_core :=
  usb_discover usb 0x45 0x05ac 0x8600 0x1901 0x1905 0x1290 0x12af
    (fun st => st) g.

Definition ex_usb_discover_times (usb : libusb_oracle) (n : nat)
    (g : usb_core) : list Z * usb_core :=
  usb_discover_times usb 0x45 0x05ac 0x8600 0x1901 0x1905 0x1290 0x12af
    (fun st => st) n g.

(** A string descriptor holding the 24 characters
    00008030000A1B2C3D4E5F60, and one whose second unit is not ASCII. *)
Definition ex_serial_descriptor : list byte :=
  x32 :: x03 ::
  flat_map (fun b => [b; x00])
    (list_byte_of_string "00008030000A1B2C3D4E5F60").

Definition ex_non_ascii_descriptor : list byte :=
  [x08; x03; x41; x00; xe9; x00; x43; x00].

(** * The other functions of usb.c *)

Definition LIBUSB_TRANSFER_FREE_BUFFER : Z := 2.

(** Number of parallel bulk transfers for reading (line 54). *)
Definition NUM_RX_LOOPS : nat := 3.

Definition set_rx_xfers (d : usb_device) (c : collection ptr) : usb_device :=
  {| usbdev_self := usbdev_self d; handle := handle d; bus := bus d;
     address := address d; serial := serial d; alive := alive d;
     usb_interface := usb_interface d; ep_in := ep_in d; ep_out := ep_out d;
     rx_xfers := c; tx_xfers := tx_xfers d;
     wMaxPacketSize := wMaxPacketSize d; speed := speed d;
     devdesc := devdesc d |}.

(** Completion of a bulk transfer, as its callback sees it: the
    transfer, its [status], the bytes of its buffer and
    [actual_length]. *)
Record bulk_completion := {
  bulk_xfer : libusb_transfer;
  bulk_status : libusb_transfer_status;
  bulk_buffer : list byte;
  actual_length : Z
}.

(** ** [tx_callback] (lines 173-213); [dev] is the record the transfer's
    [user_data] points to.  The [free] of the buffer leaves no call in
    the world, here and in [rx_callback]. *)
Definition tx_callback (xfer : bulk_completion) (dev : usb_device)
    (w : libusb_world) : usb_device * libusb_world :=
  let dev :=
    if negb (status_completed (bulk_status xfer)) then
      (* mark it as dead and reap it after processing events *)
      set_alive dev 0
    else dev in
  let dev :=
    set_tx_xfers dev
      (collection_remove Nat.eqb (tx_xfers dev) (xfer_ptr (bulk_xfer xfer))) in
  (dev, libusb_free_transfer (xfer_ptr (bulk_xfer xfer)) w).

Section Callbacks.

Variable usb : libusb_oracle.

(** Read unit of usb.h. *)
Variable USB_MRU : Z.

(** The collaborator (device.h).  [device_data_input] and [device_add]
    may send to the device through [usb_send], so they may change the
    record and make libusb calls. *)
Variable device_data_input :
  usb_device -> list byte -> Z -> libusb_world -> usb_device * libusb_world.
Variable device_add : usb_device -> libusb_world -> Z * usb_device * libusb_world.

(** ** [rx_callback] (lines 245-289) *)
Definition rx_callback (xfer : bulk_completion) (dev : usb_device)
    (w : libusb_world) : usb_device * libusb_world :=
  if status_completed (bulk_status xfer) then
    let '(dev, w) :=
      device_data_input dev (bulk_buffer xfer) (actual_length xfer) w in
    let '(_, w) := libusb_submit_transfer usb (bulk_xfer xfer) w in
    (dev, w)
  else
    let dev :=
      set_rx_xfers dev
        (collection_remove Nat.eqb (rx_xfers dev)
           (xfer_ptr (bulk_xfer xfer))) in
    let w := libusb_free_transfer (xfer_ptr (bulk_xfer xfer)) w in
    (set_alive dev 0, w).

(** ** [start_rx_loop] (lines 292-308) *)
Definition start_rx_loop (dev : usb_device) (w : libusb_world)
    : Z * usb_device * libusb_world :=
  let '(xfer, w) := libusb_alloc_transfer w in
  let '(buf, w) := malloc w in
  let t := libusb_fill_bulk_transfer xfer (handle dev) (ep_in dev) buf
             USB_MRU CB_rx_callback (UD_device (usbdev_self dev)) 0 in
  let '(res, w) := libusb_submit_transfer usb t w in
  if negb (res =? 0) then
    let w := libusb_free_transfer xfer w in
    (res, dev, w)
  else
    let dev := set_rx_xfers dev (collection_add (rx_xfers dev) xfer) in
    (0, dev, w).

(** The loop of lines 354-359, from a given [rx_loops]; the result starts
    with the value [rx_loops] has when the loop is left. *)
Fixpoint start_rx_loops (rx_loops : nat) (usbdev : usb_device)
    (w : libusb_world) : nat * usb_device * libusb_world :=
  match rx_loops with
  | O => (O, usbdev, w)
  | S rx_loops' =>
      let '(res, usbdev, w) := start_rx_loop usbdev w in
      if res <? 0 then (rx_loops, usbdev, w)
      else start_rx_loops rx_loops' usbdev w
  end.

(** ** [get_serial_callback] (lines 310-375)

    The function ends in one of four ways; the calls of [device_remove]
    and [usb_disconnect] that end two of them are the last thing it
    does, and are named by the outcome. *)
Inductive serial_outcome :=
| Serial_request_failed     (* return of line 318 *)
| Serial_device_add_failed  (* usb_disconnect(usbdev), line 346 *)
| Serial_no_rx_loop         (* device_remove, usb_disconnect, lines 365-366 *)
| Serial_ready.             (* at least one RX loop is going *)

Definition get_serial_callback (transfer : transfer_completion)
    (usbdev : usb_device) (w : libusb_world)
    : serial_outcome * usb_device * libusb_world :=
  if negb (status_completed (status transfer)) then
    let w := libusb_free_transfer (xfer_ptr (completed_xfer transfer)) w in
    (Serial_request_failed, usbdev, w)
  else
    (* lines 321-342; the transfer is freed at line 335 *)
    let usbdev :=
      get_serial_callback_serial (status transfer) (control_data transfer)
        usbdev in
    let w := libusb_free_transfer (xfer_ptr (completed_xfer transfer)) w in
    (* Finish setup now *)
    let '(res, usbdev, w) := device_add usbdev w in
    if res <? 0 then (Serial_device_add_failed, usbdev, w)
    else
      let '(rx_loops, usbdev, w) := start_rx_loops NUM_RX_LOOPS usbdev w in
      (* Ensure we have at least 1 RX loop going *)
      if Nat.eqb rx_loops NUM_RX_LOOPS then (Serial_no_rx_loop, usbdev, w)
      else (Serial_ready, usbdev, w).

(** ** [get_langid_callback] (lines 377-405) *)

Definition langid_of (data : list byte) : Z :=
  to_uint16 (Z.lor (byte_val (data_at data 2))
                   (Z.shiftl (byte_val (data_at data 3)) 8)).

(** The request for the serial string that re-uses the transfer
    (lines 396-399). *)
Definition serial_request (transfer : transfer_completion)
    (usbdev : usb_device) : libusb_transfer :=
  let langid := langid_of (control_data transfer) in
  let s :=
    libusb_fill_control_setup LIBUSB_ENDPOINT_IN
      LIBUSB_REQUEST_GET_DESCRIPTOR
      (to_uint16 (Z.lor (Z.shiftl LIBUSB_DT_STRING 8)
                        (iSerialNumber (devdesc usbdev))))
      langid (1024 + LIBUSB_CONTROL_SETUP_SIZE) in
  libusb_fill_control_transfer (xfer_ptr (completed_xfer transfer))
    (Z.lor (flags (completed_xfer transfer)) LIBUSB_TRANSFER_FREE_BUFFER)
    (handle usbdev) (buffer (completed_xfer transfer)) s
    CB_get_serial_callback (UD_device (usbdev_self usbdev)) 1000.

Definition get_langid_callback (transfer : transfer_completion)
    (usbdev : usb_device) (w : libusb_world) : libusb_world :=
  if negb (status_completed (status transfer)) then
    libusb_free_transfer (xfer_ptr (completed_xfer transfer)) w
  else
    let '(res, w) :=
      libusb_submit_transfer usb (serial_request transfer usbdev) w in
    if res <? 0 then
      libusb_free_transfer (xfer_ptr (completed_xfer transfer)) w
    else w.

End Callbacks.

(** ** [dev_poll_remain_ms] (lines 963-975) and [usb_get_timeout]
    (lines 977-996)

    [now] is the answer of [get_tick_count]; [next_timeout] is the result
    and the [timeval] of [libusb_get_next_timeout].  The fields of a
    [timeval] are [long]; the assignments to the [int] variables convert
    them. *)
Definition dev_poll_remain_ms (device_polling : Z)
    (next_dev_poll_time now : timeval) : Z :=
  if device_polling =? 0 then
    100000 (* devices will never be polled if this is > 0 *)
  else
    let msecs :=
      to_int32 ((tv_sec next_dev_poll_time - tv_sec now) * 1000) in
    let msecs :=
      to_int32 (msecs
                + Z.quot (tv_usec next_dev_poll_time - tv_usec now) 1000) in
    if msecs <? 0 then 0 else msecs.

Definition usb_get_timeout (device_polling : Z)
    (next_dev_poll_time now : timeval) (next_timeout : Z * timeval) : Z :=
  let pollrem := dev_poll_remain_ms device_polling next_dev_poll_time now in
  let '(res, tv) := next_timeout in
  if res =? 0 then pollrem
  else if res <? 0 then pollrem
  else
    let msec := to_int32 (tv_sec tv * 1000) in
    let msec := to_int32 (msec + Z.quot (tv_usec tv) 1000) in
    if msec >? pollrem then pollrem else msec.

(** ** Teardown: [usb_disconnect] (lines 85-161), [reap_dead_devices]
    (lines 163-170) and [usb_shutdown] (lines 1122-1136)

    The calls of the teardown paths, with the answer where the code
    reads it.  [Call_device_remove] is the collaborator's
    [device_remove]; [Call_force_free_transfer] is the
    [libusb_free_transfer] of the forced cleanup. *)
Inductive teardown_call :=
| Call_cancel_transfer (p : ptr)
| Call_handle_events_timeout (res : Z)
| Call_force_free_transfer (p : ptr)
| Call_release_interface (h : option libusb_device_handle) (intf : Z)
| Call_close (h : option libusb_device_handle)
| Call_device_remove (p : ptr)
| Call_hotplug_deregister_callback
| Call_exit.

(** [max_iterations] of line 118. *)
Definition max_iterations : Z := Z.quot (100 * 1000) 1000.

(** The condition of lines 120 and 134. *)
Definition xfers_pending (dev : usb_device) : bool :=
  negb (collection_count (rx_xfers dev) =? 0)
  || negb (collection_count (tx_xfers dev) =? 0).

Section Teardown.

(** One call of [libusb_handle_events_timeout] while the record [dev] is
    being disconnected: its result, and the record and the device table
    as the callbacks that ran inside the call left them.  The call runs
    the callbacks of every device, so the table may come back changed in
    any way: records marked dead or alive again, added, or taken out.
    The answer may depend on the teardown calls so far; the calls the
    callbacks make themselves are not listed among them.  A callback
    that disconnects [dev] itself would make [usb_disconnect] read freed
    memory; the model reads the record as this call returns it. *)
Variable usb_handle_events :
  list teardown_call -> usb_device -> collection usb_device ->
  Z * usb_device * collection usb_device.

(** The loop of lines 120-131; [left] is
    [max_iterations - iterations]. *)
Fixpoint usb_disconnect_wait (left : nat) (dev : usb_device)
    (col : collection usb_device) (log : list teardown_call)
    : usb_device * collection usb_device * list teardown_call :=
  match left with
  | O => (dev, col, log)
  | S left' =>
      if xfers_pending dev then
        let '(res, dev, col) := usb_handle_events log dev col in
        let log := log ++ [Call_handle_events_timeout res] in
        if res <? 0 then (dev, col, log)
        else usb_disconnect_wait left' dev col log
      else (dev, col, log)
  end.

(** [usb_disconnect] of the record [dev], with the device table [col];
    [d] is the record as the event handling leaves it.  The record is
    taken out of the table, as the event handling left it, by its
    address. *)
Definition usb_disconnect (dev : usb_device) (col : collection usb_device)
    (log : list teardown_call)
    : collection usb_device * list teardown_call :=
  match handle dev with
  | None => (col, log)
  | Some _ =>
      (* kill the rx xfer and tx xfers *)
      let log :=
        log ++ map Call_cancel_transfer (collection_elements (rx_xfers dev)) in
      let log :=
        log ++ map Call_cancel_transfer (collection_elements (tx_xfers dev)) in
      (* Wait for cancellations to complete but with a timeout *)
      let '(d, col, log) :=
        usb_disconnect_wait (Z.to_nat max_iterations) dev col log in
      (* If we still have pending transfers after timeout, force cleanup *)
      let '(d, log) :=
        if xfers_pending d then
          let log :=
            log ++ map Call_force_free_transfer
                     (collection_elements (rx_xfers d)) in
          let d := set_rx_xfers d collection_init in
          let log :=
            log ++ map Call_force_free_transfer
                     (collection_elements (tx_xfers d)) in
          let d := set_tx_xfers d collection_init in
          (d, log)
        else (d, log) in
      let log :=
        log ++ [Call_release_interface (handle d) (usb_interface d)] in
      let log := log ++ [Call_close (handle d)] in
      (collection_remove
         (fun a b => Nat.eqb (usbdev_self a) (usbdev_self b)) col dev,
       log)
  end.

(** At most [n] rounds of the FOREACH of [reap_dead_devices], from slot
    [i] on: whether the loop has ended, the table and the calls.  A
    round looks at one slot; the loop ends when [i] reaches the capacity
    of the table, which is read anew in every round. *)
Fixpoint reap_dead_devices_from (n i : nat) (col : collection usb_device)
    (log : list teardown_call)
    : bool * collection usb_device * list teardown_call :=
  match col !! i with
  | None => (true, col, log)
  | Some slot =>
      match n with
      | O => (false, col, log)
      | S n' =>
          match slot with
          | Some usbdev =>
              if alive usbdev =? 0 then
                let log :=
                  log ++ [Call_device_remove (usbdev_self usbdev)] in
                let '(col, log) := usb_disconnect usbdev col log in
                reap_dead_devices_from n' (S i) col log
              else reap_dead_devices_from n' (S i) col log
          | None => reap_dead_devices_from n' (S i) col log
          end
      end
  end.

(** [reap_dead_devices], followed for at most [n] rounds of its loop. *)
Definition reap_dead_devices_table (n : nat) (col : collection usb_device)
    (log : list teardown_call)
    : bool * collection usb_device * list teardown_call :=
  reap_dead_devices_from n 0 col log.

(** At most [n] rounds of the FOREACH of [usb_shutdown]. *)
Fixpoint usb_shutdown_from (n i : nat) (col : collection usb_device)
    (log : list teardown_call)
    : bool * collection usb_device * list teardown_call :=
  match col !! i with
  | None => (true, col, log)
  | Some slot =>
      match n with
      | O => (false, col, log)
      | S n' =>
          match slot with
          | Some usbdev =>
              let log := log ++ [Call_device_remove (usbdev_self usbdev)] in
              let '(col, log) := usb_disconnect usbdev col log in
              usb_shutdown_from n' (S i) col log
          | None => usb_shutdown_from n' (S i) col log
          end
      end
  end.

(** [usb_shutdown], with the hot-plug API, followed for at most [n]
    rounds of its loop; the table of the result is the one
    [collection_free] is called on. *)
Definition usb_shutdown (n : nat) (col : collection usb_device)
    (log : list teardown_call)
    : bool * collection usb_device * list teardown_call :=
  let log := log ++ [Call_hotplug_deregister_callback] in
  let '(ended, col, log) := usb_shutdown_from n 0 col log in
  if ended then (true, col, log ++ [Call_exit]) else (false, col, log).

End Teardown.

(** Event handling that changes only the record being disconnected. *)
Definition local_events
    (f : list teardown_call -> usb_device -> Z * usb_device)
    (log : list teardown_call) (dev : usb_device)
    (col : collection usb_device)
    : Z * usb_device * collection usb_device :=
  let '(res, dev) := f log dev in (res, dev, col).

(** ** [usb_hotplug_cb] (lines 1053-1073) *)

Inductive libusb_hotplug_event :=
| LIBUSB_HOTPLUG_EVENT_DEVICE_ARRIVED
| LIBUSB_HOTPLUG_EVENT_DEVICE_LEFT
| LIBUSB_HOTPLUG_EVENT_OTHER (e : Z).

(** The FOREACH of lines 1062-1068: the first record at the location is
    marked dead and handed to [device_remove]; the result names it. *)
Fixpoint hotplug_left (col : collection usb_device) (bus_ address_ : Z)
    : collection usb_device * option ptr :=
  match col with
  | [] => ([], None)
  | None :: rest =>
      let '(rest, removed) := hotplug_left rest bus_ address_ in
      (None :: rest, removed)
  | Some usbdev :: rest =>
      if (bus usbdev =? bus_) && (address usbdev =? address_) then
        (Some (set_alive usbdev 0) :: rest, Some (usbdev_self usbdev))
      else
        let '(rest, removed) := hotplug_left rest bus_ address_ in
        (Some usbdev :: rest, removed)
  end.

Section Hotplug.

Variable usb : libusb_oracle.
Variable APPLE_VEND_SPECIFIC_GET_MODE : Z.
Variables VID_APPLE PID_APPLE_T2_COPROCESSOR : Z.
Variables PID_APPLE_SILICON_RESTORE_LOW PID_APPLE_SILICON_RESTORE_MAX : Z.
Variables PID_RANGE_LOW PID_RANGE_MAX : Z.

(** The result is the return value, the state, and the record handed to
    [device_remove], if any. *)
Definition usb_hotplug_cb (device_hotplug : Z) (device : libusb_device)
    (event : libusb_hotplug_event) (st : usb_state)
    : Z * usb_state * option ptr :=
  match event with
  | LIBUSB_HOTPLUG_EVENT_DEVICE_ARRIVED =>
      if negb (device_hotplug =? 0) then
        let '(_, st) :=
          usb_device_add usb APPLE_VEND_SPECIFIC_GET_MODE VID_APPLE
            PID_APPLE_T2_COPROCESSOR PID_APPLE_SILICON_RESTORE_LOW
            PID_APPLE_SILICON_RESTORE_MAX PID_RANGE_LOW PID_RANGE_MAX
            device st in
        (0, st, None)
      else (0, st, None)
  | LIBUSB_HOTPLUG_EVENT_DEVICE_LEFT =>
      let bus_ := usb_get_bus_number usb device in
      let address_ := usb_get_device_address usb device in
      let '(col, removed) := hotplug_left (device_list st) bus_ address_ in
      (0, {| device_list := col; libusb := libusb st |}, removed)
  | LIBUSB_HOTPLUG_EVENT_OTHER _ => (0, st, None)
  end.

End Hotplug.

(** * Notions used in the further statements *)

(** The record [d] is at bus [b], address [a]. *)
Definition at_location (b a : Z) (d : usb_device) : Prop :=
  bus d = b /\ address d = a.

(** No two slots of the table hold records at the same location. *)
Definition unique_locations (col : collection usb_device) : Prop :=
  forall s1 s2 d1 d2,
    col !! s1 = Some (Some d1) -> col !! s2 = Some (Some d2) ->
    bus d1 = bus d2 -> address d1 = address d2 -> s1 = s2.

(** The device list reports a device at the location of [d]. *)
Definition reported (usb : libusb_oracle) (devs : list libusb_device)
    (d : usb_device) : bool :=
  existsb (fun dev => (usb_get_bus_number usb dev =? bus d)
                      && (usb_get_device_address usb dev =? address d)) devs.

(** The filter of [usb_device_add] (lines 793-800) as the ranges it
    lets through. *)
Definition acceptable_device (VID_APPLE PID_APPLE_T2_COPROCESSOR
    PID_APPLE_SILICON_RESTORE_LOW PID_APPLE_SILICON_RESTORE_MAX
    PID_RANGE_LOW PID_RANGE_MAX : Z) (dd : libusb_device_descriptor) : Prop :=
  idVendor dd = VID_APPLE
  /\ (idProduct dd = PID_APPLE_T2_COPROCESSOR
      \/ PID_APPLE_SILICON_RESTORE_LOW <= idProduct dd
         <= PID_APPLE_SILICON_RESTORE_MAX
      \/ PID_RANGE_LOW <= idProduct dd <= PID_RANGE_MAX).

(** Whether [libusb_open] is among some calls. *)
Definition opened (calls : list libusb_call) : bool :=
  existsb (fun c => match c with Call_open _ _ => true | _ => false end) calls.

(** No two slots of the table hold records at the same address. *)
Definition unique_selfs (col : collection usb_device) : Prop :=
  forall s1 s2 d1 d2,
    col !! s1 = Some (Some d1) -> col !! s2 = Some (Some d2) ->
    usbdev_self d1 = usbdev_self d2 -> s1 = s2.

(** The handles closed. *)
Definition closed (calls : list teardown_call)
    : list (option libusb_device_handle) :=
  omap (fun c => match c with
                 | Call_close h => Some h
                 | _ => None
                 end) calls.

(** What [usb_shutdown] leaves in a slot: only a record without a
    handle stays. *)
Definition shutdown_slot (slot : option usb_device) : option usb_device :=
  match slot with
  | Some d => if bool_decide (handle d <> None) then None else Some d
  | None => None
  end.

(** Every record of the table is at an address the allocator has handed
    out. *)
Definition selfs_allocated (st : usb_state) : Prop :=
  forall s d, device_list st !! s = Some (Some d) ->
    (usbdev_self d <= last_ptr (libusb st))%nat.

(** The completions of the transfers [ts], each with [status], handed to
    [tx_callback] one after the other. *)
Fixpoint tx_callbacks (status : libusb_transfer_status)
    (ts : list libusb_transfer) (dev : usb_device) (w : libusb_world)
    : usb_device * libusb_world :=
  match ts with
  | [] => (dev, w)
  | t :: ts =>
      let '(dev, w) :=
        tx_callback {| bulk_xfer := t; bulk_status := status;
                       bulk_buffer := []; actual_length := xfer_length t |}
          dev w in
      tx_callbacks status ts dev w
  end.

(** The pointers of the transfers libusb accepted (answer 0) and of
    those it did not, among some calls. *)
Definition accepted (calls : list libusb_call) : list ptr :=
  omap (fun c => match c with
                 | Call_submit_transfer t rc =>
                     if rc =? 0 then Some (xfer_ptr t) else None
                 | _ => None
                 end) calls.

Definition refused (calls : list libusb_call) : list ptr :=
  omap (fun c => match c with
                 | Call_submit_transfer t rc =>
                     if rc =? 0 then None else Some (xfer_ptr t)
                 | _ => None
                 end) calls.

(** [t] is a read of [USB_MRU] bytes from the IN endpoint of [dev],
    completed by [rx_callback]. *)
Definition rx_transfer_of (USB_MRU : Z) (dev : usb_device)
    (t : libusb_transfer) : Prop :=
  callback t = CB_rx_callback /\ xfer_length t = USB_MRU
  /\ xfer_endpoint t = ep_in dev /\ dev_handle t = handle dev
  /\ user_data t = UD_device (usbdev_self dev)
  /\ xfer_type t = LIBUSB_TRANSFER_TYPE_BULK.

(** ** [usb_process] (lines 998-1020)

    [handle_events] is the call of [libusb_handle_events_timeout] with a
    zero timeout: its result and the state as the callbacks that ran
    inside it left it.  [device_polling] is the static variable. *)
Section Process.

Variable usb : libusb_oracle.
Variable APPLE_VEND_SPECIFIC_GET_MODE : Z.
Variables VID_APPLE PID_APPLE_T2_COPROCESSOR : Z.
Variables PID_APPLE_SILICON_RESTORE_LOW PID_APPLE_SILICON_RESTORE_MAX : Z.
Variables PID_RANGE_LOW PID_RANGE_MAX : Z.
Variable reap_dead_devices : usb_state -> usb_state.
Variable handle_events : usb_state -> Z * usb_state.

Definition with_state (g : usb_core) (st : usb_state) : usb_core :=
  {| core_state := st; devlist_failures := devlist_failures g;
     next_dev_poll_time := next_dev_poll_time g |}.

(** Whether the poll of [usb_process] is due in the state [g]
    (line 1012). *)
Definition poll_due (device_polling : Z) (g : usb_core) : bool :=
  dev_poll_remain_ms device_polling (next_dev_poll_time g)
    (get_tick_count usb (trace (libusb (core_state g)))) <=? 0.

Definition usb_process (device_polling : Z) (g : usb_core) : Z * usb_core :=
  let '(res, st) := handle_events (core_state g) in
  if res <? 0 then (res, with_state g st)
  else
    (* reap devices marked dead due to an RX error *)
    let g := with_state g (reap_dead_devices st) in
    if poll_due device_polling g then
      let '(res, g) :=
        usb_discover usb APPLE_VEND_SPECIFIC_GET_MODE VID_APPLE
          PID_APPLE_T2_COPROCESSOR PID_APPLE_SILICON_RESTORE_LOW
          PID_APPLE_SILICON_RESTORE_MAX PID_RANGE_LOW PID_RANGE_MAX
          reap_dead_devices g in
      if res <? 0 then (res, g) else (0, g)
    else (0, g).

End Process.

(** The microseconds from [a] to [b]. *)
Definition usec_between (a b : timeval) : Z :=
  (tv_sec b - tv_sec a) * 1000000 + (tv_usec b - tv_usec a).

(** A [timeval] whose microseconds are below one second. *)
Definition normal_timeval (tv : timeval) : Prop :=
  0 <= tv_usec tv < 1000000.

(** The records handed to [device_remove] among some teardown calls. *)
Definition removed (calls : list teardown_call) : list ptr :=
  omap (fun c => match c with
                 | Call_device_remove p => Some p
                 | _ => None
                 end) calls.

(** The configuration descriptors libusb handed out among some calls. *)
Definition fetched_configs (calls : list libusb_call)
    : list libusb_config_descriptor :=
  omap (fun c => match c with
                 | Call_get_config_descriptor_by_value _ _ (Some config) =>
                     Some config
                 | _ => None
                 end) calls.

(** [d] is [usbdev] with the interface [intf] chosen: [intf] has one of
    the three usbmux identifiers and two endpoints, which are the bulk
    OUT and IN endpoints of [d] in one order or the other. *)
Definition chosen_interface (INTERFACE_CLASS INTERFACE_SUBCLASS
    INTERFACE_PROTOCOL : Z) (usbdev : usb_device)
    (intf : libusb_interface_descriptor) (d : usb_device) : Prop :=
  (bInterfaceClass intf = INTERFACE_CLASS
   \/ bInterfaceSubClass intf = INTERFACE_SUBCLASS
   \/ bInterfaceProtocol intf = INTERFACE_PROTOCOL)
  /\ bNumEndpoints intf = 2
  /\ d = set_endpoints usbdev (bInterfaceNumber intf) (ep_out d) (ep_in d)
  /\ (ep_out d = endpoint_address intf 0 /\ ep_in d = endpoint_address intf 1
      \/ ep_out d = endpoint_address intf 1
         /\ ep_in d = endpoint_address intf 0)
  /\ Z.land (ep_out d) 0x80 = LIBUSB_ENDPOINT_OUT
  /\ Z.land (ep_in d) 0x80 = LIBUSB_ENDPOINT_IN.

(** [d] is [usbdev] with an interface of one of the configurations [cs]
    chosen. *)
Definition chosen_among (INTERFACE_CLASS INTERFACE_SUBCLASS
    INTERFACE_PROTOCOL : Z) (usbdev : usb_device)
    (cs : list libusb_config_descriptor) (d : usb_device) : Prop :=
  exists config i,
    In config cs /\ In i (interface config)
    /\ chosen_interface INTERFACE_CLASS INTERFACE_SUBCLASS INTERFACE_PROTOCOL
         usbdev (altsetting0 i) d.

(** The completions of the transfers [ts], each with [status], handed to
    [rx_callback] one after the other. *)
Fixpoint rx_callbacks (usb : libusb_oracle)
    (device_data_input :
       usb_device -> list byte -> Z -> libusb_world
       -> usb_device * libusb_world)
    (status : libusb_transfer_status) (ts : list libusb_transfer)
    (dev : usb_device) (w : libusb_world) : usb_device * libusb_world :=
  match ts with
  | [] => (dev, w)
  | t :: ts =>
      let '(dev, w) :=
        rx_callback usb device_data_input
          {| bulk_xfer := t; bulk_status := status; bulk_buffer := [];
             actual_length := 0 |} dev w in
      rx_callbacks usb device_data_input status ts dev w
  end.

(** * Further concrete values *)

(** Event handling during a teardown that completes every cancelled
    transfer at once. *)
Definition ex_handle_events (log : list teardown_call) (dev : usb_device)
    : Z * usb_device :=
  (0, set_tx_xfers (set_rx_xfers dev collection_init) collection_init).

(** Event handling during a teardown in which the transfers of every
    device end in error: the record is left without a transfer, and the
    callbacks mark every record of the table dead. *)
Definition ex_failing_events (log : list teardown_call) (dev : usb_device)
    (col : collection usb_device)
    : Z * usb_device * collection usb_device :=
  (0, set_tx_xfers (set_rx_xfers dev collection_init) collection_init,
   map (option_map (fun d => set_alive d 0)) col).

(** A doomed device at 1-6 with one read pending. *)
Definition ex_gone_device : usb_device :=
  {| usbdev_self := 90%nat; handle := Some 8%nat; bus := 1; address := 6;
     serial := repeat x00 256; alive := 0;
     usb_interface := 1; ep_in := 0x85; ep_out := 0x04;
     rx_xfers := [Some 95%nat]; tx_xfers := collection_init;
     wMaxPacketSize := 64; speed := 480000000; devdesc := ex_devdesc 4 |}.

Definition ex_table : collection usb_device :=
  [Some (ex_device 4); None; Some ex_gone_device].

Definition ex_table_state : usb_state :=
  {| device_list := ex_table; libusb := ex_world |}.

Definition ex_table_core (failures : Z) : usb_core :=
  {| core_state := ex_table_state; devlist_failures := failures;
     next_dev_poll_time := {| tv_sec := 0; tv_usec := 0 |} |}.

(** libusb listing one device, at 1-5. *)
Definition ex_usb_listing : libusb_oracle :=
  ex_libusb (fun _ => 0) (1, [5%nat]).

(** [usb_device_add] with the constants of usb.h for Apple devices. *)
Definition ex_usb_device_add (usb : libusb_oracle) (dev : libusb_device)
    (st : usb_state) : Z * usb_state :=
  usb_device_add usb 0x45 0x05ac 0x8600 0x1901 0x1905 0x1290 0x12af dev st.

(** The completion of the request for the language IDs, answered with
    0x0409, and the one of the request for the serial number. *)
Definition ex_langid_completion : transfer_completion :=
  ex_completion LIBUSB_TRANSFER_COMPLETED [x04; x03; x09; x04].

Definition ex_serial_completion : transfer_completion :=
  ex_completion LIBUSB_TRANSFER_COMPLETED ex_serial_descriptor.

(** A collaborator that accepts every device and keeps no data. *)
Definition ex_device_add (d : usb_device) (w : libusb_world)
    : Z * usb_device * libusb_world := (0, d, w).

Definition ex_device_data_input (d : usb_device) (data : list byte)
    (len : Z) (w : libusb_world) : usb_device * libusb_world := (d, w).

(** The read loops of the device at 1-5, with a read unit of 65536
    bytes. *)
Definition ex_rx_loops : nat * usb_device * libusb_world :=
  start_rx_loops ex_usb_ok 65536 NUM_RX_LOOPS (ex_device 4) ex_world.

(** A write of 128 bytes to the device at 1-5, whose packets hold 64. *)
Definition ex_send : Z * usb_device * libusb_world :=
  usb_send ex_usb_ok (ex_device 4) 200%nat 128 ex_world.

(** Event handling and a reaper that change nothing. *)
Definition ex_idle_events (st : usb_state) : Z * usb_state := (0, st).

Definition ex_usb_process (usb : libusb_oracle) (dp : Z) (g : usb_core)
    : Z * usb_core :=
  usb_process usb 0x45 0x05ac 0x8600 0x1901 0x1905 0x1290 0x12af
    (fun st => st) ex_idle_events dp g.
(** * Properties *)

(** ** Accessors *)

Lemma lor_shiftl_bound b a :
  0 <= b < 256 -> 0 <= a < 256 ->
  0 <= Z.lor (Z.shiftl b 16) a < 2 ^ 32.
Proof.
  intros Hb Ha.
  assert (Hs : 0 <= Z.shiftl b 16) by (apply Z.shiftl_nonneg; lia).
  assert (Hl : 0 <= Z.lor (Z.shiftl b 16) a) by (apply Z.lor_nonneg; lia).
  split; [exact Hl|].
  destruct (Z.eq_dec (Z.lor (Z.shiftl b 16) a) 0) as [->|Hnz]; [lia|].
  apply Z.log2_lt_pow2; [lia|].
  rewrite Z.log2_lor by lia.
  apply Z.max_lub_lt.
  - destruct (Z.eq_dec b 0) as [->|Hb0]; [rewrite Z.shiftl_0_l; simpl; lia|].
    rewrite Z.log2_shiftl by lia.
    assert (Z.log2 b < 8) by (apply Z.log2_lt_pow2; lia). lia.
  - destruct (Z.eq_dec a 0) as [->|Ha0]; [simpl; lia|].
    assert (Z.log2 a < 8) by (apply Z.log2_lt_pow2; lia). lia.
Qed.

(** C8.  For every live device (non-NULL handle) whose [bus] and
    [address] are [uint8_t] values, [usb_get_location] returns
    [(bus << 16) | address]: the conversion to [uint32_t] loses nothing. *)
Theorem usb_get_location_live dev :
  handle dev <> None -> is_uint8 (bus dev) -> is_uint8 (address dev) ->
  usb_get_location dev = Z.lor (Z.shiftl (bus dev) 16) (address dev).
Proof.
  unfold usb_get_location, is_uint8, to_uint32. intros Hh Hb Ha.
  destruct (handle dev); [|congruence].
  apply Z.mod_small. apply lor_shiftl_bound; assumption.
Qed.

Lemma usb_get_location_live_witness :
  usb_get_location (ex_device 4) = Z.lor (Z.shiftl 1 16) 5
  /\ usb_get_location (ex_device 4) = 65541.
Proof.
  split; [|reflexivity].
  apply (usb_get_location_live (ex_device 4)).
  - discriminate.
  - unfold is_uint8; simpl; lia.
  - unfold is_uint8; simpl; lia.
Defined.

(** C9.  On a record whose handle is NULL, [usb_get_serial] returns NULL
    and [usb_get_location], [usb_get_pid] and [usb_get_speed] return 0;
    the results do not depend on any other field: they are the same for
    every two such records. *)
Theorem accessors_total_on_dead_records dev :
  handle dev = None ->
  (usb_get_serial dev = None /\ usb_get_location dev = 0
   /\ usb_get_pid dev = 0 /\ usb_get_speed dev = 0)
  /\ forall dev', handle dev' = None ->
       usb_get_serial dev' = usb_get_serial dev
       /\ usb_get_location dev' = usb_get_location dev
       /\ usb_get_pid dev' = usb_get_pid dev
       /\ usb_get_speed dev' = usb_get_speed dev.
Proof.
  intros Hh.
  unfold usb_get_serial, usb_get_location, usb_get_pid, usb_get_speed.
  rewrite Hh. split; [repeat split|].
  intros dev' Hh'. rewrite Hh'. repeat split.
Qed.

Lemma accessors_total_on_dead_records_witness :
  usb_get_serial ex_dead_device = None
  /\ usb_get_location ex_dead_device = 0
  /\ usb_get_pid ex_dead_device = 0
  /\ usb_get_speed ex_dead_device = 0.
Proof.
  exact (proj1 (accessors_total_on_dead_records ex_dead_device eq_refl)).
Defined.

(** ** Writes *)

Lemma new_calls_app w w' l : trace w' = trace w ++ l -> new_calls w w' = l.
Proof. unfold new_calls. intros ->. apply drop_app_length. Qed.

Lemma new_calls_same w : new_calls w w = [].
Proof. apply new_calls_app. rewrite app_nil_r. reflexivity. Qed.

Lemma collection_add_In {A} (col : collection A) (x : A) :
  In x (collection_elements (collection_add col x)).
Proof.
  induction col as [|[y|] rest IH]; cbn.
  - left; reflexivity.
  - right. exact IH.
  - left; reflexivity.
Qed.

(** The three ways through [usb_send]: what it returns, the device it
    leaves and the calls it makes. *)
Lemma usb_send_cases usb dev buf len w :
  let p := usb_send_payload dev buf len w in
  let z := usb_send_zlp usb dev buf len w in
  let rc1 := usb_send_payload_rc usb dev buf len w in
  let rc2 := usb_send_zlp_rc usb dev buf len w in
  let '(res, dev', w') := usb_send usb dev buf len w in
  if rc1 <? 0 then
    res = rc1 /\ dev' = dev /\
    new_calls w w' = [Call_alloc_transfer (xfer_ptr p);
                      Call_submit_transfer p rc1;
                      Call_free_transfer (xfer_ptr p)]
  else if Z.rem len (wMaxPacketSize dev) =? 0 then
    if rc2 <? 0 then
      res = rc2 /\
      dev' = set_tx_xfers dev (collection_add (tx_xfers dev) (xfer_ptr p)) /\
      new_calls w w' = [Call_alloc_transfer (xfer_ptr p);
                        Call_submit_transfer p rc1;
                        Call_alloc_transfer (xfer_ptr z);
                        Call_submit_transfer z rc2;
                        Call_free_transfer (xfer_ptr z)]
    else
      res = 0 /\
      dev' = set_tx_xfers dev
               (collection_add (collection_add (tx_xfers dev) (xfer_ptr p))
                  (xfer_ptr z)) /\
      new_calls w w' = [Call_alloc_transfer (xfer_ptr p);
                        Call_submit_transfer p rc1;
                        Call_alloc_transfer (xfer_ptr z);
                        Call_submit_transfer z rc2]
  else
    res = 0 /\
    dev' = set_tx_xfers dev (collection_add (tx_xfers dev) (xfer_ptr p)) /\
    new_calls w w' = [Call_alloc_transfer (xfer_ptr p);
                      Call_submit_transfer p rc1].
Proof.
  intros p z rc1 rc2.
  assert (Hsend : usb_send usb dev buf len w =
    if rc1 <? 0 then
      (rc1, dev, libusb_free_transfer (xfer_ptr p)
                   (usb_send_after_payload usb dev buf len w))
    else
      let dev1 :=
        set_tx_xfers dev (collection_add (tx_xfers dev) (xfer_ptr p)) in
      if Z.rem len (wMaxPacketSize dev) =? 0 then
        let w3 := log_call (Call_submit_transfer z rc2)
                   (snd (malloc (snd (libusb_alloc_transfer
                      (usb_send_after_payload usb dev buf len w))))) in
        if rc2 <? 0 then (rc2, dev1, libusb_free_transfer (xfer_ptr z) w3)
        else (0, set_tx_xfers dev1
                   (collection_add (tx_xfers dev1) (xfer_ptr z)), w3)
      else (0, dev1, usb_send_after_payload usb dev buf len w))
    by reflexivity.
  rewrite Hsend. clear Hsend.
  destruct (rc1 <? 0).
  - repeat split. apply new_calls_app. cbn. rewrite <- !app_assoc. reflexivity.
  - cbv zeta. destruct (Z.rem len (wMaxPacketSize dev) =? 0).
    + destruct (rc2 <? 0).
      * repeat split. apply new_calls_app. cbn. rewrite <- !app_assoc.
        reflexivity.
      * repeat split. apply new_calls_app. cbn. rewrite <- !app_assoc.
        reflexivity.
    + repeat split. apply new_calls_app. cbn. rewrite <- !app_assoc.
      reflexivity.
Qed.

(** C1, as the code has it.  When the payload submission is accepted,
    [usb_send] hands libusb the payload transfer, followed by one
    zero-length transfer on the same endpoint exactly when
    [length % wMaxPacketSize == 0]; the test has no [length > 0] part, so
    a write of length 0 is followed by a zero-length packet too. *)
Theorem usb_send_zlp_exactly_when_multiple usb dev buf len w :
  0 < wMaxPacketSize dev ->
  0 <= usb_send_payload_rc usb dev buf len w ->
  usb_send_submitted usb dev buf len w
  = usb_send_payload dev buf len w
    :: (if Z.rem len (wMaxPacketSize dev) =? 0
        then [usb_send_zlp usb dev buf len w] else [])
  /\ xfer_length (usb_send_zlp usb dev buf len w) = 0
  /\ xfer_endpoint (usb_send_zlp usb dev buf len w) = ep_out dev
  /\ xfer_endpoint (usb_send_payload dev buf len w) = ep_out dev
  /\ (zlp_follows usb dev buf len w <-> Z.rem len (wMaxPacketSize dev) = 0).
Proof.
  intros Hmps Hrc.
  assert (Hsub : usb_send_submitted usb dev buf len w
    = usb_send_payload dev buf len w
      :: (if Z.rem len (wMaxPacketSize dev) =? 0
          then [usb_send_zlp usb dev buf len w] else [])).
  { unfold usb_send_submitted.
    pose proof (usb_send_cases usb dev buf len w) as H. cbv zeta in H.
    destruct (usb_send usb dev buf len w) as [[res dev'] w'].
    destruct (Z.ltb_spec (usb_send_payload_rc usb dev buf len w) 0); [lia|].
    cbn [snd].
    destruct (Z.rem len (wMaxPacketSize dev) =? 0).
    - destruct (usb_send_zlp_rc usb dev buf len w <? 0);
        destruct H as (_ & _ & ->); reflexivity.
    - destruct H as (_ & _ & ->); reflexivity. }
  split; [exact Hsub|]. split; [reflexivity|]. split; [reflexivity|].
  split; [reflexivity|].
  unfold zlp_follows. rewrite Hsub. split.
  - intros (z & Heq & _).
    destruct (Z.eqb_spec (Z.rem len (wMaxPacketSize dev)) 0);
      [assumption|discriminate].
  - intros Hrem. rewrite Hrem. cbn. eexists.
    split; [reflexivity|]. split; reflexivity.
Qed.

(** A write of 128 bytes to a device with 64-byte packets. *)
Lemma usb_send_zlp_exactly_when_multiple_witness :
  zlp_follows ex_usb_ok (ex_device 4) 9%nat 128 ex_world
  /\ length (usb_send_submitted ex_usb_ok (ex_device 4) 9%nat 128 ex_world)
     = 2%nat.
Proof.
  assert (H1 : 0 < wMaxPacketSize (ex_device 4)) by reflexivity.
  assert (H2 : 0 <= usb_send_payload_rc ex_usb_ok (ex_device 4) 9%nat 128
                      ex_world) by (vm_compute; discriminate).
  pose proof (usb_send_zlp_exactly_when_multiple ex_usb_ok (ex_device 4)
                9%nat 128 ex_world H1 H2) as (Hs & _ & _ & _ & Hz).
  split.
  - apply Hz. reflexivity.
  - rewrite Hs. reflexivity.
Defined.

(** C1 as stated fails for a write of length 0: the payload of length 0
    is followed by a zero-length packet, so two transfers are submitted
    although [length > 0] does not hold. *)
Lemma usb_send_zero_length_sends_zlp :
  zlp_follows ex_usb_ok (ex_device 4) 9%nat 0 ex_world
  /\ length (usb_send_submitted ex_usb_ok (ex_device 4) 9%nat 0 ex_world)
     = 2%nat
  /\ ~ (Z.rem 0 (wMaxPacketSize (ex_device 4)) = 0 /\ 0 > 0).
Proof.
  split; [|split].
  - eexists. split; [vm_compute; reflexivity|]. split; reflexivity.
  - reflexivity.
  - intros [_ H]. discriminate H.
Qed.

(** C10.  [usb_send] undoes a failed submission only for the transfer
    that failed.  If the payload submission fails, the payload transfer is
    freed, the tx set is as before and the negative libusb code is
    returned.  If the payload submission succeeds and the submission of
    the zero-length packet fails, the negative code is returned, only the
    zero-length transfer is freed, and the payload transfer stays in the
    tx set. *)
Theorem usb_send_failure_not_rolled_back usb dev buf len w :
  let p := usb_send_payload dev buf len w in
  let z := usb_send_zlp usb dev buf len w in
  let rc1 := usb_send_payload_rc usb dev buf len w in
  let rc2 := usb_send_zlp_rc usb dev buf len w in
  let res := fst (fst (usb_send usb dev buf len w)) in
  let dev' := snd (fst (usb_send usb dev buf len w)) in
  let calls := new_calls w (snd (usb_send usb dev buf len w)) in
  (rc1 < 0 ->
     res = rc1 /\ res < 0 /\ tx_xfers dev' = tx_xfers dev /\
     submitted calls = [p] /\ freed calls = [xfer_ptr p])
  /\
  (0 <= rc1 -> Z.rem len (wMaxPacketSize dev) = 0 -> rc2 < 0 ->
     res = rc2 /\ res < 0 /\
     tx_xfers dev' = collection_add (tx_xfers dev) (xfer_ptr p) /\
     In (xfer_ptr p) (collection_elements (tx_xfers dev')) /\
     submitted calls = [p; z] /\ freed calls = [xfer_ptr z]).
Proof.
  intros p z rc1 rc2 res dev' calls.
  pose proof (usb_send_cases usb dev buf len w) as H. cbv zeta in H.
  fold p z rc1 rc2 in H.
  subst res dev' calls.
  destruct (usb_send usb dev buf len w) as [[res dev'] w'].
  cbn [fst snd].
  split.
  - intros Hrc1. destruct (Z.ltb_spec rc1 0); [|lia].
    destruct H as (-> & -> & ->). repeat split; auto.
  - intros Hrc1 Hrem Hrc2. destruct (Z.ltb_spec rc1 0); [lia|].
    rewrite Hrem in H. change (0 =? 0) with true in H. cbv iota in H.
    destruct (Z.ltb_spec rc2 0); [|lia].
    destruct H as (-> & -> & ->). repeat split; auto.
    apply collection_add_In.
Qed.

(** A write of 64 bytes refused at once, and one whose zero-length packet
    alone is refused: the payload transfer (at address 101) stays in the
    tx set. *)
Lemma usb_send_failure_not_rolled_back_witness :
  (fst (fst (usb_send ex_usb_refusing (ex_device 4) 9%nat 64 ex_world)) = -1
   /\ tx_xfers (snd (fst (usb_send ex_usb_refusing (ex_device 4) 9%nat 64
                            ex_world))) = [])
  /\ (fst (fst (usb_send ex_usb_zlp_refused (ex_device 4) 9%nat 64 ex_world))
      = -1
      /\ tx_xfers (snd (fst (usb_send ex_usb_zlp_refused (ex_device 4) 9%nat
                               64 ex_world))) = [Some 101%nat]).
Proof.
  split.
  - pose proof (proj1 (usb_send_failure_not_rolled_back ex_usb_refusing
                         (ex_device 4) 9%nat 64 ex_world)) as H.
    cbv zeta in H.
    assert (Hrc : usb_send_payload_rc ex_usb_refusing (ex_device 4) 9%nat 64
                    ex_world < 0) by reflexivity.
    destruct (H Hrc) as (Hres & _ & Htx & _).
    split; [exact Hres|exact Htx].
  - pose proof (proj2 (usb_send_failure_not_rolled_back ex_usb_zlp_refused
                         (ex_device 4) 9%nat 64 ex_world)) as H.
    cbv zeta in H.
    assert (Hrc1 : 0 <= usb_send_payload_rc ex_usb_zlp_refused (ex_device 4)
                          9%nat 64 ex_world) by (vm_compute; discriminate).
    assert (Hrem : Z.rem 64 (wMaxPacketSize (ex_device 4)) = 0)
      by reflexivity.
    assert (Hrc2 : usb_send_zlp_rc ex_usb_zlp_refused (ex_device 4) 9%nat 64
                     ex_world < 0) by reflexivity.
    destruct (H Hrc1 Hrem Hrc2) as (Hres & _ & Htx & _).
    split; [exact Hres|exact Htx].
Defined.

(** ** Serial decoding *)

Lemma byte_eqb_x00 b : Byte.eqb b x00 = true -> b = x00.
Proof. destruct b; solve [reflexivity | discriminate]. Qed.

Lemma byte_val_eq0 b : (byte_val b =? 0) = Byte.eqb b x00.
Proof. destruct b; reflexivity. Qed.

Lemma byte_land_0x80 b :
  (Z.land (byte_val b) 0x80 =? 0) = negb (Z.testbit (byte_val b) 7).
Proof. destruct b; reflexivity. Qed.

Lemma descriptor_units_from data :
  descriptor_units data = units_from data 2 (units_left data 2).
Proof.
  unfold descriptor_units, units_left.
  replace (byte_val (data_at data 0) - 2 + 1)
    with (byte_val (data_at data 0) - 1) by lia.
  generalize (Z.to_nat ((byte_val (data_at data 0) - 1) / 2)) as n.
  intros n.
  assert (H : forall m (si : Z),
    map (fun k : nat => (data_at data (si + 2 * Z.of_nat k),
                         data_at data (si + 2 * Z.of_nat k + 1))) (seq m n)
    = units_from data (si + 2 * Z.of_nat m) n).
  { induction n as [|n IH]; intros m si; cbn [seq map units_from];
      [reflexivity|].
    f_equal. rewrite IH. f_equal. lia. }
  specialize (H 0%nat 2). rewrite Z.add_0_r in H. exact H.
Qed.

Lemma units_left_step data si :
  si < byte_val (data_at data 0) ->
  units_left data si = S (units_left data (si + 2)).
Proof.
  unfold units_left. intros H.
  set (x := byte_val (data_at data 0) - (si + 2) + 1).
  replace (byte_val (data_at data 0) - si + 1) with (x + 1 * 2) by lia.
  rewrite Z.div_add by lia.
  assert (0 <= x / 2) by (apply Z.div_pos; lia).
  rewrite Z2Nat.inj_add by lia. change (Z.to_nat 1) with 1%nat. lia.
Qed.

Lemma units_left_done data si :
  ~ si < byte_val (data_at data 0) -> units_left data si = 0%nat.
Proof.
  unfold units_left. intros H.
  assert ((byte_val (data_at data 0) - si + 1) / 2 <= 0).
  { apply Z.lt_succ_r. apply Z.div_lt_upper_bound; lia. }
  lia.
Qed.

Lemma spec_decode_unit_pair lo hi :
  spec_decode_unit (lo, hi)
  = if Byte.eqb hi x00 && negb (Z.testbit (byte_val lo) 7)
    then lo else "?"%byte.
Proof. reflexivity. Qed.

(** The loop writes, from [di] on, the decoding of the units that are
    left, as far as the array has room. *)
Lemma deunicode_loop_spec data serial di si :
  0 <= di ->
  deunicode_loop data serial di si =
  let out := take (Z.to_nat (255 - di))
               (map spec_decode_unit
                  (until_nul (units_from data si (units_left data si)))) in
  (write_bytes serial (Z.to_nat di) out, di + Z.of_nat (length out)).
Proof.
  funelim (deunicode_loop data serial di si); intros Hdi; cbv zeta.
  1: { (* inside the descriptor, room left in [serial] *)
    unfold serial_size in *.
    rewrite (units_left_step data si) by assumption.
    cbn [units_from until_nul].
    unfold unit_is_nul; cbn [fst snd].
    replace (Z.to_nat (255 - di)) with (S (Z.to_nat (255 - (di + 1))))
      by lia.
    replace (Z.to_nat (di + 1)) with (S (Z.to_nat di)) in * by lia.
    rewrite byte_land_0x80, !byte_val_eq0, negb_involutive.
    destruct (Z.testbit (byte_val (data_at data si)) 7) eqn:Ebit;
      cbn [orb negb andb].
    + assert (Hnz : Byte.eqb (data_at data si) x00 = false).
      { destruct (Byte.eqb (data_at data si) x00) eqn:E; [|reflexivity].
        apply byte_eqb_x00 in E. rewrite E in Ebit. discriminate. }
      rewrite Hnz. cbn [andb map take write_bytes length].
      rewrite !spec_decode_unit_pair.
      rewrite Ebit, andb_false_r.
      rewrite H by lia.
      apply (f_equal2 pair); [reflexivity|cbn [length]; lia].
    + destruct (Byte.eqb (data_at data (si + 1)) x00) eqn:Ehi;
        cbn [negb andb].
      * destruct (Byte.eqb (data_at data si) x00) eqn:Elo.
        -- cbn. apply (f_equal2 pair); [reflexivity|cbn [length]; lia].
        -- cbn [andb map take write_bytes length].
           rewrite !spec_decode_unit_pair.
           rewrite Ehi, Ebit. cbn [andb negb].
           rewrite H0 by lia.
           apply (f_equal2 pair); [reflexivity|cbn [length]; lia].
      * rewrite andb_false_r. cbn [map take write_bytes length].
        rewrite !spec_decode_unit_pair.
        rewrite Ehi. cbn [andb].
        rewrite H by lia.
        apply (f_equal2 pair); [reflexivity|cbn [length]; lia]. }
  all: unfold serial_size in *.
  all: match goal with
       | n : ~ _ < byte_val _ |- _ =>
           (* past the descriptor *)
           rewrite units_left_done by assumption; cbn; rewrite take_nil
       | n : ~ _ < 256 - 1 |- _ =>
           (* [serial] is full *)
           replace (Z.to_nat (255 - di)) with 0%nat by lia; rewrite take_0
       end.
  all: cbn; apply (f_equal2 pair); [reflexivity|lia].
Qed.

Lemma write_bytes_app buf i out :
  (i + length out <= length buf)%nat ->
  write_bytes buf i out = take i buf ++ out ++ drop (i + length out) buf.
Proof.
  revert buf i. induction out as [|b out IH]; intros buf i Hlen.
  - cbn [write_bytes length app]. rewrite Nat.add_0_r, take_drop. reflexivity.
  - cbn [write_bytes]. cbn [length] in Hlen.
    rewrite IH by (rewrite length_insert; lia).
    rewrite drop_insert_lt by lia.
    rewrite (insert_take_drop buf i b) by lia.
    rewrite (cons_middle b), (app_assoc (take i buf) [b]).
    rewrite (take_app_length' (take i buf ++ [b]))
      by (rewrite length_app, length_take; cbn [length]; lia).
    rewrite <- !app_assoc. cbn [app length].
    replace (S i + length out)%nat with (i + S (length out))%nat by lia.
    reflexivity.
Qed.

Lemma decoded_no_nul us :
  Forall (fun b => Byte.eqb b x00 = false)
    (map spec_decode_unit (until_nul us)).
Proof.
  induction us as [|[lo hi] us IH]; cbn [until_nul map]; [constructor|].
  unfold unit_is_nul; cbn [fst snd].
  destruct (Byte.eqb lo x00) eqn:Elo; destruct (Byte.eqb hi x00) eqn:Ehi;
    cbn [andb map]; try constructor; try exact IH.
  all: rewrite spec_decode_unit_pair, Ehi; cbn [andb]; try reflexivity.
  destruct (negb _); [exact Elo|reflexivity].
Qed.

Lemma c_string_app out rest :
  Forall (fun b => Byte.eqb b x00 = false) out ->
  c_string (out ++ x00 :: rest) = out.
Proof.
  induction 1 as [|b out Hb _ IH]; cbn [app c_string].
  - reflexivity.
  - rewrite Hb, IH. reflexivity.
Qed.

Lemma spec_decode_length data : (length (spec_decode data) <= 255)%nat.
Proof. unfold spec_decode. rewrite length_take. lia. Qed.

Lemma spec_decode_no_nul data :
  Forall (fun b => Byte.eqb b x00 = false) (spec_decode data).
Proof. unfold spec_decode. apply Forall_take, decoded_no_nul. Qed.

(** A descriptor length is one byte, so at most 127 units are decoded:
    the bound of 255 characters is never the one that stops the loop. *)
Lemma spec_decode_length_127 data : (length (spec_decode data) <= 127)%nat.
Proof.
  unfold spec_decode. rewrite length_take, length_map.
  assert (Hu : forall us, (length (until_nul us) <= length us)%nat).
  { induction us as [|u us IH]; cbn [until_nul length]; [lia|].
    destruct (unit_is_nul u); cbn [length]; lia. }
  specialize (Hu (descriptor_units data)).
  unfold descriptor_units in Hu at 2. rewrite length_map, length_seq in Hu.
  pose proof (Byte.to_N_bounded (data_at data 0)) as Hb.
  assert ((byte_val (data_at data 0) - 1) / 2 <= 127).
  { unfold byte_val. apply Z.lt_succ_r. apply Z.div_lt_upper_bound; lia. }
  lia.
Qed.

(** Lines 323-331 leave the decoded characters at the head of [serial],
    a NUL after them, and [di] at their number. *)
Lemma get_serial_decode_spec data serial :
  length serial = 256%nat ->
  get_serial_decode data serial =
  (spec_decode data ++ x00 :: drop (S (length (spec_decode data))) serial,
   Z.of_nat (length (spec_decode data))).
Proof.
  intros Hlen. unfold get_serial_decode.
  rewrite deunicode_loop_spec by lia. cbv zeta.
  rewrite <- descriptor_units_from.
  change (take (Z.to_nat (255 - 0))
            (map spec_decode_unit (until_nul (descriptor_units data))))
    with (spec_decode data).
  pose proof (spec_decode_length data) as Hd.
  rewrite Z.add_0_l, Nat2Z.id. change (Z.to_nat 0) with 0%nat.
  assert (Hw : (0 + length (spec_decode data) <= length serial)%nat).
  { rewrite Hlen. lia. }
  rewrite write_bytes_app by exact Hw. rewrite take_0. cbn [app Nat.add].
  apply (f_equal2 pair); [|reflexivity].
  rewrite insert_app_r_alt by lia. rewrite Nat.sub_diag.
  f_equal.
  destruct (drop (length (spec_decode data)) serial) as [|c rest] eqn:E.
  - apply (f_equal length) in E. rewrite length_drop in E. cbn in E. lia.
  - cbn. f_equal.
    change (S (length (spec_decode data)))
      with (1 + length (spec_decode data))%nat.
    rewrite Nat.add_comm, <- drop_drop, E. reflexivity.
Qed.

(** C7.  The string left in [serial] by lines 321-331 is the decoding the
    specification describes: the 2-byte header is skipped, the units up to
    the first NUL unit are mapped one by one, a unit with a zero high byte
    and a low byte below 0x80 to its low byte and any other unit to '?',
    and at most 255 characters are kept; [di] ends as their number. *)
Theorem serial_decoding_refines_spec data serial :
  length serial = 256%nat ->
  c_string (fst (get_serial_decode data serial)) = spec_decode data
  /\ snd (get_serial_decode data serial)
     = Z.of_nat (length (spec_decode data))
  /\ (length (spec_decode data) <= 255)%nat.
Proof.
  intros Hlen. rewrite get_serial_decode_spec by assumption. cbn [fst snd].
  split; [|split].
  - apply c_string_app, spec_decode_no_nul.
  - reflexivity.
  - apply spec_decode_length.
Qed.

(** The descriptor "A", 0x00e9, "C" decodes to [A?C]. *)
Lemma serial_decoding_refines_spec_witness :
  c_string (fst (get_serial_decode ex_non_ascii_descriptor (repeat xff 256)))
  = spec_decode ex_non_ascii_descriptor
  /\ string_of_list_byte (spec_decode ex_non_ascii_descriptor) = "A?C"%string.
Proof.
  split; [|reflexivity].
  apply (serial_decoding_refines_spec ex_non_ascii_descriptor
           (repeat xff 256)).
  reflexivity.
Defined.

Lemma hyphenate_24 (s rest : list byte) :
  length s = 24%nat -> (1 <= length rest)%nat ->
  Forall (fun b => Byte.eqb b x00 = false) s ->
  c_string (get_serial_hyphenate (s ++ x00 :: rest) 24) = insert_hyphen s.
Proof.
  intros Hs Hrest Hnz.
  do 24 (destruct s as [|? s]; [discriminate Hs|]).
  destruct s; [|discriminate Hs].
  destruct rest as [|r rest]; [cbn in Hrest; lia|].
  repeat match goal with
         | H : Forall _ (_ :: _) |- _ =>
             let E := fresh "E" in
             apply Forall_cons_1 in H; destruct H as [E H]
         end.
  cbv -[Byte.eqb].
  repeat match goal with
         | E : Byte.eqb _ _ = false |- _ => rewrite E; clear E
         end.
  reflexivity.
Qed.

Lemma remove_insert_hyphen s :
  (8 <= length s)%nat -> remove_index 8 (insert_hyphen s) = s.
Proof.
  intros Hlen. unfold remove_index, insert_hyphen.
  assert (H8 : length (take 8 s) = 8%nat) by (rewrite length_take; lia).
  rewrite take_app_length' by (symmetry; exact H8).
  rewrite (drop_app_ge (take 8 s)) by (rewrite H8; lia).
  rewrite H8.
  change (drop (9 - 8) ("-"%byte :: drop 8 s)) with (drop 8 s).
  apply take_drop.
Qed.

Lemma insert_hyphen_length s : length (insert_hyphen s) = S (length s).
Proof.
  unfold insert_hyphen. rewrite length_app. cbn [length].
  rewrite length_take, length_drop. lia.
Qed.

(** C6.  When the transfer completed: if the decoded serial has exactly 24
    characters, the serial stored in the device is the decoded one with a
    hyphen inserted between character 8 and character 9, it has 25
    characters, and removing its character at index 8 gives the decoded
    serial back; a decoded serial of any other length is stored as it
    is. *)
Theorem serial_hyphenation data usbdev :
  length (serial usbdev) = 256%nat ->
  let decoded := c_string (fst (get_serial_decode data (serial usbdev))) in
  let stored :=
    c_string (serial (get_serial_callback_serial LIBUSB_TRANSFER_COMPLETED
                        data usbdev)) in
  (length decoded = 24%nat ->
     stored = insert_hyphen decoded /\ length stored = 25%nat /\
     remove_index 8 stored = decoded)
  /\ (length decoded <> 24%nat -> stored = decoded).
Proof.
  intros Hlen decoded stored. subst decoded stored.
  unfold get_serial_callback_serial. cbn [status_completed].
  rewrite get_serial_decode_spec by assumption. cbn [fst serial set_serial].
  pose proof (spec_decode_no_nul data) as Hnz.
  pose proof (spec_decode_length data) as Hle.
  rewrite (c_string_app _ _ Hnz).
  split.
  - intros H24. rewrite H24.
    change (Z.of_nat 24) with 24.
    rewrite hyphenate_24; try assumption.
    + split; [reflexivity|]. split.
      * rewrite insert_hyphen_length, H24. reflexivity.
      * apply remove_insert_hyphen. lia.
    + rewrite length_drop, Hlen. lia.
  - intros Hne. unfold get_serial_hyphenate.
    destruct (Z.eqb_spec (Z.of_nat (length (spec_decode data))) 24)
      as [E|_]; [lia|].
    apply c_string_app, Hnz.
Qed.

(** The serial 00008030000A1B2C3D4E5F60 is stored as
    00008030-000A1B2C3D4E5F60; the 3-character serial of the other
    descriptor is stored unchanged. *)
Lemma serial_hyphenation_witness :
  string_of_list_byte
    (c_string (serial (get_serial_callback_serial LIBUSB_TRANSFER_COMPLETED
                         ex_serial_descriptor (ex_device 4))))
  = "00008030-000A1B2C3D4E5F60"%string
  /\ c_string (serial (get_serial_callback_serial LIBUSB_TRANSFER_COMPLETED
                         ex_non_ascii_descriptor (ex_device 4)))
     = c_string (fst (get_serial_decode ex_non_ascii_descriptor
                        (serial (ex_device 4)))).
Proof.
  split.
  - destruct (serial_hyphenation ex_serial_descriptor (ex_device 4) eq_refl)
      as [H _].
    destruct (H eq_refl) as (Hstored & _ & _).
    rewrite Hstored. reflexivity.
  - destruct (serial_hyphenation ex_non_ascii_descriptor (ex_device 4)
                eq_refl) as [_ H].
    apply H. vm_compute. discriminate.
Defined.

(** ** Mode negotiation *)

Section ModeProperties.

Variable usb : libusb_oracle.
Variables INTERFACE_CLASS INTERFACE_SUBCLASS INTERFACE_PROTOCOL : Z.

Lemma guess_mode_fold intfs a b c :
  fold_left (guess_mode_interface INTERFACE_CLASS INTERFACE_SUBCLASS
               INTERFACE_PROTOCOL) intfs (a, b, c)
  = (a || existsb (fun i => is_valeria_interface INTERFACE_CLASS
                              (altsetting0 i)) intfs,
     b || existsb (fun i => is_cdc_ncm_interface (altsetting0 i)) intfs,
     c || existsb (fun i => is_multiplexer_interface INTERFACE_CLASS
                              INTERFACE_SUBCLASS INTERFACE_PROTOCOL
                              (altsetting0 i)) intfs).
Proof.
  revert a b c.
  induction intfs as [|i intfs IH]; intros a b c; cbn [fold_left existsb].
  - rewrite !orb_false_r. reflexivity.
  - unfold guess_mode_interface at 2.
    fold (is_valeria_interface INTERFACE_CLASS (altsetting0 i)).
    fold (is_cdc_ncm_interface (altsetting0 i)).
    fold (is_multiplexer_interface INTERFACE_CLASS INTERFACE_SUBCLASS
            INTERFACE_PROTOCOL (altsetting0 i)).
    rewrite IH.
    destruct (is_valeria_interface _ _), (is_cdc_ncm_interface _),
      (is_multiplexer_interface _ _ _ _), a, b, c; reflexivity.
Qed.

(** C5, as the code has it.  [guess_mode] returns cdc-ncm-direct (5) for
    1 configuration, initial (1) for every other count up to 4, 0
    included, usbeth+cdc-ncm (4) for 6, undetermined (0) for more than 6,
    and for 5 what configuration 5 shows: valeria (2) with a valeria and a
    multiplexer interface, else cdc-ncm (3) with a CDC-NCM and a
    multiplexer interface, else undetermined, as when configuration 5
    cannot be read. *)
Theorem guess_mode_table dev usbdev w :
  let n := bNumConfigurations (devdesc usbdev) in
  let mode := fst (guess_mode usb INTERFACE_CLASS INTERFACE_SUBCLASS
                     INTERFACE_PROTOCOL dev usbdev w) in
  (n = 1 -> mode = 5)
  /\ (n <= 4 -> n <> 1 -> mode = 1)
  /\ (n = 6 -> mode = 4)
  /\ (n = 5 ->
      mode = spec_mode_of_config5 INTERFACE_CLASS INTERFACE_SUBCLASS
               INTERFACE_PROTOCOL
               (usb_get_config_descriptor_by_value usb (trace w) dev 5))
  /\ (6 < n -> mode = 0).
Proof.
  intros n mode. subst mode. unfold guess_mode. fold n.
  repeat split; intros.
  - subst n. rewrite H. reflexivity.
  - destruct (Z.eqb_spec n 1); [lia|].
    destruct (Z.leb_spec n 4); [|lia]. reflexivity.
  - rewrite H. reflexivity.
  - rewrite H.
    cbn [Z.eqb Z.leb Z.compare Pos.compare Pos.compare_cont negb Pos.eqb].
    unfold libusb_get_config_descriptor_by_value.
    destruct (usb_get_config_descriptor_by_value usb (trace w) dev 5)
      as [config|]; cbn [spec_mode_of_config5 fst]; [|reflexivity].
    rewrite guess_mode_fold. cbn [orb]. unfold config_has.
    destruct (existsb (fun i => is_valeria_interface _ (altsetting0 i)) _),
      (existsb (fun i => is_cdc_ncm_interface (altsetting0 i)) _),
      (existsb (fun i => is_multiplexer_interface _ _ _ (altsetting0 i)) _);
      reflexivity.
  - destruct (Z.eqb_spec n 1); [lia|]. destruct (Z.leb_spec n 4); [lia|].
    destruct (Z.eqb_spec n 6); [lia|]. destruct (Z.eqb_spec n 5); [lia|].
    reflexivity.
Qed.

End ModeProperties.

(** One device for each row, with the multiplexer triple 255/254/2. *)
Lemma guess_mode_table_witness :
  fst (guess_mode ex_usb_ok 255 254 2 9%nat (ex_device 1) ex_world) = 5
  /\ fst (guess_mode ex_usb_ok 255 254 2 9%nat (ex_device 3) ex_world) = 1
  /\ fst (guess_mode ex_usb_ok 255 254 2 9%nat (ex_device 6) ex_world) = 4
  /\ fst (guess_mode ex_usb_ok 255 254 2 9%nat (ex_device 5) ex_world) = 2
  /\ fst (guess_mode ex_usb_ok 255 254 2 9%nat (ex_device 7) ex_world) = 0.
Proof.
  split; [|split; [|split; [|split]]].
  - apply (guess_mode_table ex_usb_ok 255 254 2 9%nat (ex_device 1) ex_world).
    reflexivity.
  - apply (guess_mode_table ex_usb_ok 255 254 2 9%nat (ex_device 3) ex_world);
      simpl; lia.
  - apply (guess_mode_table ex_usb_ok 255 254 2 9%nat (ex_device 6) ex_world).
    reflexivity.
  - destruct (guess_mode_table ex_usb_ok 255 254 2 9%nat (ex_device 5)
                ex_world) as (_ & _ & _ & H & _).
    rewrite (H eq_refl). reflexivity.
  - apply (guess_mode_table ex_usb_ok 255 254 2 9%nat (ex_device 7) ex_world).
    reflexivity.
Defined.

(** C5 as stated fails for a descriptor with no configuration: the count
    0 is none of 1, 2-4, 5 and 6, yet the guess is initial, not
    undetermined. *)
Lemma guess_mode_zero_configurations_initial :
  bNumConfigurations (devdesc (ex_device 0)) = 0
  /\ fst (guess_mode ex_usb_ok 255 254 2 9%nat (ex_device 0) ex_world) = 1
  /\ fst (guess_mode ex_usb_ok 255 254 2 9%nat (ex_device 0) ex_world) <> 0.
Proof. split; [reflexivity|]. split; [reflexivity|discriminate]. Qed.

(** ** The calls made during initialization *)

Lemma submitted_app c1 c2 : submitted (c1 ++ c2) = submitted c1 ++ submitted c2.
Proof. unfold submitted. apply omap_app. Qed.

Lemma quiet_refl w : quiet w w.
Proof. exists []. rewrite app_nil_r. split; reflexivity. Qed.

Lemma quiet_trans w1 w2 w3 : quiet w1 w2 -> quiet w2 w3 -> quiet w1 w3.
Proof.
  intros (c1 & E1 & S1) (c2 & E2 & S2). exists (c1 ++ c2). split.
  - rewrite E2, E1, app_assoc. reflexivity.
  - rewrite submitted_app, S1, S2. reflexivity.
Qed.

Lemma quiet_log c w : submitted [c] = [] -> quiet w (log_call c w).
Proof. intros H. exists [c]. split; [reflexivity|exact H]. Qed.

Lemma quiet_same_trace w w' : trace w' = trace w -> quiet w w'.
Proof.
  intros H. exists []. rewrite app_nil_r. split; [exact H|reflexivity].
Qed.

Lemma quiet_submits_only P w w' : quiet w w' -> submits_only P w w'.
Proof.
  intros (c & E & S). exists c. rewrite S. split; [exact E|constructor].
Qed.

Lemma submits_only_trans P w1 w2 w3 :
  submits_only P w1 w2 -> submits_only P w2 w3 -> submits_only P w1 w3.
Proof.
  intros (c1 & E1 & S1) (c2 & E2 & S2). exists (c1 ++ c2). split.
  - rewrite E2, E1, app_assoc. reflexivity.
  - rewrite submitted_app. apply Forall_app. split; assumption.
Qed.

Lemma to_uint8_idem z : to_uint8 (to_uint8 z) = to_uint8 z.
Proof. unfold to_uint8. apply Z.mod_mod. lia. Qed.

Lemma existsb_false_Forall {A} (p : A -> bool) (P : A -> Prop) l :
  (forall x, P x -> p x = false) -> Forall P l -> existsb p l = false.
Proof.
  intros HP. induction 1 as [|x l Hx _ IH]; cbn [existsb]; [reflexivity|].
  rewrite (HP x Hx), IH. reflexivity.
Qed.

(** [atoi] answers an [int]; a number beyond the range of [int] keeps
    its low 32 bits. *)
Lemma atoi_int s : - 2 ^ 31 <= atoi s < 2 ^ 31.
Proof.
  unfold atoi, to_int32.
  pose proof (Z.mod_pos_bound (strtol s + 2 ^ 31) (2 ^ 32) ltac:(lia)). lia.
Qed.

Lemma atoi_beyond_int : atoi "4294967297" = 1 /\ atoi "-4294967293" = 3.
Proof. split; reflexivity. Qed.

Section InitializationProperties.

Variable usb : libusb_oracle.
Variables INTERFACE_CLASS INTERFACE_SUBCLASS INTERFACE_PROTOCOL : Z.
Variable APPLE_VEND_SPECIFIC_SET_MODE : Z.

Lemma submit_submits_only (P : libusb_transfer -> Prop) t w :
  P t -> submits_only P w (snd (libusb_submit_transfer usb t w)).
Proof.
  intros Ht. eexists. split; [reflexivity|].
  cbn. constructor; [exact Ht|constructor].
Qed.

Lemma detach_kernel_drivers_quiet intfs h w :
  quiet w (detach_kernel_drivers usb intfs h w).
Proof.
  revert w.
  induction intfs as [|i intfs IH]; intros w; cbn [detach_kernel_drivers].
  - apply quiet_refl.
  - unfold libusb_kernel_driver_active, libusb_detach_kernel_driver.
    set (w1 := log_call _ w).
    assert (H1 : quiet w w1) by (apply quiet_log; reflexivity).
    destruct (_ <? 0); [exact (quiet_trans _ _ _ H1 (IH w1))|].
    destruct (_ =? 1); [|exact (quiet_trans _ _ _ H1 (IH w1))].
    set (w2 := log_call _ w1).
    assert (H2 : quiet w1 w2) by (apply quiet_log; reflexivity).
    exact (quiet_trans _ _ _ H1 (quiet_trans _ _ _ H2 (IH w2))).
Qed.

Lemma set_valid_configuration_loop_quiet j dev h cur usbdev found w :
  quiet w (snd (set_valid_configuration_loop usb INTERFACE_CLASS
                  INTERFACE_SUBCLASS INTERFACE_PROTOCOL j dev h cur usbdev
                  found w)).
Proof.
  revert usbdev found w.
  induction j as [|j IH]; intros usbdev found w.
  - apply quiet_refl.
  - cbn [set_valid_configuration_loop].
    unfold libusb_get_config_descriptor_by_value.
    set (w1 := log_call _ w).
    assert (H1 : quiet w w1) by (apply quiet_log; reflexivity).
    destruct (usb_get_config_descriptor_by_value usb (trace w) dev
                (Z.of_nat (S j)))
      as [config|]; [|exact (quiet_trans _ _ _ H1 (IH _ _ _))].
    destruct (scan_interfaces _ _ _ _ _ _) as [usbdev' found'].
    unfold libusb_free_config_descriptor, libusb_set_configuration.
    destruct found'; cbn [negb].
    + destruct ((cur =? 0) || negb (bConfigurationValue config =? cur)).
      * pose proof (detach_kernel_drivers_quiet (interface config) h w1)
          as H2.
        set (w2 := detach_kernel_drivers usb (interface config) h w1) in *.
        set (w3 := log_call (Call_set_configuration _ _ _) w2).
        assert (H3 : quiet w2 w3) by (apply quiet_log; reflexivity).
        assert (H13 : quiet w w3) by eauto using quiet_trans.
        destruct (negb _).
        -- eapply quiet_trans; [|apply IH].
           eapply quiet_trans; [exact H13|]. apply quiet_log; reflexivity.
        -- cbn [snd]. eapply quiet_trans; [exact H13|].
           apply quiet_log; reflexivity.
      * cbn [snd]. eapply quiet_trans; [exact H1|].
        apply quiet_log; reflexivity.
    + eapply quiet_trans; [|apply IH].
      eapply quiet_trans; [exact H1|]. apply quiet_log; reflexivity.
Qed.

(** [set_valid_configuration] begins with [libusb_get_configuration] and
    submits nothing. *)
Lemma set_valid_configuration_quiet dev usbdev h w :
  quiet (log_call (Call_get_configuration h
                     (fst (usb_get_configuration usb (trace w) h))
                     (snd (usb_get_configuration usb (trace w) h))) w)
        (snd (set_valid_configuration usb INTERFACE_CLASS INTERFACE_SUBCLASS
                INTERFACE_PROTOCOL dev usbdev h w)).
Proof.
  unfold set_valid_configuration, libusb_get_configuration.
  destruct (usb_get_configuration usb (trace w) h) as [rc cfg].
  cbn [fst snd].
  destruct (negb (rc =? 0)); [apply quiet_refl|].
  pose proof (set_valid_configuration_loop_quiet
                (Z.to_nat (bNumConfigurations (devdesc usbdev))) dev h cfg
                usbdev false (log_call (Call_get_configuration h rc cfg) w))
    as H.
  destruct (set_valid_configuration_loop _ _ _ _ _ _ _ _ _ _ _)
    as [[u f] w'].
  cbn [snd] in H. destruct (negb f); exact H.
Qed.

(** For a device that is in the list, [device_complete_initialization]
    begins with [libusb_get_configuration], and the only transfer it may
    submit is the request for the language IDs. *)
Lemma device_complete_initialization_calls context h st slot usbdev :
  find_device st (ctx_bus context) (ctx_address context)
  = Some (slot, usbdev) ->
  submits_only from_get_langid
    (log_call (Call_get_configuration h
                 (fst (usb_get_configuration usb (trace (libusb st)) h))
                 (snd (usb_get_configuration usb (trace (libusb st)) h)))
       (libusb st))
    (libusb (device_complete_initialization usb INTERFACE_CLASS
               INTERFACE_SUBCLASS INTERFACE_PROTOCOL context h st)).
Proof.
  intros Hfind. unfold device_complete_initialization. rewrite Hfind.
  pose proof (set_valid_configuration_quiet (ctx_dev context) usbdev h
                (libusb st)) as H0.
  set (w0 := log_call _ (libusb st)) in *.
  destruct (set_valid_configuration _ _ _ _ _ _ _ _) as [[res usbdev1] w1].
  cbn [snd] in H0. apply (quiet_submits_only from_get_langid) in H0.
  destruct (negb (res =? 0)); [exact H0|].
  unfold libusb_claim_interface.
  set (w2 := log_call _ w1).
  assert (H2 : submits_only from_get_langid w0 w2).
  { eapply submits_only_trans; [exact H0|].
    apply quiet_submits_only, quiet_log; reflexivity. }
  destruct (negb (_ =? 0)); [exact H2|].
  unfold libusb_alloc_transfer_checked.
  destruct (usb_alloc_fails usb (trace w2)).
  { cbn [store_device libusb]. eapply submits_only_trans; [exact H2|].
    apply quiet_submits_only, quiet_log; reflexivity. }
  cbn [libusb_alloc_transfer].
  set (w3 := {| trace := trace w2 ++ _; last_ptr := _ |}).
  assert (H3 : submits_only from_get_langid w0 w3).
  { eapply submits_only_trans; [exact H2|].
    apply quiet_submits_only. eexists. split; [reflexivity|reflexivity]. }
  unfold malloc_checked.
  destruct (malloc_fails usb (trace w3)); [exact H3|].
  cbn [malloc].
  set (w4 := {| trace := trace w3; last_ptr := _ |}).
  assert (H4 : submits_only from_get_langid w0 w4).
  { eapply submits_only_trans; [exact H3|].
    apply quiet_submits_only, quiet_same_trace. reflexivity. }
  unfold libusb_get_max_packet_size, libusb_get_device_speed.
  set (w5 := log_call _ w4).
  set (w6 := log_call _ w5).
  assert (H6 : submits_only from_get_langid w0 w6).
  { eapply submits_only_trans; [exact H4|].
    eapply submits_only_trans; apply quiet_submits_only, quiet_log;
      reflexivity. }
  match goal with
  | |- context [libusb_submit_transfer usb ?t w6] =>
      pose proof (submit_submits_only from_get_langid t w6
                    (conj eq_refl eq_refl)) as H7;
      destruct (libusb_submit_transfer usb t w6) as [res7 w7]
  end.
  cbn [snd] in H7.
  assert (H07 : submits_only from_get_langid w0 w7)
    by (eapply submits_only_trans; eassumption).
  destruct (res7 <? 0); cbn [store_device libusb]; [|exact H07].
  eapply submits_only_trans; [exact H07|].
  apply quiet_submits_only, quiet_log; reflexivity.
Qed.

Lemma device_complete_initialization_starts context h st :
  find_device st (ctx_bus context) (ctx_address context) <> None ->
  starts_configuration st
    (device_complete_initialization usb INTERFACE_CLASS INTERFACE_SUBCLASS
       INTERFACE_PROTOCOL context h st) = true.
Proof.
  intros Hfind.
  destruct (find_device st (ctx_bus context) (ctx_address context))
    as [[slot usbdev]|] eqn:E; [|congruence].
  destruct (device_complete_initialization_calls context h st slot usbdev E)
    as (calls & Htrace & _).
  unfold starts_configuration.
  rewrite (new_calls_app _ _
             (Call_get_configuration h
                (fst (usb_get_configuration usb (trace (libusb st)) h))
                (snd (usb_get_configuration usb (trace (libusb st)) h))
              :: calls)); [reflexivity|].
  rewrite Htrace. cbn [log_call trace]. rewrite <- app_assoc. reflexivity.
Qed.

Lemma from_get_langid_not_set_mode t :
  from_get_langid t ->
  is_set_mode_request APPLE_VEND_SPECIFIC_SET_MODE t = false.
Proof.
  intros [_ Hs]. unfold is_set_mode_request. rewrite Hs. reflexivity.
Qed.

(** C3, as the code has it.  For a device that is in the list,
    [switch_mode_cb] goes on to configuration selection, through
    [device_complete_initialization], when the SET_MODE transfer did not
    complete or the response byte is not zero (the refusal is tolerated).
    When the transfer completed with response 0x00 the callback leaves
    the state as it is: no configuration is selected. *)
Theorem switch_mode_cb_proceeds_unless_accepted context transfer st :
  find_device st (ctx_bus context) (ctx_address context) <> None ->
  let st' := switch_mode_cb usb INTERFACE_CLASS INTERFACE_SUBCLASS
               INTERFACE_PROTOCOL context transfer st in
  (switch_accepted transfer = false ->
     st' = device_complete_initialization usb INTERFACE_CLASS
             INTERFACE_SUBCLASS INTERFACE_PROTOCOL context
             (dev_handle (completed_xfer transfer)) st
     /\ starts_configuration st st' = true)
  /\ (switch_accepted transfer = true ->
        st' = st /\ starts_configuration st st' = false).
Proof.
  intros Hfind st'. subst st'. unfold switch_mode_cb, switch_accepted.
  destruct (status_completed (status transfer)); cbn [negb andb].
  - destruct (byte_val (data_at (control_data transfer) 0) =? 0);
      cbn [negb].
    + split; [discriminate|]. intros _. split; [reflexivity|].
      unfold starts_configuration. rewrite new_calls_same. reflexivity.
    + split; [|discriminate]. intros _. split; [reflexivity|].
      apply device_complete_initialization_starts, Hfind.
  - split; [|discriminate]. intros _. split; [reflexivity|].
    apply device_complete_initialization_starts, Hfind.
Qed.

(** C2, as the code has it.  For a device in the list whose descriptor
    has one configuration, when the GET_MODE transfer completed: the
    guessed mode is cdc-ncm-direct (5); the desired mode is 1 when the
    environment variable is unset; for a desired mode from 1 to 4
    [get_mode_cb] submits exactly one transfer, a SET_MODE request with
    [wIndex] the desired mode and [switch_mode_cb] as callback; for a
    desired mode of 5 or outside 1..5 no SET_MODE request is
    submitted. *)
Theorem get_mode_cb_single_configuration env context transfer st slot dev :
  find_device st (ctx_bus context) (ctx_address context) = Some (slot, dev) ->
  bNumConfigurations (devdesc dev) = 1 ->
  status transfer = LIBUSB_TRANSFER_COMPLETED ->
  let desired := get_desired_mode env in
  let st' := get_mode_cb usb INTERFACE_CLASS INTERFACE_SUBCLASS
               INTERFACE_PROTOCOL APPLE_VEND_SPECIFIC_SET_MODE env context
               transfer st in
  let subs := submitted (new_calls (libusb st) (libusb st')) in
  fst (guess_mode usb INTERFACE_CLASS INTERFACE_SUBCLASS INTERFACE_PROTOCOL
         (ctx_dev context) dev (libusb st)) = 5
  /\ (env = None -> desired = 1)
  /\ (1 <= desired <= 4 ->
        exists t, subs = [t]
                  /\ is_set_mode_request APPLE_VEND_SPECIFIC_SET_MODE t = true
                  /\ callback t = CB_switch_mode_cb
                  /\ option_map wIndex (setup t) = Some desired)
  /\ (desired < 1 \/ 4 < desired ->
        existsb (is_set_mode_request APPLE_VEND_SPECIFIC_SET_MODE) subs
        = false).
Proof.
  intros Hfind Hn Hst desired st' subs.
  assert (Hguess : guess_mode usb INTERFACE_CLASS INTERFACE_SUBCLASS
            INTERFACE_PROTOCOL (ctx_dev context) dev (libusb st)
            = (5, libusb st)).
  { unfold guess_mode. rewrite Hn. reflexivity. }
  split; [rewrite Hguess; reflexivity|].
  split; [intros ->; reflexivity|].
  subst subs st'. unfold get_mode_cb. rewrite Hfind, Hst.
  cbn [status_completed negb].
  rewrite Hguess. fold desired.
  split.
  - intros Hd.
    destruct (Z.geb_spec desired 1); [|lia].
    destruct (Z.leb_spec desired 5); [|lia].
    change (5 >? 0) with true.
    destruct (Z.eqb_spec 5 desired); [lia|]. cbn [andb negb].
    unfold submit_vendor_specific. cbn [libusb_alloc_transfer malloc].
    match goal with
    | |- context [libusb_submit_transfer usb ?t ?w] =>
        set (xf := t); set (ww := w);
        assert (Hsub :
          new_calls (libusb st) (snd (libusb_submit_transfer usb xf ww))
          = [Call_alloc_transfer (xfer_ptr xf);
             Call_submit_transfer xf
               (fst (libusb_submit_transfer usb xf ww))])
    end.
    { apply new_calls_app. cbn. rewrite <- app_assoc. reflexivity. }
    destruct (libusb_submit_transfer usb xf ww) as [res w'] eqn:Esub.
    cbn [fst snd] in Hsub.
    exists xf.
    assert (Hw : to_uint16 desired = desired)
      by (unfold to_uint16; apply Z.mod_small; lia).
    destruct (negb (res =? 0)); cbn [store_device with_libusb libusb];
      rewrite Hsub; (split; [reflexivity|]).
    all: split;
      [unfold is_set_mode_request, xf;
       cbn [setup libusb_fill_control_transfer libusb_fill_control_setup
            bmRequestType bRequest set_mode_context ctx_bRequest];
       rewrite to_uint8_idem, !Z.eqb_refl; reflexivity|].
    all: split; [reflexivity|].
    all: unfold xf;
      cbn [setup libusb_fill_control_transfer libusb_fill_control_setup
           wIndex set_mode_context ctx_wIndex option_map];
      rewrite !Hw; reflexivity.
  - intros Hd.
    assert (Hcond : (desired >=? 1) && (desired <=? 5) && (5 >? 0)
                    && negb (5 =? desired) = false).
    { destruct (Z.geb_spec desired 1); cbn [andb]; [|reflexivity].
      destruct (Z.leb_spec desired 5); cbn [andb]; [|reflexivity].
      destruct (Z.eqb_spec 5 desired); [reflexivity|lia]. }
    rewrite Hcond.
    pose proof (device_complete_initialization_calls context
                  (dev_handle (completed_xfer transfer))
                  (with_libusb st (libusb st)) slot dev Hfind)
      as (calls & Htr & Hall).
    cbn [with_libusb libusb log_call trace] in Htr.
    rewrite <- app_assoc in Htr.
    rewrite (new_calls_app _ _ _ Htr).
    change (Call_get_configuration ?a ?b ?c :: calls)
      with ([Call_get_configuration a b c] ++ calls).
    cbn [app submitted omap list_omap].
    eapply existsb_false_Forall;
      [apply from_get_langid_not_set_mode|exact Hall].
Qed.

End InitializationProperties.

(** A refused switch (response 0x01) goes on to configuration selection;
    an accepted one (response 0x00) leaves the state as it is. *)
Lemma switch_mode_cb_proceeds_unless_accepted_witness :
  starts_configuration (ex_state 5)
    (switch_mode_cb ex_usb_ok 255 254 2 ex_context
       (ex_completion LIBUSB_TRANSFER_COMPLETED [x01]) (ex_state 5)) = true
  /\ switch_mode_cb ex_usb_ok 255 254 2 ex_context
       (ex_completion LIBUSB_TRANSFER_COMPLETED [x00]) (ex_state 5)
     = ex_state 5.
Proof.
  assert (Hfind : find_device (ex_state 5) (ctx_bus ex_context)
                    (ctx_address ex_context) <> None)
    by (vm_compute; discriminate).
  split.
  - destruct (switch_mode_cb_proceeds_unless_accepted ex_usb_ok 255 254 2
                ex_context (ex_completion LIBUSB_TRANSFER_COMPLETED [x01])
                (ex_state 5) Hfind) as [H _].
    exact (proj2 (H eq_refl)).
  - destruct (switch_mode_cb_proceeds_unless_accepted ex_usb_ok 255 254 2
                ex_context (ex_completion LIBUSB_TRANSFER_COMPLETED [x00])
                (ex_state 5) Hfind) as [_ H].
    exact (proj1 (H eq_refl)).
Defined.

(** C3 as stated fails for the response 0x00: after the accepted switch
    of a device in valeria-capable state the callback has made no call at
    all, so configuration selection has not started, while the same
    completion with response 0x01 starts it. *)
Lemma switch_mode_cb_accepted_does_not_configure :
  switch_accepted (ex_completion LIBUSB_TRANSFER_COMPLETED [x00]) = true
  /\ new_calls (libusb (ex_state 5))
       (libusb (switch_mode_cb ex_usb_ok 255 254 2 ex_context
                  (ex_completion LIBUSB_TRANSFER_COMPLETED [x00])
                  (ex_state 5))) = []
  /\ starts_configuration (ex_state 5)
       (switch_mode_cb ex_usb_ok 255 254 2 ex_context
          (ex_completion LIBUSB_TRANSFER_COMPLETED [x00]) (ex_state 5))
     = false
  /\ starts_configuration (ex_state 5)
       (switch_mode_cb ex_usb_ok 255 254 2 ex_context
          (ex_completion LIBUSB_TRANSFER_COMPLETED [x01]) (ex_state 5))
     = true.
Proof. repeat split; reflexivity. Qed.

(** With the variable unset a device with one configuration is switched
    to mode 1; with the variable set to 5 it is not switched. *)
Lemma get_mode_cb_single_configuration_witness :
  (exists t,
     submitted (new_calls (libusb (ex_state 1))
                  (libusb (get_mode_cb ex_usb_ok 255 254 2 0x52 None
                             ex_context
                             (ex_completion LIBUSB_TRANSFER_COMPLETED
                                [x05; x03; x03; x00]) (ex_state 1)))) = [t]
     /\ is_set_mode_request 0x52 t = true
     /\ callback t = CB_switch_mode_cb
     /\ option_map wIndex (setup t) = Some 1)
  /\ existsb (is_set_mode_request 0x52)
       (submitted (new_calls (libusb (ex_state 1))
                     (libusb (get_mode_cb ex_usb_ok 255 254 2 0x52
                                (Some "5"%string) ex_context
                                (ex_completion LIBUSB_TRANSFER_COMPLETED
                                   [x05; x03; x03; x00]) (ex_state 1)))))
     = false.
Proof.
  split.
  - destruct (get_mode_cb_single_configuration ex_usb_ok 255 254 2 0x52 None
                ex_context
                (ex_completion LIBUSB_TRANSFER_COMPLETED [x05; x03; x03; x00])
                (ex_state 1) 0%nat (ex_device 1) eq_refl eq_refl eq_refl)
      as (_ & _ & H & _).
    apply H. simpl. lia.
  - destruct (get_mode_cb_single_configuration ex_usb_ok 255 254 2 0x52
                (Some "5"%string) ex_context
                (ex_completion LIBUSB_TRANSFER_COMPLETED [x05; x03; x03; x00])
                (ex_state 1) 0%nat (ex_device 1) eq_refl eq_refl eq_refl)
      as (_ & _ & _ & H).
    apply H. right. reflexivity.
Defined.

(** C2 as stated fails under the default desired mode: for a device with
    one configuration and the variable unset, [get_mode_cb] submits a
    SET_MODE request, towards mode 1. *)
Lemma get_mode_cb_single_configuration_switches :
  bNumConfigurations (devdesc (ex_device 1)) = 1
  /\ get_desired_mode None = 1
  /\ existsb (is_set_mode_request 0x52)
       (submitted (new_calls (libusb (ex_state 1))
                     (libusb (get_mode_cb ex_usb_ok 255 254 2 0x52 None
                                ex_context
                                (ex_completion LIBUSB_TRANSFER_COMPLETED
                                   [x05; x03; x03; x00]) (ex_state 1)))))
     = true
  /\ map (fun t => option_map wIndex (setup t))
       (submitted (new_calls (libusb (ex_state 1))
                     (libusb (get_mode_cb ex_usb_ok 255 254 2 0x52 None
                                ex_context
                                (ex_completion LIBUSB_TRANSFER_COMPLETED
                                   [x05; x03; x03; x00]) (ex_state 1)))))
     = [Some 1].
Proof. repeat split; reflexivity. Qed.

(** ** Discovery *)

Section DiscoverProperties.

Variable usb : libusb_oracle.
Variable APPLE_VEND_SPECIFIC_GET_MODE : Z.
Variables VID_APPLE PID_APPLE_T2_COPROCESSOR : Z.
Variables PID_APPLE_SILICON_RESTORE_LOW PID_APPLE_SILICON_RESTORE_MAX : Z.
Variables PID_RANGE_LOW PID_RANGE_MAX : Z.
Variable reap_dead_devices : usb_state -> usb_state.

Local Abbreviation discover :=
  (usb_discover usb APPLE_VEND_SPECIFIC_GET_MODE VID_APPLE
     PID_APPLE_T2_COPROCESSOR PID_APPLE_SILICON_RESTORE_LOW
     PID_APPLE_SILICON_RESTORE_MAX PID_RANGE_LOW PID_RANGE_MAX
     reap_dead_devices).

Local Abbreviation discover_times :=
  (usb_discover_times usb APPLE_VEND_SPECIFIC_GET_MODE VID_APPLE
     PID_APPLE_T2_COPROCESSOR PID_APPLE_SILICON_RESTORE_LOW
     PID_APPLE_SILICON_RESTORE_MAX PID_RANGE_LOW PID_RANGE_MAX
     reap_dead_devices).

Local Abbreviation fails_times :=
  (fetch_fails_times usb APPLE_VEND_SPECIFIC_GET_MODE VID_APPLE
     PID_APPLE_T2_COPROCESSOR PID_APPLE_SILICON_RESTORE_LOW
     PID_APPLE_SILICON_RESTORE_MAX PID_RANGE_LOW PID_RANGE_MAX
     reap_dead_devices).

Lemma add_devices_count devs st valid_count :
  valid_count <= fst (add_devices usb APPLE_VEND_SPECIFIC_GET_MODE VID_APPLE
                        PID_APPLE_T2_COPROCESSOR PID_APPLE_SILICON_RESTORE_LOW
                        PID_APPLE_SILICON_RESTORE_MAX PID_RANGE_LOW
                        PID_RANGE_MAX devs st valid_count).
Proof.
  revert st valid_count.
  induction devs as [|dev devs IH]; intros st valid_count;
    cbn [add_devices fst].
  - lia.
  - destruct (usb_device_add _ _ _ _ _ _ _ _ dev st) as [res st1].
    destruct (res <? 0).
    + apply IH.
    + specialize (IH st1 (valid_count + 1)). lia.
Qed.

(** One failed fetch: the counter goes up by one; the call returns the
    negative count when the counter is then above 5, and otherwise
    returns 0 and sets the time of the next poll. *)
Lemma usb_discover_failure g :
  fetch_fails usb g = true ->
  let cnt := fst (usb_get_device_list usb (trace (libusb (core_state g)))) in
  cnt < 0
  /\ devlist_failures (snd (discover g)) = devlist_failures g + 1
  /\ fst (discover g) = (if devlist_failures g + 1 >? 5 then cnt else 0)
  /\ next_dev_poll_time (snd (discover g))
     = (if devlist_failures g + 1 >? 5 then next_dev_poll_time g
        else schedule_next_poll usb
               (libusb (core_state (snd (discover g))))).
Proof.
  unfold fetch_fails, usb_discover, libusb_get_device_list.
  destruct (usb_get_device_list usb (trace (libusb (core_state g))))
    as [cnt devs].
  cbn [fst]. intros Hf. rewrite Hf. cbv zeta.
  split; [apply Z.ltb_lt, Hf|].
  destruct (devlist_failures g + 1 >? 5);
    cbn [fst snd devlist_failures next_dev_poll_time];
    repeat split; reflexivity.
Qed.

Lemma usb_discover_success g :
  fetch_fails usb g = false ->
  devlist_failures (snd (discover g)) = 0 /\ 0 <= fst (discover g).
Proof.
  unfold fetch_fails, usb_discover, libusb_get_device_list.
  destruct (usb_get_device_list usb (trace (libusb (core_state g))))
    as [cnt devs].
  cbn [fst]. intros Hf. rewrite Hf. cbv zeta.
  match goal with
  | |- context [add_devices _ _ _ _ _ _ _ _ ?l ?s 0] =>
      pose proof (add_devices_count l s 0) as Hc;
      destruct (add_devices usb APPLE_VEND_SPECIFIC_GET_MODE VID_APPLE
                  PID_APPLE_T2_COPROCESSOR PID_APPLE_SILICON_RESTORE_LOW
                  PID_APPLE_SILICON_RESTORE_MAX PID_RANGE_LOW
                  PID_RANGE_MAX l s 0) as [valid_count st']
  end.
  cbn [fst snd devlist_failures] in *. split; [reflexivity|lia].
Qed.

Lemma usb_discover_failures_from g n :
  fails_times n g = true ->
  devlist_failures (snd (discover_times n g))
  = devlist_failures g + Z.of_nat n
  /\ forall (i : nat) res,
       nth_error (fst (discover_times n g)) i = Some res ->
       if devlist_failures g + Z.of_nat i + 1 >? 5 then res < 0 else res = 0.
Proof.
  revert g. induction n as [|n IH]; intros g Hf.
  - cbn. split; [lia|]. intros [|i] res H; discriminate H.
  - cbn [fetch_fails_times] in Hf.
    apply andb_true_iff in Hf. destruct Hf as [Hf1 Hf2].
    pose proof (usb_discover_failure g Hf1) as (Hneg & Hcnt & Hres & _).
    specialize (IH (snd (discover g)) Hf2). destruct IH as [IH1 IH2].
    cbn [usb_discover_times].
    destruct (discover g) as [r g1] eqn:Eg.
    cbn [fst snd] in *.
    destruct (usb_discover_times _ _ _ _ _ _ _ _ _ n g1) as [rest g2] eqn:Er.
    cbn [fst snd] in *.
    split; [lia|].
    intros [|i] res Hnth; cbn [nth_error] in Hnth.
    + injection Hnth as <-. rewrite Z.add_0_r, Hres.
      destruct (devlist_failures g + 1 >? 5); [exact Hneg|reflexivity].
    + specialize (IH2 i res Hnth). rewrite Hcnt in IH2.
      replace (devlist_failures g + Z.of_nat (S i) + 1)
        with (devlist_failures g + 1 + Z.of_nat i + 1) by lia.
      exact IH2.
Qed.

Lemma usb_discover_times_S n g :
  discover_times (S n) g
  = (fst (discover g) :: fst (discover_times n (snd (discover g))),
     snd (discover_times n (snd (discover g)))).
Proof.
  cbn [usb_discover_times]. destruct (discover g) as [r g1].
  cbn [fst snd].
  destruct (usb_discover_times _ _ _ _ _ _ _ _ _ n g1) as [rest g2].
  reflexivity.
Qed.

Lemma usb_discover_times_next n g :
  snd (discover_times (S n) g) = snd (discover (snd (discover_times n g))).
Proof.
  revert g. induction n as [|n IH]; intros g.
  - rewrite usb_discover_times_S. reflexivity.
  - rewrite usb_discover_times_S. cbn [snd]. rewrite IH.
    rewrite (usb_discover_times_S n g). reflexivity.
Qed.

Lemma usb_discover_times_nth n g i :
  (i < n)%nat ->
  nth_error (fst (discover_times n g)) i
  = Some (fst (discover (snd (discover_times i g)))).
Proof.
  revert g i. induction n as [|n IH]; intros g i Hi; [lia|].
  rewrite usb_discover_times_S. cbn [fst].
  destruct i as [|i]; [reflexivity|].
  cbn [nth_error]. rewrite IH by lia.
  rewrite (usb_discover_times_S i g). reflexivity.
Qed.

Lemma fetch_fails_times_at n g i :
  fails_times n g = true -> (i < n)%nat ->
  fetch_fails usb (snd (discover_times i g)) = true.
Proof.
  revert g i. induction n as [|n IH]; intros g i Hf Hi; [lia|].
  cbn [fetch_fails_times] in Hf.
  apply andb_true_iff in Hf. destruct Hf as [Hf1 Hf2].
  destruct i as [|i]; [exact Hf1|].
  rewrite usb_discover_times_S. cbn [snd]. apply IH; [exact Hf2|lia].
Qed.

Lemma fetch_fails_times_prefix n g i :
  fails_times n g = true -> (i <= n)%nat -> fails_times i g = true.
Proof.
  revert g i. induction n as [|n IH]; intros g i Hf Hi.
  - replace i with 0%nat by lia. reflexivity.
  - destruct i as [|i]; [reflexivity|].
    cbn [fetch_fails_times] in *.
    apply andb_true_iff in Hf. destruct Hf as [Hf1 Hf2].
    rewrite Hf1. cbn [andb]. apply IH; [exact Hf2|lia].
Qed.

(** C4, as the code has it.  A successful fetch of the device list sets
    the failure counter to zero.  A failed fetch adds one to the counter;
    while the counter stays at 5 or below the call returns 0 and
    schedules the next poll from the tick it reads; once the counter is
    above 5 the call returns the error of libusb, which is negative, and
    leaves the poll time as it was.  So in a run of calls whose fetch
    fails, from a counter at zero, the counter is [i] before call [i]
    (counted from 0); the first five calls return 0 and reschedule the
    poll; the sixth and every later one return libusb's error and do not
    reschedule. *)
Theorem usb_discover_failure_accounting g :
  (fetch_fails usb g = false -> devlist_failures (snd (discover g)) = 0)
  /\ (fetch_fails usb g = true ->
      let cnt := fst (usb_get_device_list usb (trace (libusb (core_state g)))) in
      cnt < 0
      /\ devlist_failures (snd (discover g)) = devlist_failures g + 1
      /\ (devlist_failures g + 1 <= 5 ->
          fst (discover g) = 0
          /\ next_dev_poll_time (snd (discover g))
             = schedule_next_poll usb (libusb (core_state (snd (discover g)))))
      /\ (5 < devlist_failures g + 1 ->
          fst (discover g) = cnt
          /\ next_dev_poll_time (snd (discover g)) = next_dev_poll_time g))
  /\ (devlist_failures g = 0 ->
      forall n, fails_times n g = true ->
        devlist_failures (snd (discover_times n g)) = Z.of_nat n
        /\ (forall (i : nat) res,
              nth_error (fst (discover_times n g)) i = Some res ->
              ((i < 5)%nat -> res = 0) /\ ((5 <= i)%nat -> res < 0))
        /\ forall i, (i < n)%nat ->
             let before := snd (discover_times i g) in
             let after := snd (discover_times (S i) g) in
             let cnt :=
               fst (usb_get_device_list usb
                      (trace (libusb (core_state before)))) in
             devlist_failures before = Z.of_nat i
             /\ after = snd (discover before)
             /\ nth_error (fst (discover_times n g)) i
                = Some (fst (discover before))
             /\ ((i < 5)%nat ->
                 fst (discover before) = 0
                 /\ next_dev_poll_time after
                    = schedule_next_poll usb (libusb (core_state after)))
             /\ ((5 <= i)%nat ->
                 fst (discover before) = cnt /\ cnt < 0
                 /\ next_dev_poll_time after = next_dev_poll_time before)).
Proof.
  assert (Hone : forall g0, fetch_fails usb g0 = true ->
    let cnt := fst (usb_get_device_list usb (trace (libusb (core_state g0)))) in
    cnt < 0
    /\ devlist_failures (snd (discover g0)) = devlist_failures g0 + 1
    /\ (devlist_failures g0 + 1 <= 5 ->
        fst (discover g0) = 0
        /\ next_dev_poll_time (snd (discover g0))
           = schedule_next_poll usb (libusb (core_state (snd (discover g0)))))
    /\ (5 < devlist_failures g0 + 1 ->
        fst (discover g0) = cnt
        /\ next_dev_poll_time (snd (discover g0)) = next_dev_poll_time g0)).
  { intros g0 Hf. cbn zeta.
    destruct (usb_discover_failure g0 Hf) as (Hneg & Hcnt & Hres & Hnext).
    cbn zeta in Hneg.
    split; [exact Hneg|]. split; [exact Hcnt|].
    destruct (Z.gtb_spec (devlist_failures g0 + 1) 5) as [Hgt|Hle].
    - split; [intros; lia|]. intros _. split; assumption.
    - split; [|intros; lia]. intros _. split; assumption. }
  split; [intros Hf; apply usb_discover_success, Hf|].
  split; [apply Hone|].
  intros H0 n Hf.
  destruct (usb_discover_failures_from g n Hf) as [H1 H2].
  split; [lia|]. split.
  - intros i res Hnth. specialize (H2 i res Hnth). rewrite H0 in H2.
    destruct (Z.gtb_spec (0 + Z.of_nat i + 1) 5); split; intros;
      try lia; assumption.
  - intros i Hi. cbn zeta.
    pose proof (fetch_fails_times_at n g i Hf Hi) as Hfi.
    pose proof (fetch_fails_times_prefix n g i Hf ltac:(lia)) as Hpre.
    destruct (usb_discover_failures_from g i Hpre) as [Hci _].
    rewrite H0 in Hci. cbn in Hci.
    destruct (Hone _ Hfi) as (Hneg & _ & Hlow & Hhigh). cbn zeta in *.
    rewrite usb_discover_times_next.
    split; [lia|]. split; [reflexivity|].
    split; [apply usb_discover_times_nth, Hi|].
    split.
    + intros Hlt. apply Hlow. lia.
    + intros Hge. destruct (Hhigh ltac:(lia)) as [Hr Hn].
      split; [exact Hr|]. split; [exact Hneg|exact Hn].
Qed.

End DiscoverProperties.

(** Seven failed fetches in a row from a fresh counter: the sixth call
    (index 5) returns the error; and a successful fetch after three
    failures sets the counter back to zero. *)
Lemma usb_discover_failure_accounting_witness :
  nth_error (fst (ex_usb_discover_times ex_usb_no_list 7 ex_core)) 5
  = Some (-11)
  /\ -11 < 0
  /\ devlist_failures (snd (ex_usb_discover_times ex_usb_no_list 7 ex_core))
     = 7
  /\ devlist_failures
       (snd (ex_usb_discover ex_usb_ok
               (snd (ex_usb_discover_times ex_usb_no_list 3 ex_core)))) = 0.
Proof.
  destruct (usb_discover_failure_accounting ex_usb_no_list 0x45 0x05ac 0x8600
              0x1901 0x1905 0x1290 0x12af (fun st => st) ex_core)
    as (_ & _ & H).
  destruct (H eq_refl 7%nat eq_refl) as (Hcount & Hres & _).
  split; [reflexivity|].
  split; [exact (proj2 (Hres 5%nat (-11) eq_refl) (le_n 5))|].
  split; [exact Hcount|].
  destruct (usb_discover_failure_accounting ex_usb_ok 0x45 0x05ac 0x8600
              0x1901 0x1905 0x1290 0x12af (fun st => st)
              (snd (ex_usb_discover_times ex_usb_no_list 3 ex_core)))
    as [H' _].
  exact (H' eq_refl).
Defined.

(** C4 as stated fails at the fifth failure in a row: five failed calls
    from a fresh counter all return 0, the fifth one with the next poll
    scheduled; the negative error comes with the sixth. *)
Lemma usb_discover_fifth_failure_not_fatal :
  fetch_fails_times ex_usb_no_list 0x45 0x05ac 0x8600 0x1901 0x1905 0x1290
    0x12af (fun st => st) 6 ex_core = true
  /\ fst (ex_usb_discover_times ex_usb_no_list 5 ex_core) = [0; 0; 0; 0; 0]
  /\ devlist_failures (snd (ex_usb_discover_times ex_usb_no_list 5 ex_core))
     = 5
  /\ next_dev_poll_time
       (snd (ex_usb_discover_times ex_usb_no_list 5 ex_core))
     = {| tv_sec := 11; tv_usec := 500000 |}
  /\ fst (ex_usb_discover_times ex_usb_no_list 6 ex_core)
     = [0; 0; 0; 0; 0; -11].
Proof. repeat split; reflexivity. Qed.

(** * Further properties *)

(** ** The device table *)

Lemma find_device_from_spec col slot0 b a :
  match find_device_from col slot0 b a with
  | Some (slot, d) =>
      (slot0 <= slot)%nat
      /\ col !! (slot - slot0)%nat = Some (Some d)
      /\ at_location b a d
      /\ forall s' d', (s' < slot - slot0)%nat ->
           col !! s' = Some (Some d') -> ~ at_location b a d'
  | None =>
      forall s d, col !! s = Some (Some d) -> ~ at_location b a d
  end.
Proof.
  revert slot0. induction col as [|[u|] rest IH]; intros slot0;
    cbn [find_device_from].
  - intros s d H. destruct s; discriminate H.
  - destruct ((bus u =? b) && (address u =? a)) eqn:E.
    + apply andb_true_iff in E. destruct E as [E1 E2].
      apply Z.eqb_eq in E1, E2.
      rewrite Nat.sub_diag. split; [lia|]. split; [reflexivity|].
      split; [split; assumption|]. intros s' d' Hlt. lia.
    + assert (Hu : ~ at_location b a u).
      { intros [H1 H2]. rewrite H1, H2, !Z.eqb_refl in E. discriminate. }
      specialize (IH (S slot0)).
      destruct (find_device_from rest (S slot0) b a) as [[slot d]|].
      * destruct IH as (Hle & Hl & Hat & Hfirst).
        replace (slot - slot0)%nat with (S (slot - S slot0)) by lia.
        split; [lia|]. split; [exact Hl|]. split; [exact Hat|].
        intros [|s'] d' Hlt Hs'; cbn in Hs'.
        -- injection Hs' as <-. exact Hu.
        -- apply (Hfirst s' d'); [lia|exact Hs'].
      * intros [|s] d Hs; cbn in Hs.
        -- injection Hs as <-. exact Hu.
        -- apply (IH s d Hs).
  - specialize (IH (S slot0)).
    destruct (find_device_from rest (S slot0) b a) as [[slot d]|].
    + destruct IH as (Hle & Hl & Hat & Hfirst).
      replace (slot - slot0)%nat with (S (slot - S slot0)) by lia.
      split; [lia|]. split; [exact Hl|]. split; [exact Hat|].
      intros [|s'] d' Hlt Hs'; cbn in Hs'; [discriminate|].
      apply (Hfirst s' d'); [lia|exact Hs'].
    + intros [|s] d Hs; cbn in Hs; [discriminate|].
      apply (IH s d Hs).
Qed.

Lemma find_device_cases st b a :
  match find_device st b a with
  | Some (slot, d) =>
      device_list st !! slot = Some (Some d)
      /\ at_location b a d
      /\ forall s' d', (s' < slot)%nat ->
           device_list st !! s' = Some (Some d') -> ~ at_location b a d'
  | None =>
      forall s d, device_list st !! s = Some (Some d) -> ~ at_location b a d
  end.
Proof.
  unfold find_device.
  pose proof (find_device_from_spec (device_list st) 0 b a) as H.
  destruct (find_device_from (device_list st) 0 b a) as [[slot d]|]; [|exact H].
  rewrite Nat.sub_0_r in H. destruct H as (_ & H1 & H2 & H3). auto.
Qed.

(** X1.  [find_device] returns the first record of the table at the
    given bus and address: it answers a slot and a record exactly when
    the slot holds that record, the record is at the location, and no
    earlier slot holds a record at the location; it answers nothing
    exactly when no record of the table is at the location. *)
Theorem find_device_first_match st b a :
  (forall slot d,
     find_device st b a = Some (slot, d)
     <-> device_list st !! slot = Some (Some d) /\ at_location b a d
         /\ forall s' d', (s' < slot)%nat ->
              device_list st !! s' = Some (Some d') -> ~ at_location b a d')
  /\ (find_device st b a = None
      <-> forall s d, device_list st !! s = Some (Some d) ->
                      ~ at_location b a d).
Proof.
  pose proof (find_device_cases st b a) as H.
  destruct (find_device st b a) as [[slot0 d0]|].
  - destruct H as (Hl & Hat & Hfirst). split.
    + intros slot d. split.
      * intros [= <- <-]. auto.
      * intros (Hl' & Hat' & Hfirst').
        destruct (Nat.lt_trichotomy slot slot0) as [Hlt|[->|Hgt]].
        -- exfalso. apply (Hfirst slot d Hlt Hl' Hat').
        -- unfold collection in *. rewrite Hl in Hl'.
           injection Hl' as ->. reflexivity.
        -- exfalso. apply (Hfirst' slot0 d0 Hgt Hl Hat).
    + split; [discriminate|]. intros Hno. exfalso.
      apply (Hno slot0 d0 Hl Hat).
  - split.
    + intros slot d. split; [discriminate|].
      intros (Hl' & Hat' & _). exfalso. apply (H slot d Hl' Hat').
    + split; [intros _; exact H|reflexivity].
Qed.

(** ** Collections *)

Lemma collection_add_lookup {A} (col : collection A) (x : A) :
  exists slot,
    collection_add col x !! slot = Some (Some x)
    /\ (col !! slot = Some None \/ col !! slot = None)
    /\ forall s, s <> slot -> collection_add col x !! s = col !! s.
Proof.
  induction col as [|[y|] rest IH]; cbn [collection_add].
  - exists 0%nat. split; [reflexivity|]. split; [right; reflexivity|].
    intros [|s] Hs; [congruence|reflexivity].
  - destruct IH as (slot & H1 & H2 & H3). exists (S slot).
    split; [exact H1|]. split; [exact H2|].
    intros [|s] Hs; [reflexivity|]. cbn. apply H3. congruence.
  - exists 0%nat. split; [reflexivity|]. split; [left; reflexivity|].
    intros [|s] Hs; [congruence|reflexivity].
Qed.

Lemma find_device_from_add col slot0 b a d :
  find_device_from col slot0 b a = None ->
  at_location b a d ->
  exists slot, find_device_from (collection_add col d) slot0 b a
               = Some (slot, d).
Proof.
  intros Hnone [Hb Ha]. revert slot0 Hnone.
  induction col as [|[u|] rest IH]; intros slot0 Hnone;
    cbn [collection_add find_device_from] in *.
  - rewrite Hb, Ha, !Z.eqb_refl. eexists; reflexivity.
  - destruct ((bus u =? b) && (address u =? a)); [discriminate|].
    apply IH, Hnone.
  - rewrite Hb, Ha, !Z.eqb_refl. eexists; reflexivity.
Qed.

Lemma find_device_from_set_alive col slot0 b a slot d v :
  find_device_from col slot0 b a = Some (slot, d) ->
  find_device_from (<[(slot - slot0)%nat := Some (set_alive d v)]> col) slot0 b a
  = Some (slot, set_alive d v).
Proof.
  revert slot0. induction col as [|[u|] rest IH]; intros slot0 H;
    cbn [find_device_from] in H.
  - discriminate.
  - destruct ((bus u =? b) && (address u =? a)) eqn:E.
    + injection H as <- <-. rewrite Nat.sub_diag. cbn. rewrite E. reflexivity.
    + pose proof (find_device_from_spec rest (S slot0) b a) as Hs.
      rewrite H in Hs. destruct Hs as (Hle & _).
      replace (slot - slot0)%nat with (S (slot - S slot0)) by lia.
      cbn. rewrite E. apply IH, H.
  - pose proof (find_device_from_spec rest (S slot0) b a) as Hs.
    rewrite H in Hs. destruct Hs as (Hle & _).
    replace (slot - slot0)%nat with (S (slot - S slot0)) by lia.
    cbn. apply IH, H.
Qed.

Section DeviceAdd.

Variable usb : libusb_oracle.
Variable APPLE_VEND_SPECIFIC_GET_MODE : Z.
Variables VID_APPLE PID_APPLE_T2_COPROCESSOR : Z.
Variables PID_APPLE_SILICON_RESTORE_LOW PID_APPLE_SILICON_RESTORE_MAX : Z.
Variables PID_RANGE_LOW PID_RANGE_MAX : Z.

Local Abbreviation device_add :=
  (usb_device_add usb APPLE_VEND_SPECIFIC_GET_MODE VID_APPLE
     PID_APPLE_T2_COPROCESSOR PID_APPLE_SILICON_RESTORE_LOW
     PID_APPLE_SILICON_RESTORE_MAX PID_RANGE_LOW PID_RANGE_MAX).

Local Abbreviation acceptable :=
  (acceptable_device VID_APPLE PID_APPLE_T2_COPROCESSOR
     PID_APPLE_SILICON_RESTORE_LOW PID_APPLE_SILICON_RESTORE_MAX
     PID_RANGE_LOW PID_RANGE_MAX).

Lemma filter_acceptable dd :
  (negb (idVendor dd =? VID_APPLE) = false
   /\ negb (idProduct dd =? PID_APPLE_T2_COPROCESSOR)
      && ((idProduct dd <? PID_APPLE_SILICON_RESTORE_LOW)
          || (idProduct dd >? PID_APPLE_SILICON_RESTORE_MAX))
      && ((idProduct dd <? PID_RANGE_LOW)
          || (idProduct dd >? PID_RANGE_MAX)) = false)
  <-> acceptable dd.
Proof.
  unfold acceptable_device. split.
  - intros [Hv Hp]. apply negb_false_iff, Z.eqb_eq in Hv.
    split; [exact Hv|].
    destruct (Z.eqb_spec (idProduct dd) PID_APPLE_T2_COPROCESSOR);
      [left; assumption|].
    destruct (Z.ltb_spec (idProduct dd) PID_APPLE_SILICON_RESTORE_LOW);
      destruct (Z.gtb_spec (idProduct dd) PID_APPLE_SILICON_RESTORE_MAX);
      destruct (Z.ltb_spec (idProduct dd) PID_RANGE_LOW);
      destruct (Z.gtb_spec (idProduct dd) PID_RANGE_MAX);
      cbn in Hp; try discriminate Hp; lia.
  - intros [Hv Hp]. split; [rewrite Hv, Z.eqb_refl; reflexivity|].
    destruct (Z.eqb_spec (idProduct dd) PID_APPLE_T2_COPROCESSOR);
      [reflexivity|].
    destruct (Z.ltb_spec (idProduct dd) PID_APPLE_SILICON_RESTORE_LOW);
      destruct (Z.gtb_spec (idProduct dd) PID_APPLE_SILICON_RESTORE_MAX);
      destruct (Z.ltb_spec (idProduct dd) PID_RANGE_LOW);
      destruct (Z.gtb_spec (idProduct dd) PID_RANGE_MAX);
      cbn; try reflexivity; lia.
Qed.

(** What [usb_device_add] does with a device that is not in the table:
    it is turned away with the table as it was, or a record for it is
    added. *)
Lemma usb_device_add_unknown dev st :
  find_device st (usb_get_bus_number usb dev) (usb_get_device_address usb dev)
  = None ->
  let r := device_add dev st in
  let calls := new_calls (libusb st) (libusb (snd r)) in
  let dd := usb_get_device_descriptor usb (trace (libusb st)) dev in
  (fst r = -1 /\ device_list (snd r) = device_list st
   /\ submitted calls = []
   /\ (opened calls = true <-> exists x, dd = Some x /\ acceptable x)
   /\ last_ptr (libusb (snd r)) = last_ptr (libusb st)
   /\ ((exists x, dd = Some x /\ acceptable x) -> opened calls = true))
  \/
  (exists x d' res,
     dd = Some x /\ acceptable x /\ opened calls = true
     /\ device_list (snd r) = collection_add (device_list st) d'
     /\ at_location (usb_get_bus_number usb dev)
          (usb_get_device_address usb dev) d'
     /\ handle d' <> None
     /\ devdesc d' = x
     /\ usbdev_self d' = S (last_ptr (libusb st))
     /\ (last_ptr (libusb st) < last_ptr (libusb (snd r)))%nat
     /\ (exists t, submitted calls = [t] /\ callback t = CB_get_mode_cb
                   /\ option_map wLength (setup t) = Some 4)
     /\ ((res = 0 /\ fst r = 0 /\ alive d' = 1)
         \/ (res <> 0 /\ fst r = -1 /\ alive d' = 0))).
Proof.
  intros Hfind r calls dd. subst r calls dd.
  unfold usb_device_add. rewrite Hfind.
  unfold libusb_get_device_descriptor.
  destruct (usb_get_device_descriptor usb (trace (libusb st)) dev) as [x|] eqn:Edd.
  2:{ left. cbn [fst snd with_libusb device_list libusb].
      rewrite (new_calls_app _ _ [Call_get_device_descriptor dev None]) by reflexivity.
      repeat split; auto; try discriminate.
      - intros (y & Hy & _). discriminate.
      - intros (y & Hy & _). discriminate. }
  set (w1 := log_call _ (libusb st)).
  pose proof (filter_acceptable x) as Hacc.
  destruct (negb (idVendor x =? VID_APPLE)) eqn:Ev.
  { left. cbn [fst snd with_libusb device_list libusb].
    rewrite (new_calls_app _ _ [Call_get_device_descriptor dev (Some x)]) by reflexivity.
    assert (Hn : ~ exists y, Some x = Some y /\ acceptable y).
    { intros (y & [= <-] & Hy). apply Hacc in Hy. destruct Hy; discriminate. }
    repeat split; auto; try discriminate; intros; exfalso; auto. }
  match goal with
  | |- context [if ?c then _ else _] => destruct c eqn:Ep
  end.
  { left. cbn [fst snd with_libusb device_list libusb].
    rewrite (new_calls_app _ _ [Call_get_device_descriptor dev (Some x)]) by reflexivity.
    assert (Hn : ~ exists y, Some x = Some y /\ acceptable y).
    { intros (y & [= <-] & Hy). apply Hacc in Hy. destruct Hy; discriminate. }
    repeat split; auto; try discriminate; intros; exfalso; auto. }
  assert (Hx : acceptable x) by (apply Hacc; split; reflexivity).
  unfold libusb_open.
  destruct (usb_open usb (trace w1) dev) as [h|] eqn:Eo.
  2:{ left. cbn [fst snd with_libusb device_list libusb].
      rewrite (new_calls_app _ _ [Call_get_device_descriptor dev (Some x);
                                  Call_open dev None])
        by (cbn; rewrite <- app_assoc; reflexivity).
      repeat split; auto.
      intros _. exists x. split; [reflexivity|exact Hx]. }
  right. exists x.
  unfold submit_vendor_specific. cbn [malloc libusb_alloc_transfer].
  match goal with
  | |- context [libusb_submit_transfer usb ?t ?w] =>
      set (xf := t); set (ww := w)
  end.
  assert (Hcalls : forall w', w' = snd (libusb_submit_transfer usb xf ww) ->
            new_calls (libusb st) w'
            = [Call_get_device_descriptor dev (Some x); Call_open dev (Some h);
               Call_alloc_transfer (xfer_ptr xf);
               Call_submit_transfer xf (fst (libusb_submit_transfer usb xf ww))]).
  { intros w' ->. apply new_calls_app. cbn. rewrite <- !app_assoc. reflexivity. }
  assert (Hptr : forall w', w' = snd (libusb_submit_transfer usb xf ww) ->
            (last_ptr (libusb st) < last_ptr w')%nat).
  { intros w' ->. cbn. lia. }
  destruct (libusb_submit_transfer usb xf ww) as [res w'] eqn:Es.
  cbn [fst snd] in *.
  specialize (Hcalls w' eq_refl). specialize (Hptr w' eq_refl).
  destruct (Z.eqb_spec res 0) as [E0|E0]; cbn [negb fst snd device_list libusb].
  - eexists _, res. rewrite Hcalls.
    split; [reflexivity|]. split; [exact Hx|]. split; [reflexivity|].
    split; [reflexivity|]. split; [split; reflexivity|].
    split; [discriminate|]. split; [reflexivity|]. split; [reflexivity|].
    split; [exact Hptr|].
    split; [exists xf; repeat split; reflexivity|].
    left. repeat split; auto.
  - eexists _, res. rewrite Hcalls.
    split; [reflexivity|]. split; [exact Hx|]. split; [reflexivity|].
    split; [reflexivity|]. split; [split; reflexivity|].
    split; [discriminate|]. split; [reflexivity|]. split; [reflexivity|].
    split; [exact Hptr|].
    split; [exists xf; repeat split; reflexivity|].
    right. repeat split; auto.
Qed.


Lemma usb_device_add_known dev st slot d :
  find_device st (usb_get_bus_number usb dev) (usb_get_device_address usb dev)
  = Some (slot, d) ->
  device_add dev st = (0, store_device slot (set_alive d 1) st (libusb st)).
Proof. intros H. unfold usb_device_add. rewrite H. reflexivity. Qed.

(** A record already in the table keeps its slot; it is marked alive
    when the device is at its location, and is otherwise left as it
    is. *)
Lemma usb_device_add_slot dev st s d :
  unique_locations (device_list st) ->
  device_list st !! s = Some (Some d) ->
  device_list (snd (device_add dev st)) !! s
  = Some (Some (if (usb_get_bus_number usb dev =? bus d)
                   && (usb_get_device_address usb dev =? address d)
                then set_alive d 1 else d)).
Proof.
  intros Hu Hs.
  pose proof (find_device_cases st (usb_get_bus_number usb dev)
                (usb_get_device_address usb dev)) as Hf.
  destruct (find_device st (usb_get_bus_number usb dev)
              (usb_get_device_address usb dev)) as [[slot d0]|] eqn:E.
  - rewrite (usb_device_add_known dev st slot d0 E).
    cbn [snd store_device device_list].
    destruct Hf as (Hslot & [Hb Ha] & _).
    destruct ((usb_get_bus_number usb dev =? bus d)
              && (usb_get_device_address usb dev =? address d)) eqn:Eloc.
    + apply andb_true_iff in Eloc. destruct Eloc as [E1 E2].
      apply Z.eqb_eq in E1, E2.
      assert (s = slot) by (apply (Hu s slot d d0 Hs Hslot); congruence).
      subst s. rewrite Hslot in Hs. injection Hs as <-.
      apply list_lookup_insert_eq. apply lookup_lt_Some in Hslot. exact Hslot.
    + assert (s <> slot).
      { intros ->. rewrite Hslot in Hs. injection Hs as <-.
        rewrite Hb, Ha, !Z.eqb_refl in Eloc. discriminate. }
      etrans; [apply list_lookup_insert_ne; congruence|exact Hs].
  - assert (Eloc : (usb_get_bus_number usb dev =? bus d)
                   && (usb_get_device_address usb dev =? address d) = false).
    { destruct ((usb_get_bus_number usb dev =? bus d)
                && (usb_get_device_address usb dev =? address d)) eqn:Eloc;
        [|reflexivity].
      apply andb_true_iff in Eloc. destruct Eloc as [E1 E2].
      apply Z.eqb_eq in E1, E2. exfalso.
      apply (Hf s d Hs). split; congruence. }
    rewrite Eloc.
    destruct (usb_device_add_unknown dev st E)
      as [(_ & Hl & _)|(x & d' & res & _ & _ & _ & Hl & _)]; rewrite Hl.
    + exact Hs.
    + destruct (collection_add_lookup (device_list st) d')
        as (slot' & _ & Hempty & Hother).
      rewrite Hother; [exact Hs|].
      intros ->. rewrite Hs in Hempty. destruct Hempty; discriminate.
Qed.

Lemma unique_locations_insert (col : list (option usb_device)) slot d d' :
  unique_locations col -> col !! slot = Some (Some d) ->
  bus d' = bus d -> address d' = address d ->
  unique_locations (<[slot := Some d']> col).
Proof.
  intros Hu Hs Hb Ha s1 s2 d1 d2 H1 H2 Eb Ea.
  unfold collection in *.
  assert (Hlen : (slot < length col)%nat) by (apply lookup_lt_Some in Hs; exact Hs).
  destruct (Nat.eq_dec s1 slot) as [->|N1]; destruct (Nat.eq_dec s2 slot) as [->|N2];
    try reflexivity.
  - rewrite list_lookup_insert_eq in H1 by exact Hlen. injection H1 as <-.
    rewrite list_lookup_insert_ne in H2 by congruence.
    symmetry. apply (Hu s2 slot d2 d H2 Hs); congruence.
  - rewrite list_lookup_insert_eq in H2 by exact Hlen. injection H2 as <-.
    rewrite list_lookup_insert_ne in H1 by congruence.
    apply (Hu s1 slot d1 d H1 Hs); congruence.
  - rewrite list_lookup_insert_ne in H1, H2 by congruence.
    apply (Hu s1 s2 d1 d2 H1 H2 Eb Ea).
Qed.

Lemma unique_locations_add col d :
  unique_locations col ->
  (forall s x, col !! s = Some (Some x) -> ~ at_location (bus d) (address d) x) ->
  unique_locations (collection_add col d).
Proof.
  intros Hu Hnew s1 s2 d1 d2 H1 H2 Eb Ea.
  destruct (collection_add_lookup col d) as (slot & Hslot & _ & Hother).
  destruct (Nat.eq_dec s1 slot) as [->|N1]; destruct (Nat.eq_dec s2 slot) as [->|N2];
    try reflexivity.
  - rewrite Hslot in H1. injection H1 as <-.
    rewrite Hother in H2 by exact N2. exfalso.
    apply (Hnew s2 d2 H2). split; congruence.
  - rewrite Hslot in H2. injection H2 as <-.
    rewrite Hother in H1 by exact N1. exfalso.
    apply (Hnew s1 d1 H1). split; congruence.
  - rewrite Hother in H1 by exact N1. rewrite Hother in H2 by exact N2.
    apply (Hu s1 s2 d1 d2 H1 H2 Eb Ea).
Qed.

Lemma usb_device_add_unique_locations dev st :
  unique_locations (device_list st) ->
  unique_locations (device_list (snd (device_add dev st))).
Proof.
  intros Hu.
  pose proof (find_device_cases st (usb_get_bus_number usb dev)
                (usb_get_device_address usb dev)) as Hf.
  destruct (find_device st (usb_get_bus_number usb dev)
              (usb_get_device_address usb dev)) as [[slot d0]|] eqn:E.
  - rewrite (usb_device_add_known dev st slot d0 E).
    cbn [snd store_device device_list].
    destruct Hf as (Hslot & _).
    apply (unique_locations_insert _ _ d0); auto.
  - destruct (usb_device_add_unknown dev st E)
      as [(_ & Hl & _)|(x & d' & res & _ & _ & _ & Hl & [Hb Ha] & _)];
      rewrite Hl; [exact Hu|].
    apply unique_locations_add; [exact Hu|].
    rewrite Hb, Ha. exact Hf.
Qed.

(** X2.  [usb_device_add] opens a device exactly when no record of the
    table is at its location, its descriptor can be read, the vendor is
    Apple's, and the product is the T2 coprocessor or lies in one of the
    two product ranges. *)
Theorem usb_device_add_opens_acceptable_only dev st :
  opened (new_calls (libusb st) (libusb (snd (device_add dev st)))) = true
  <-> find_device st (usb_get_bus_number usb dev)
        (usb_get_device_address usb dev) = None
      /\ exists x, usb_get_device_descriptor usb (trace (libusb st)) dev
                   = Some x /\ acceptable x.
Proof.
  destruct (find_device st (usb_get_bus_number usb dev)
              (usb_get_device_address usb dev)) as [[slot d0]|] eqn:E.
  - rewrite (usb_device_add_known dev st slot d0 E).
    cbn [snd store_device libusb]. rewrite new_calls_same. cbn.
    split; [discriminate|]. intros [H _]. discriminate.
  - destruct (usb_device_add_unknown dev st E)
      as [(_ & _ & _ & Hiff & _)|(x & d' & res & Hdd & Hx & Ho & _)].
    + rewrite Hiff. split; [intros H; split; [reflexivity|exact H]|].
      intros [_ H]. exact H.
    + rewrite Ho. split; [|reflexivity]. intros _.
      split; [reflexivity|]. exists x. split; assumption.
Qed.

(** X3.  [usb_device_add] returns 0 or -1.  After 0 the table holds a
    record at the device's location that is alive.  After -1 a record at
    the location, if there is one, is marked dead and was not in the
    table before. *)
Theorem usb_device_add_result dev st :
  let b := usb_get_bus_number usb dev in
  let a := usb_get_device_address usb dev in
  let r := device_add dev st in
  (fst r = 0 \/ fst r = -1)
  /\ (fst r = 0 ->
      exists slot d, find_device (snd r) b a = Some (slot, d) /\ alive d = 1)
  /\ (fst r = -1 ->
      forall slot d, find_device (snd r) b a = Some (slot, d) ->
        alive d = 0 /\ find_device st b a = None).
Proof.
  intros b a r. subst r.
  destruct (find_device st b a) as [[slot d0]|] eqn:E.
  - subst b a. rewrite (usb_device_add_known dev st slot d0 E).
    cbn [fst snd]. split; [left; reflexivity|]. split; [|discriminate].
    intros _. exists slot, (set_alive d0 1). split; [|reflexivity].
    unfold find_device in *. cbn [store_device device_list].
    pose proof (find_device_from_set_alive _ _ _ _ _ _ 1 E) as H.
    rewrite Nat.sub_0_r in H. exact H.
  - subst b a.
    destruct (usb_device_add_unknown dev st E)
      as [(Hr & Hl & _)
         |(x & d' & res & _ & _ & _ & Hl & Hat & _ & _ & _ & _ & _ & Hres)].
    + split; [right; exact Hr|]. split; [rewrite Hr; discriminate|].
      intros _ slot d Hf. unfold find_device in *. rewrite Hl, E in Hf.
      discriminate.
    + destruct (find_device_from_add (device_list st) 0 _ _ d' E Hat)
        as (slot' & Hfound).
      unfold find_device. rewrite Hl, Hfound.
      destruct Hres as [(_ & Hr & Hal)|(_ & Hr & Hal)]; rewrite Hr.
      * split; [left; reflexivity|]. split; [|discriminate].
        intros _. exists slot', d'. split; [reflexivity|exact Hal].
      * split; [right; reflexivity|]. split; [discriminate|].
        intros _ slot d [= <- <-]. split; [exact Hal|reflexivity].
Qed.


Local Abbreviation scan :=
  (add_devices usb APPLE_VEND_SPECIFIC_GET_MODE VID_APPLE
     PID_APPLE_T2_COPROCESSOR PID_APPLE_SILICON_RESTORE_LOW
     PID_APPLE_SILICON_RESTORE_MAX PID_RANGE_LOW PID_RANGE_MAX).

Lemma add_devices_slot devs st vc s d :
  unique_locations (device_list st) ->
  device_list st !! s = Some (Some d) ->
  device_list (snd (scan devs st vc)) !! s
  = Some (Some (if reported usb devs d then set_alive d 1 else d)).
Proof.
  revert st vc d. induction devs as [|dev devs IH]; intros st vc d Hu Hs;
    cbn [add_devices reported existsb snd].
  - exact Hs.
  - pose proof (usb_device_add_slot dev st s d Hu Hs) as Hstep.
    pose proof (usb_device_add_unique_locations dev st Hu) as Hu'.
    destruct (device_add dev st) as [res st1]. cbn [snd] in *.
    assert (Hgoal : forall vc',
      device_list (snd (scan devs st1 vc')) !! s
      = Some (Some (if (usb_get_bus_number usb dev =? bus d)
                       && (usb_get_device_address usb dev =? address d)
                       || reported usb devs d
                    then set_alive d 1 else d))).
    { intros vc'. rewrite (IH st1 vc' _ Hu' Hstep).
      destruct ((usb_get_bus_number usb dev =? bus d)
                && (usb_get_device_address usb dev =? address d));
        cbn [orb]; [|reflexivity].
      unfold reported. cbn [set_alive bus address].
      destruct (existsb _ devs); reflexivity. }
    destruct (res <? 0); apply Hgoal.
Qed.

Lemma add_devices_unique devs st vc :
  unique_locations (device_list st) ->
  unique_locations (device_list (snd (scan devs st vc))).
Proof.
  revert st vc. induction devs as [|dev devs IH]; intros st vc Hu;
    cbn [add_devices snd]; [exact Hu|].
  pose proof (usb_device_add_unique_locations dev st Hu) as Hu'.
  destruct (device_add dev st) as [res st1]. cbn [snd] in *.
  destruct (res <? 0); apply IH, Hu'.
Qed.

Lemma add_devices_bounds devs st vc :
  vc <= fst (scan devs st vc) <= vc + Z.of_nat (length devs).
Proof.
  revert st vc. induction devs as [|dev devs IH]; intros st vc;
    cbn [add_devices fst length].
  - lia.
  - destruct (device_add dev st) as [res st1].
    destruct (res <? 0).
    + specialize (IH st1 vc). lia.
    + specialize (IH st1 (vc + 1)). lia.
Qed.

Lemma lookup_map {A B} (f : A -> B) (l : list A) (i : nat) :
  map f l !! i = option_map f (l !! i).
Proof.
  revert i. induction l as [|x l IH]; intros [|i]; cbn; auto.
Qed.

Lemma mark_all_dead_lookup (col : list (option usb_device)) s d :
  col !! s = Some (Some d) ->
  mark_all_dead col !! s = Some (Some (set_alive d 0)).
Proof.
  intros H. unfold mark_all_dead, collection. rewrite lookup_map, H.
  reflexivity.
Qed.

Lemma mark_all_dead_lookup_inv (col : list (option usb_device)) s d' :
  mark_all_dead col !! s = Some (Some d') ->
  exists d, col !! s = Some (Some d) /\ d' = set_alive d 0.
Proof.
  unfold mark_all_dead, collection. rewrite lookup_map.
  destruct (col !! s) as [[d|]|]; cbn; intros H; try discriminate.
  injection H as <-. exists d. split; reflexivity.
Qed.

Lemma mark_all_dead_unique col :
  unique_locations col -> unique_locations (mark_all_dead col).
Proof.
  intros Hu s1 s2 d1 d2 H1 H2 Eb Ea.
  apply mark_all_dead_lookup_inv in H1, H2.
  destruct H1 as (x1 & H1 & ->). destruct H2 as (x2 & H2 & ->).
  apply (Hu s1 s2 x1 x2 H1 H2 Eb Ea).
Qed.

(** The scan of [usb_discover] (lines 880-892): a record of the table
    keeps its slot and its fields; it is alive afterwards exactly when the
    device list holds a device at its location. *)
Lemma add_devices_marks devs st w s d :
  unique_locations (device_list st) ->
  device_list st !! s = Some (Some d) ->
  device_list
    (snd (scan devs {| device_list := mark_all_dead (device_list st);
                       libusb := w |} 0)) !! s
  = Some (Some (set_alive d (if reported usb devs d then 1 else 0))).
Proof.
  intros Hu Hs.
  rewrite (add_devices_slot devs _ 0 s (set_alive d 0)).
  - unfold reported. cbn [set_alive bus address].
    destruct (existsb _ devs); reflexivity.
  - apply mark_all_dead_unique, Hu.
  - apply mark_all_dead_lookup, Hs.
Qed.

End DeviceAdd.

(** ** Teardown *)

Lemma unique_selfs_tail (u : option usb_device) (rest : list (option usb_device)) :
  unique_selfs (u :: rest) -> unique_selfs rest.
Proof.
  intros Hu s1 s2 d1 d2 H1 H2 E.
  assert (S s1 = S s2) by (apply (Hu (S s1) (S s2) d1 d2); assumption).
  lia.
Qed.

(** In a table whose records have distinct addresses, removing the
    record of slot [s] empties that slot and no other. *)
Lemma collection_remove_self (col : list (option usb_device)) s d :
  unique_selfs col -> col !! s = Some (Some d) ->
  collection_remove (fun a b => Nat.eqb (usbdev_self a) (usbdev_self b)) col d
  = <[s := None]> col.
Proof.
  revert s. induction col as [|[y|] rest IH]; intros s Hu Hs;
    cbn [collection_remove].
  - destruct s; discriminate Hs.
  - destruct (Nat.eqb_spec (usbdev_self y) (usbdev_self d)) as [E|N].
    + assert (0%nat = s) by (apply (Hu 0%nat s y d); auto).
      subst s. reflexivity.
    + destruct s as [|s]; [cbn in Hs; congruence|].
      cbn in Hs. cbn [insert list_insert]. f_equal.
      apply IH; [apply (unique_selfs_tail _ _ Hu)|exact Hs].
  - destruct s as [|s]; [discriminate Hs|].
    cbn in Hs. cbn [insert list_insert]. f_equal.
    apply IH; [apply (unique_selfs_tail _ _ Hu)|exact Hs].
Qed.

Lemma unique_selfs_clear (col : list (option usb_device)) s :
  unique_selfs col -> unique_selfs (<[s := None]> col).
Proof.
  intros Hu s1 s2 d1 d2 H1 H2 E. unfold collection in *.
  apply list_lookup_insert_Some in H1, H2.
  destruct H1 as [(_ & H1 & _)|(N1 & H1)]; [discriminate|].
  destruct H2 as [(_ & H2 & _)|(N2 & H2)]; [discriminate|].
  apply (Hu s1 s2 d1 d2 H1 H2 E).
Qed.

Section TeardownProperties.

Variable usb_handle_events :
  list teardown_call -> usb_device -> collection usb_device ->
  Z * usb_device * collection usb_device.

Local Abbreviation wait := (usb_disconnect_wait usb_handle_events).
Local Abbreviation disconnect := (usb_disconnect usb_handle_events).
Local Abbreviation reap_from := (reap_dead_devices_from usb_handle_events).
Local Abbreviation reap := (reap_dead_devices_table usb_handle_events).

Lemma usb_disconnect_wait_calls n dev col log :
  exists rs,
    snd (wait n dev col log) = log ++ map Call_handle_events_timeout rs
    /\ (length rs <= n)%nat
    /\ (xfers_pending (fst (fst (wait n dev col log))) = true ->
        length rs = n \/ exists r, last rs = Some r /\ r < 0).
Proof.
  revert dev col log. induction n as [|n IH]; intros dev col log;
    cbn [usb_disconnect_wait].
  - exists []. cbn. rewrite app_nil_r. repeat split; auto.
  - destruct (xfers_pending dev) eqn:Ep.
    + destruct (usb_handle_events log dev col) as [[res dev1] col1].
      destruct (Z.ltb_spec res 0).
      * exists [res]. cbn [fst snd map length]. split; [reflexivity|].
        split; [lia|]. intros _. right. exists res. split; [reflexivity|lia].
      * destruct (IH dev1 col1 (log ++ [Call_handle_events_timeout res]))
          as (rs & Hlog & Hlen & Hpend).
        exists (res :: rs). rewrite Hlog. cbn [map length].
        rewrite <- app_assoc. split; [reflexivity|]. split; [lia|].
        intros Hp. destruct (Hpend Hp) as [Hn|(r & Hr & Hneg)].
        -- left. lia.
        -- right. exists r. split; [|exact Hneg].
           destruct rs as [|r0 rs']; [discriminate Hr|].
           rewrite last_cons. rewrite Hr. reflexivity.
    + exists []. cbn [fst snd map length]. rewrite app_nil_r.
      split; [reflexivity|]. split; [lia|]. intros Hp. congruence.
Qed.

(** X4.  [usb_disconnect] of a record with a handle cancels its read
    transfers and then its write transfers, handles events at most 100
    times, frees by force the transfers that are still pending (which
    happens only after 100 rounds or a failed round), releases the
    interface, closes the handle, and takes the record out of the table
    as the event handling left it; whatever the callbacks do to the
    record and to the table while events are handled. *)
Theorem usb_disconnect_calls dev col log :
  handle dev <> None ->
  let r := disconnect dev col log in
  let waited :=
    wait (Z.to_nat max_iterations) dev col
      (log ++ map Call_cancel_transfer (collection_elements (rx_xfers dev))
           ++ map Call_cancel_transfer (collection_elements (tx_xfers dev))) in
  let d0 := fst (fst waited) in
  let col0 := snd (fst waited) in
  exists rs forced,
    snd r = log
            ++ map Call_cancel_transfer
                 (collection_elements (rx_xfers dev)
                  ++ collection_elements (tx_xfers dev))
            ++ map Call_handle_events_timeout rs
            ++ map Call_force_free_transfer forced
            ++ [Call_release_interface (handle d0) (usb_interface d0);
                Call_close (handle d0)]
    /\ (length rs <= 100)%nat
    /\ forced = (if xfers_pending d0
                 then collection_elements (rx_xfers d0)
                      ++ collection_elements (tx_xfers d0)
                 else [])
    /\ (forced <> [] ->
        length rs = 100%nat \/ exists r, last rs = Some r /\ r < 0)
    /\ fst r = collection_remove
                 (fun a b => Nat.eqb (usbdev_self a) (usbdev_self b)) col0 dev.
Proof.
  intros Hh r waited d0 col0. subst r d0 col0 waited. unfold usb_disconnect.
  destruct (handle dev) as [h|] eqn:Eh; [|congruence].
  rewrite <- !app_assoc.
  set (log1 := log ++ map Call_cancel_transfer _ ++ map Call_cancel_transfer _).
  destruct (usb_disconnect_wait_calls (Z.to_nat max_iterations) dev col log1)
    as (rs & Hlog & Hlen & Hpend).
  destruct (wait (Z.to_nat max_iterations) dev col log1) as [[d0 col0] log2].
  cbn [fst snd] in *. subst log2.
  exists rs.
  destruct (xfers_pending d0) eqn:Ep.
  - exists (collection_elements (rx_xfers d0)
            ++ collection_elements (tx_xfers d0)).
    cbn [fst snd handle usb_interface set_tx_xfers set_rx_xfers tx_xfers].
    split.
    { subst log1. rewrite !map_app, <- !app_assoc. reflexivity. }
    split; [exact Hlen|]. split; [reflexivity|].
    split; [intros _; apply Hpend; reflexivity|reflexivity].
  - exists []. cbn [fst snd map app].
    split.
    { subst log1. rewrite !map_app, <- !app_assoc. reflexivity. }
    split; [exact Hlen|]. split; [reflexivity|].
    split; [congruence|reflexivity].
Qed.

Lemma usb_disconnect_begins dev col log :
  handle dev <> None ->
  exists rest,
    snd (disconnect dev col log)
    = log ++ map Call_cancel_transfer
               (collection_elements (rx_xfers dev)
                ++ collection_elements (tx_xfers dev)) ++ rest.
Proof.
  intros Hh. unfold usb_disconnect.
  destruct (handle dev) as [h|] eqn:Eh; [|congruence].
  rewrite <- !app_assoc.
  set (log1 := log ++ map Call_cancel_transfer _ ++ map Call_cancel_transfer _).
  destruct (usb_disconnect_wait_calls (Z.to_nat max_iterations) dev col log1)
    as (rs & Hlog & _).
  destruct (wait (Z.to_nat max_iterations) dev col log1) as [[d0 col0] log2].
  cbn [fst snd] in *. subst log2 log1.
  destruct (xfers_pending d0); cbn [snd].
  - exists (map Call_handle_events_timeout rs
            ++ map Call_force_free_transfer (collection_elements (rx_xfers d0))
            ++ map Call_force_free_transfer
                 (collection_elements
                    (tx_xfers (set_rx_xfers d0 collection_init)))
            ++ [Call_release_interface
                  (handle (set_tx_xfers (set_rx_xfers d0 collection_init)
                             collection_init))
                  (usb_interface
                     (set_tx_xfers (set_rx_xfers d0 collection_init)
                        collection_init));
                Call_close
                  (handle (set_tx_xfers (set_rx_xfers d0 collection_init)
                             collection_init))]).
    rewrite map_app, <- !app_assoc. reflexivity.
  - exists (map Call_handle_events_timeout rs
            ++ [Call_release_interface (handle d0) (usb_interface d0);
                Call_close (handle d0)]).
    rewrite map_app, <- !app_assoc. reflexivity.
Qed.

Lemma reap_dead_devices_skips n i (col : list (option usb_device)) log k :
  (forall s d, (i <= s < i + n)%nat -> col !! s = Some (Some d) ->
               alive d <> 0) ->
  (i + n <= length col)%nat ->
  reap_from (n + k) i col log = reap_from k (i + n) col log.
Proof.
  revert i. induction n as [|n IH]; intros i Hlive Hlen.
  - rewrite Nat.add_0_r. reflexivity.
  - cbn [Nat.add reap_dead_devices_from]. unfold collection in *.
    destruct (col !! i) as [slot|] eqn:Ei.
    2:{ apply lookup_ge_None in Ei. lia. }
    assert (Hnext : reap_from (n + k) (S i) col log
                    = reap_from k (i + S n) col log).
    { replace (i + S n)%nat with (S i + n)%nat by lia.
      apply IH; [|lia]. intros s d Hs. apply Hlive. lia. }
    destruct slot as [usbdev|]; [|exact Hnext].
    destruct (Z.eqb_spec (alive usbdev) 0) as [E|E]; [|exact Hnext].
    exfalso. apply (Hlive i usbdev ltac:(lia) Ei E).
Qed.

Lemma reap_dead_devices_reaches (col : list (option usb_device)) log s d k :
  (forall s' d', (s' < s)%nat -> col !! s' = Some (Some d') ->
                 alive d' <> 0) ->
  col !! s = Some (Some d) -> alive d = 0 ->
  reap (S s + k) col log
  = reap_from k (S s)
      (fst (disconnect d col (log ++ [Call_device_remove (usbdev_self d)])))
      (snd (disconnect d col (log ++ [Call_device_remove (usbdev_self d)]))).
Proof.
  intros Hlive Hs Hdead. unfold reap_dead_devices_table.
  assert (Hlen : (s < length col)%nat).
  { apply lookup_lt_Some in Hs. exact Hs. }
  replace (S s + k)%nat with (s + S k)%nat by lia.
  rewrite (reap_dead_devices_skips s 0 col log).
  - cbn [Nat.add reap_dead_devices_from]. unfold collection in *.
    rewrite Hs, Hdead. cbn [Z.eqb].
    destruct (disconnect d col _) as [col' log']. reflexivity.
  - intros s' d' Hs'. apply Hlive. lia.
  - lia.
Qed.

(** X5.  [reap_dead_devices] passes over empty slots and records that
    are alive without a call.  When every record of the table is alive
    it ends having made no call, handled no event and changed nothing.
    Otherwise the first thing it does is to hand the first dead record
    to [device_remove] and then to [usb_disconnect]; it goes on from the
    next slot with the table as that teardown left it, whatever the
    callbacks did while events were handled. *)
Theorem reap_dead_devices_first_dead (col : collection usb_device) log s :
  (forall s' d', (s' < s)%nat -> col !! s' = Some (Some d') ->
                 alive d' <> 0) ->
  (s = length col ->
   forall n, (length col <= n)%nat -> reap n col log = (true, col, log))
  /\ (forall d, col !! s = Some (Some d) -> alive d = 0 ->
      forall k,
        reap (S s + k) col log
        = reap_from k (S s)
            (fst (disconnect d col
                    (log ++ [Call_device_remove (usbdev_self d)])))
            (snd (disconnect d col
                    (log ++ [Call_device_remove (usbdev_self d)])))).
Proof.
  intros Hlive. unfold reap_dead_devices_table. split.
  - intros -> n Hn.
    replace n with (length col + (n - length col))%nat by lia.
    rewrite (reap_dead_devices_skips (length col) 0 col log).
    + cbn [Nat.add]. unfold collection in *.
      assert (E : col !! length col = None) by (apply lookup_ge_None; lia).
      destruct (n - length col)%nat; cbn [reap_dead_devices_from];
        unfold collection in *; rewrite E; reflexivity.
    + intros s d Hs. apply Hlive. lia.
    + lia.
  - intros d Hs Hdead k.
    apply (reap_dead_devices_reaches col log s d k Hlive Hs Hdead).
Qed.

End TeardownProperties.

(** ** The table across a scan *)

Lemma unique_selfs_insert (col : list (option usb_device)) slot d d' :
  unique_selfs col -> col !! slot = Some (Some d) ->
  usbdev_self d' = usbdev_self d ->
  unique_selfs (<[slot := Some d']> col).
Proof.
  intros Hu Hs He s1 s2 d1 d2 H1 H2 E. unfold collection in *.
  apply list_lookup_insert_Some in H1, H2.
  destruct H1 as [(-> & [= <-] & _)|(N1 & H1)];
    destruct H2 as [(-> & [= <-] & _)|(N2 & H2)]; try reflexivity.
  - symmetry. apply (Hu s2 s1 d2 d H2 Hs). congruence.
  - apply (Hu s1 s2 d1 d H1 Hs). congruence.
  - apply (Hu s1 s2 d1 d2 H1 H2 E).
Qed.

Lemma unique_selfs_add col d :
  unique_selfs col ->
  (forall s x, col !! s = Some (Some x) -> usbdev_self x <> usbdev_self d) ->
  unique_selfs (collection_add col d).
Proof.
  intros Hu Hnew s1 s2 d1 d2 H1 H2 E.
  destruct (collection_add_lookup col d) as (slot & Hslot & _ & Hother).
  destruct (Nat.eq_dec s1 slot) as [->|N1];
    destruct (Nat.eq_dec s2 slot) as [->|N2]; try reflexivity.
  - rewrite Hslot in H1. injection H1 as <-.
    rewrite Hother in H2 by exact N2. exfalso.
    apply (Hnew s2 d2 H2). congruence.
  - rewrite Hslot in H2. injection H2 as <-.
    rewrite Hother in H1 by exact N1. exfalso.
    apply (Hnew s1 d1 H1). congruence.
  - rewrite Hother in H1 by exact N1. rewrite Hother in H2 by exact N2.
    apply (Hu s1 s2 d1 d2 H1 H2 E).
Qed.

Section Sweep.

Variable usb : libusb_oracle.
Variable APPLE_VEND_SPECIFIC_GET_MODE : Z.
Variables VID_APPLE PID_APPLE_T2_COPROCESSOR : Z.
Variables PID_APPLE_SILICON_RESTORE_LOW PID_APPLE_SILICON_RESTORE_MAX : Z.
Variables PID_RANGE_LOW PID_RANGE_MAX : Z.
Local Abbreviation device_add :=
  (usb_device_add usb APPLE_VEND_SPECIFIC_GET_MODE VID_APPLE
     PID_APPLE_T2_COPROCESSOR PID_APPLE_SILICON_RESTORE_LOW
     PID_APPLE_SILICON_RESTORE_MAX PID_RANGE_LOW PID_RANGE_MAX).

Local Abbreviation scan :=
  (add_devices usb APPLE_VEND_SPECIFIC_GET_MODE VID_APPLE
     PID_APPLE_T2_COPROCESSOR PID_APPLE_SILICON_RESTORE_LOW
     PID_APPLE_SILICON_RESTORE_MAX PID_RANGE_LOW PID_RANGE_MAX).

Lemma usb_device_add_selfs dev st :
  unique_selfs (device_list st) -> selfs_allocated st ->
  unique_selfs (device_list (snd (device_add dev st)))
  /\ selfs_allocated (snd (device_add dev st)).
Proof.
  intros Hu Ha.
  pose proof (find_device_cases st (usb_get_bus_number usb dev)
                (usb_get_device_address usb dev)) as Hf.
  destruct (find_device st (usb_get_bus_number usb dev)
              (usb_get_device_address usb dev)) as [[slot d0]|] eqn:E.
  - rewrite (usb_device_add_known usb APPLE_VEND_SPECIFIC_GET_MODE VID_APPLE PID_APPLE_T2_COPROCESSOR PID_APPLE_SILICON_RESTORE_LOW PID_APPLE_SILICON_RESTORE_MAX PID_RANGE_LOW PID_RANGE_MAX dev st slot d0 E).
    cbn [snd store_device device_list]. destruct Hf as (Hslot & _).
    split.
    + apply (unique_selfs_insert _ _ d0); auto.
    + intros s d Hs. cbn [store_device device_list libusb] in *.
      unfold collection in *.
      apply list_lookup_insert_Some in Hs.
      destruct Hs as [(-> & [= <-] & _)|(N & Hs)].
      * apply (Ha _ _ Hslot).
      * apply (Ha _ _ Hs).
  - destruct (usb_device_add_unknown usb APPLE_VEND_SPECIFIC_GET_MODE VID_APPLE PID_APPLE_T2_COPROCESSOR PID_APPLE_SILICON_RESTORE_LOW PID_APPLE_SILICON_RESTORE_MAX PID_RANGE_LOW PID_RANGE_MAX dev st E)
      as [(_ & Hl & _ & _ & Hp & _)
         |(x & d' & res & _ & _ & _ & Hl & _ & _ & _ & Hself & Hp & _)].
    + split; [rewrite Hl; exact Hu|].
      intros s d Hs. rewrite Hl in Hs. rewrite Hp. apply (Ha _ _ Hs).
    + split.
      * rewrite Hl. apply unique_selfs_add; [exact Hu|].
        intros s y Hs. specialize (Ha _ _ Hs). lia.
      * intros s d Hs. rewrite Hl in Hs.
        destruct (collection_add_lookup (device_list st) d')
          as (slot & Hslot & _ & Hother).
        destruct (Nat.eq_dec s slot) as [->|N].
        -- rewrite Hslot in Hs. injection Hs as <-. lia.
        -- rewrite Hother in Hs by exact N. specialize (Ha _ _ Hs). lia.
Qed.

(** X6.  [usb_device_add] keeps the table well formed: no two records
    at one location, no two records at one address, every record at an
    address the allocator has handed out; and it never lowers the
    allocator's mark. *)
Theorem usb_device_add_keeps_invariants dev st :
  unique_locations (device_list st) ->
  unique_selfs (device_list st) ->
  selfs_allocated st ->
  let st' := snd (device_add dev st) in
  unique_locations (device_list st')
  /\ unique_selfs (device_list st')
  /\ selfs_allocated st'
  /\ (last_ptr (libusb st) <= last_ptr (libusb st'))%nat.
Proof.
  intros Hul Hus Hal st'. subst st'.
  split; [apply usb_device_add_unique_locations, Hul|].
  destruct (usb_device_add_selfs dev st Hus Hal) as [H1 H2].
  split; [exact H1|]. split; [exact H2|].
  destruct (find_device st (usb_get_bus_number usb dev)
              (usb_get_device_address usb dev)) as [[slot d0]|] eqn:E.
  - rewrite (usb_device_add_known usb APPLE_VEND_SPECIFIC_GET_MODE VID_APPLE
               PID_APPLE_T2_COPROCESSOR PID_APPLE_SILICON_RESTORE_LOW
               PID_APPLE_SILICON_RESTORE_MAX PID_RANGE_LOW PID_RANGE_MAX
               dev st slot d0 E). cbn. lia.
  - destruct (usb_device_add_unknown usb APPLE_VEND_SPECIFIC_GET_MODE VID_APPLE
                PID_APPLE_T2_COPROCESSOR PID_APPLE_SILICON_RESTORE_LOW
                PID_APPLE_SILICON_RESTORE_MAX PID_RANGE_LOW PID_RANGE_MAX
                dev st E)
      as [(_ & _ & _ & _ & Hp & _)
         |(x & d' & res & _ & _ & _ & _ & _ & _ & _ & _ & Hp & _)]; lia.
Qed.

(** X7.  The mark phase of [usb_discover]: when the device list is
    fetched, the table [usb_discover] hands to [reap_dead_devices],
    whatever that does with it, has every record of a table without
    two records at one location in its slot, unchanged but for [alive],
    which is 1 if the list holds a device at the record's location and
    0 if not. *)
Theorem usb_discover_marks (reap : usb_state -> usb_state) g s d :
  let st := core_state g in
  let fetch := usb_get_device_list usb (trace (libusb st)) in
  let devs := take (Z.to_nat (fst fetch)) (snd fetch) in
  fetch_fails usb g = false ->
  unique_locations (device_list st) ->
  device_list st !! s = Some (Some d) ->
  exists marked,
    core_state
      (snd (usb_discover usb APPLE_VEND_SPECIFIC_GET_MODE VID_APPLE
              PID_APPLE_T2_COPROCESSOR PID_APPLE_SILICON_RESTORE_LOW
              PID_APPLE_SILICON_RESTORE_MAX PID_RANGE_LOW PID_RANGE_MAX
              reap g))
    = with_libusb (reap marked)
        (log_call (Call_free_device_list (snd fetch)) (libusb (reap marked)))
    /\ device_list marked !! s
       = Some (Some (set_alive d (if reported usb devs d then 1 else 0))).
Proof.
  intros st fetch devs Hf Hul Hs. subst st fetch devs.
  unfold fetch_fails in Hf.
  unfold usb_discover, libusb_get_device_list.
  destruct (usb_get_device_list usb (trace (libusb (core_state g))))
    as [cnt devs].
  cbn [fst snd] in *. rewrite Hf.
  set (w := log_call _ (libusb (core_state g))).
  pose proof (add_devices_marks usb APPLE_VEND_SPECIFIC_GET_MODE
                VID_APPLE PID_APPLE_T2_COPROCESSOR
                PID_APPLE_SILICON_RESTORE_LOW PID_APPLE_SILICON_RESTORE_MAX
                PID_RANGE_LOW PID_RANGE_MAX (take (Z.to_nat cnt) devs)
                (core_state g) w s d Hul Hs) as Hscan.
  destruct (scan (take (Z.to_nat cnt) devs) _ 0) as [valid_count st2].
  cbn [fst snd core_state] in *.
  exists st2. split; [reflexivity|exact Hscan].
Qed.

End Sweep.

(** ** Writes and their completions *)

Lemma collection_elements_add_In (col : list (option ptr)) x y :
  In y (collection_elements (collection_add col x))
  <-> y = x \/ In y (collection_elements col).
Proof.
  induction col as [|[z|] rest IH]; cbn.
  - intuition congruence.
  - rewrite IH. intuition congruence.
  - intuition congruence.
Qed.

Lemma collection_remove_add (col : list (option ptr)) x :
  ~ In x (collection_elements col) ->
  collection_remove Nat.eqb (collection_add col x) x = col
  \/ collection_remove Nat.eqb (collection_add col x) x = col ++ [None].
Proof.
  induction col as [|[z|] rest IH]; cbn; intros Hn.
  - rewrite Nat.eqb_refl. right. reflexivity.
  - destruct (Nat.eqb_spec z x) as [->|Hne]; [exfalso; apply Hn; left; reflexivity|].
    destruct IH as [->| ->]; [intros H; apply Hn; right; exact H|left|right];
      reflexivity.
  - rewrite Nat.eqb_refl. left. reflexivity.
Qed.

Lemma collection_remove_snoc_None (col : list (option ptr)) x :
  collection_remove Nat.eqb (col ++ [None]) x
  = collection_remove Nat.eqb col x ++ [None].
Proof.
  induction col as [|[z|] rest IH]; cbn; [reflexivity| |].
  - destruct (Nat.eqb z x); [reflexivity|]. rewrite IH. reflexivity.
  - rewrite IH. reflexivity.
Qed.

Lemma collection_elements_snoc_None (col : list (option ptr)) :
  collection_elements (col ++ [None]) = collection_elements col.
Proof.
  unfold collection_elements. rewrite omap_app. cbn. apply app_nil_r.
Qed.

Lemma collection_remove_comm (col : list (option ptr)) x y :
  x <> y ->
  collection_remove Nat.eqb (collection_remove Nat.eqb col x) y
  = collection_remove Nat.eqb (collection_remove Nat.eqb col y) x.
Proof.
  intros Hne. induction col as [|[z|] rest IH]; cbn; [reflexivity| |].
  - destruct (Nat.eqb z x) eqn:Ex, (Nat.eqb z y) eqn:Ey; cbn;
      rewrite ?Ex, ?Ey; try reflexivity.
    + apply Nat.eqb_eq in Ex, Ey. congruence.
    + rewrite IH. reflexivity.
  - rewrite IH. reflexivity.
Qed.

Lemma collection_elements_remove_add (col : list (option ptr)) x :
  ~ In x (collection_elements col) ->
  collection_elements (collection_remove Nat.eqb (collection_add col x) x)
  = collection_elements col.
Proof.
  intros Hn. destruct (collection_remove_add col x Hn) as [->| ->];
    [reflexivity|apply collection_elements_snoc_None].
Qed.

Lemma collection_elements_remove_add2 (col : list (option ptr)) x y :
  ~ In x (collection_elements col) -> ~ In y (collection_elements col) ->
  x <> y ->
  collection_elements
    (collection_remove Nat.eqb
       (collection_remove Nat.eqb
          (collection_add (collection_add col x) y) y) x)
  = collection_elements col.
Proof.
  intros Hx Hy Hne.
  assert (Hy' : ~ In y (collection_elements (collection_add col x))).
  { rewrite collection_elements_add_In. intros [->|H]; auto. }
  destruct (collection_remove_add _ y Hy') as [->| ->].
  - apply collection_elements_remove_add, Hx.
  - rewrite collection_remove_snoc_None, collection_elements_snoc_None.
    apply collection_elements_remove_add, Hx.
Qed.

Lemma tx_callback_unfold st t dev w :
  tx_callback {| bulk_xfer := t; bulk_status := st; bulk_buffer := [];
                 actual_length := xfer_length t |} dev w
  = (set_tx_xfers (if status_completed st then dev else set_alive dev 0)
       (collection_remove Nat.eqb (tx_xfers dev) (xfer_ptr t)),
     libusb_free_transfer (xfer_ptr t) w).
Proof.
  unfold tx_callback. cbn [bulk_xfer bulk_status].
  destruct (status_completed st); reflexivity.
Qed.

Section WriteCompletions.

Variable usb : libusb_oracle.

(** X8.  The transfers of a successful [usb_send] leave [tx_xfers]
    again when they complete: after [tx_callback] has run for each of
    them, in whichever order, the pending write transfers are those from
    before the write, each transfer has been freed once, nothing was
    submitted, and the device is dead unless the status was
    LIBUSB_TRANSFER_COMPLETED. *)
Theorem usb_send_completions_restore_tx_xfers dev buf len w st ts w2 :
  (forall p, In p (collection_elements (tx_xfers dev)) ->
             (p <= last_ptr w)%nat) ->
  fst (fst (usb_send usb dev buf len w)) = 0 ->
  Permutation ts (usb_send_submitted usb dev buf len w) ->
  let dev1 := snd (fst (usb_send usb dev buf len w)) in
  let r := tx_callbacks st ts dev1 w2 in
  collection_elements (tx_xfers (fst r)) = collection_elements (tx_xfers dev)
  /\ freed (new_calls w2 (snd r)) = map xfer_ptr ts
  /\ submitted (new_calls w2 (snd r)) = []
  /\ alive (fst r) = (if status_completed st then alive dev else 0).
Proof.
  intros Hfresh Hres Hperm dev1 r. subst dev1 r.
  unfold usb_send_submitted in Hperm.
  pose proof (usb_send_cases usb dev buf len w) as Hc. cbn zeta in Hc.
  assert (Hp : xfer_ptr (usb_send_payload dev buf len w) = S (last_ptr w))
    by reflexivity.
  assert (Hz : xfer_ptr (usb_send_zlp usb dev buf len w) = S (S (last_ptr w)))
    by reflexivity.
  assert (Hnp : ~ In (S (last_ptr w)) (collection_elements (tx_xfers dev))).
  { intros H. apply Hfresh in H. lia. }
  assert (Hnz : ~ In (S (S (last_ptr w))) (collection_elements (tx_xfers dev))).
  { intros H. apply Hfresh in H. lia. }
  destruct (usb_send usb dev buf len w) as [[res dev'] w'].
  cbn [fst snd] in *. subst res.
  destruct (usb_send_payload_rc usb dev buf len w <? 0) eqn:E1.
  { destruct Hc as (Hr & _). apply Z.ltb_lt in E1. lia. }
  destruct (Z.rem len (wMaxPacketSize dev) =? 0).
  - destruct (usb_send_zlp_rc usb dev buf len w <? 0) eqn:E2.
    { destruct Hc as (Hr & _). apply Z.ltb_lt in E2. lia. }
    destruct Hc as (_ & -> & Hcalls). rewrite Hcalls in Hperm.
    cbn [submitted omap] in Hperm. cbn in Hperm.
    apply Permutation_sym, Permutation_length_2_inv in Hperm.
    destruct Hperm as [-> | ->]; cbn [tx_callbacks];
      rewrite !tx_callback_unfold; cbn [fst snd];
      rewrite ?Hp, ?Hz.
    + repeat split.
      * destruct (status_completed st); cbn [tx_xfers set_tx_xfers set_alive];
          rewrite (collection_remove_comm _ (S (last_ptr w)) (S (S (last_ptr w))))
            by (clear; lia);
          apply collection_elements_remove_add2; auto.
      * erewrite new_calls_app; [|cbn; rewrite <- app_assoc; reflexivity].
        reflexivity.
      * erewrite new_calls_app; [|cbn; rewrite <- app_assoc; reflexivity].
        reflexivity.
      * destruct (status_completed st); reflexivity.
    + repeat split.
      * destruct (status_completed st); cbn [tx_xfers set_tx_xfers set_alive];
          apply collection_elements_remove_add2; auto.
      * erewrite new_calls_app; [|cbn; rewrite <- app_assoc; reflexivity].
        reflexivity.
      * erewrite new_calls_app; [|cbn; rewrite <- app_assoc; reflexivity].
        reflexivity.
      * destruct (status_completed st); reflexivity.
  - destruct Hc as (_ & -> & Hcalls). rewrite Hcalls in Hperm.
    cbn in Hperm. apply Permutation_sym, Permutation_length_1_inv in Hperm.
    subst ts. cbn [tx_callbacks]. rewrite tx_callback_unfold. cbn [fst snd].
    rewrite Hp. repeat split.
    + destruct (status_completed st); cbn [tx_xfers set_tx_xfers set_alive];
        apply collection_elements_remove_add; auto.
    + erewrite new_calls_app; [|cbn; reflexivity]. reflexivity.
    + erewrite new_calls_app; [|cbn; reflexivity]. reflexivity.
    + destruct (status_completed st); reflexivity.
Qed.

End WriteCompletions.

(** ** The read loops *)

Lemma collection_elements_add_perm (col : list (option ptr)) x :
  Permutation (collection_elements (collection_add col x))
    (x :: collection_elements col).
Proof.
  induction col as [|[z|] rest IH]; cbn.
  - reflexivity.
  - rewrite IH. apply perm_swap.
  - reflexivity.
Qed.

Section ReadLoops.

Variable usb : libusb_oracle.
Variable USB_MRU : Z.

Local Abbreviation rx_loop := (start_rx_loop usb USB_MRU).
Local Abbreviation rx_loops := (start_rx_loops usb USB_MRU).

Lemma start_rx_loop_cases dev w :
  exists t rc,
    rx_transfer_of USB_MRU dev t
    /\ xfer_ptr t = S (last_ptr w)
    /\ rc = usb_submit_transfer usb
              (trace w ++ [Call_alloc_transfer (xfer_ptr t)]) t
    /\ fst (fst (rx_loop dev w)) = rc
    /\ (rc = 0
        /\ snd (fst (rx_loop dev w))
           = set_rx_xfers dev (collection_add (rx_xfers dev) (xfer_ptr t))
        /\ trace (snd (rx_loop dev w))
           = trace w ++ [Call_alloc_transfer (xfer_ptr t);
                         Call_submit_transfer t rc]
        \/ rc <> 0
        /\ snd (fst (rx_loop dev w)) = dev
        /\ trace (snd (rx_loop dev w))
           = trace w ++ [Call_alloc_transfer (xfer_ptr t);
                         Call_submit_transfer t rc;
                         Call_free_transfer (xfer_ptr t)]).
Proof.
  unfold start_rx_loop, libusb_alloc_transfer, malloc, libusb_submit_transfer.
  cbn [fst snd trace last_ptr log_call].
  set (t := libusb_fill_bulk_transfer _ _ _ _ _ _ _ _).
  set (rc := usb_submit_transfer usb _ t).
  exists t, rc. split; [repeat split|]. split; [reflexivity|].
  split; [reflexivity|].
  destruct (Z.eqb_spec rc 0) as [E|E]; cbn [negb fst snd].
  - split; [symmetry; exact E|]. left. split; [exact E|].
    split; [reflexivity|].
    cbn [trace log_call]. rewrite <- app_assoc. reflexivity.
  - split; [reflexivity|]. right. split; [exact E|]. split; [reflexivity|].
    cbn [trace log_call libusb_free_transfer].
    rewrite <- !app_assoc. reflexivity.
Qed.

Lemma rx_step_accepted t (calls : list libusb_call) :
  let cs := [Call_alloc_transfer (xfer_ptr t); Call_submit_transfer t 0]
            ++ calls in
  accepted cs = xfer_ptr t :: accepted calls
  /\ refused cs = refused calls
  /\ freed cs = freed calls
  /\ submitted cs = t :: submitted calls.
Proof. repeat split; reflexivity. Qed.

Lemma rx_step_refused t rc (calls : list libusb_call) :
  rc <> 0 ->
  let cs := [Call_alloc_transfer (xfer_ptr t); Call_submit_transfer t rc;
             Call_free_transfer (xfer_ptr t)] ++ calls in
  accepted cs = accepted calls
  /\ refused cs = xfer_ptr t :: refused calls
  /\ freed cs = xfer_ptr t :: freed calls
  /\ submitted cs = t :: submitted calls.
Proof.
  intros Hne cs. subst cs. apply Z.eqb_neq in Hne.
  unfold accepted, refused, freed, submitted. simpl.
  rewrite Hne. repeat split; reflexivity.
Qed.

Lemma start_rx_loops_trace n dev w :
  exists calls,
    let r := rx_loops n dev w in
    let left := fst (fst r) in
    let dev' := snd (fst r) in
    trace (snd r) = trace w ++ calls
    /\ (left <= n)%nat
    /\ dev' = set_rx_xfers dev (rx_xfers dev')
    /\ Permutation (collection_elements (rx_xfers dev'))
         (accepted calls ++ collection_elements (rx_xfers dev))
    /\ freed calls = refused calls
    /\ Forall (rx_transfer_of USB_MRU dev) (submitted calls)
    /\ length (submitted calls)
       = ((n - left) + (if Nat.eqb left 0 then 0 else 1))%nat
    /\ ((forall tr t, usb_submit_transfer usb tr t <= 0) ->
        length (accepted calls) = (n - left)%nat
        /\ length (refused calls) = (if Nat.eqb left 0 then 0 else 1)%nat).
Proof.
  revert dev w. induction n as [|n IH]; intros dev w.
  - exists []. cbn. rewrite app_nil_r.
    repeat split; auto. destruct dev; reflexivity.
  - cbn [start_rx_loops].
    destruct (start_rx_loop_cases dev w)
      as (t & rc & Ht & Hptr & Hrcdef & Hrc & Hcase).
    destruct (rx_loop dev w) as [[res dev1] w1]. cbn [fst snd] in *.
    subst res.
    destruct Hcase as [(E0 & -> & Htr)|(Hne & -> & Htr)].
    + rewrite E0 in *. clear E0. change (0 <? 0) with false. cbv iota.
      destruct (IH (set_rx_xfers dev (collection_add (rx_xfers dev) (xfer_ptr t)))
                  w1) as (calls & IHc).
      cbn zeta in IHc.
      destruct (rx_loops n _ w1) as [[left dev'] w']. cbn [fst snd] in *.
      destruct IHc as (Htr' & Hle & Hframe & Hperm & Hfreed & Hall & Hlen & Hc).
      exists ([Call_alloc_transfer (xfer_ptr t); Call_submit_transfer t 0]
              ++ calls).
      destruct (rx_step_accepted t calls) as (Ea & Er & Ef & Es).
      cbn zeta in Ea, Er, Ef, Es. cbn zeta. rewrite Ea, Er, Ef, Es.
      split; [rewrite Htr', Htr, <- app_assoc; reflexivity|].
      split; [lia|]. split.
      { rewrite Hframe. reflexivity. }
      split.
      { rewrite Hperm. cbn [rx_xfers set_rx_xfers].
        rewrite collection_elements_add_perm.
        symmetry. apply Permutation_middle. }
      split; [exact Hfreed|]. split.
      { constructor; [exact Ht|exact Hall]. }
      split.
      { cbn [length]. rewrite Hlen. destruct left; cbn [Nat.eqb]; lia. }
      intros Hcon. destruct (Hc Hcon) as [Ha Hr]. split.
      { cbn [length]. rewrite Ha. lia. }
      { exact Hr. }
    + destruct (rc <? 0) eqn:Elt.
      * exists ([Call_alloc_transfer (xfer_ptr t); Call_submit_transfer t rc;
                 Call_free_transfer (xfer_ptr t)] ++ []).
        destruct (rx_step_refused t rc [] Hne) as (Ea & Er & Ef & Es).
        cbn zeta in Ea, Er, Ef, Es. cbn [fst snd]. cbn zeta.
        rewrite Ea, Er, Ef, Es.
        split; [exact Htr|]. split; [lia|].
        split; [destruct dev; reflexivity|].
        split; [reflexivity|]. split; [reflexivity|].
        split; [constructor; [exact Ht|constructor]|].
        split; [cbn; lia|].
        intros _. cbn. split; lia.
      * destruct (IH dev w1) as (calls & IHc). cbn zeta in IHc.
        destruct (rx_loops n dev w1) as [[left dev'] w']. cbn [fst snd] in *.
        destruct IHc as (Htr' & Hle & Hframe & Hperm & Hfreed & Hall & Hlen & Hc).
        exists ([Call_alloc_transfer (xfer_ptr t); Call_submit_transfer t rc;
                 Call_free_transfer (xfer_ptr t)] ++ calls).
        destruct (rx_step_refused t rc calls Hne) as (Ea & Er & Ef & Es).
        cbn zeta in Ea, Er, Ef, Es. cbn zeta. rewrite Ea, Er, Ef, Es.
        split; [rewrite Htr', Htr, <- app_assoc; reflexivity|].
        split; [lia|]. split; [exact Hframe|].
        split; [exact Hperm|].
        split; [f_equal; exact Hfreed|].
        split; [constructor; [exact Ht|exact Hall]|].
        split; [cbn [length]; rewrite Hlen; destruct left; cbn [Nat.eqb]; lia|].
        intros Hcon. exfalso.
        specialize (Hcon (trace w ++ [Call_alloc_transfer (xfer_ptr t)]) t).
        apply Z.ltb_ge in Elt. lia.
Qed.

(** X9.  The loop of [get_serial_callback] that starts the reads
    changes only [rx_xfers], adds to it exactly the transfers libusb
    accepted, frees exactly those it did not, and submits only reads of
    USB_MRU bytes from the IN endpoint with [rx_callback]: one for each
    round it completes, and one more if it stops early. *)
Theorem start_rx_loops_spec n dev w :
  let r := rx_loops n dev w in
  let left := fst (fst r) in
  let dev' := snd (fst r) in
  let calls := new_calls w (snd r) in
  (left <= n)%nat
  /\ dev' = set_rx_xfers dev (rx_xfers dev')
  /\ Permutation (collection_elements (rx_xfers dev'))
       (accepted calls ++ collection_elements (rx_xfers dev))
  /\ freed calls = refused calls
  /\ Forall (rx_transfer_of USB_MRU dev) (submitted calls)
  /\ length (submitted calls)
     = ((n - left) + (if Nat.eqb left 0 then 0 else 1))%nat.
Proof.
  destruct (start_rx_loops_trace n dev w) as (calls & H). cbn zeta in *.
  destruct H as (Htr & Hle & Hframe & Hperm & Hfreed & Hall & Hlen & _).
  rewrite (new_calls_app _ _ calls Htr). auto 10.
Qed.

Variable device_add :
  usb_device -> libusb_world -> Z * usb_device * libusb_world.

Local Abbreviation serial_cb := (get_serial_callback usb USB_MRU device_add).

(** X10.  [get_serial_callback], after a completed request and a
    successful [device_add], with libusb answering a submission by 0 or
    an error: the device is ready exactly when at least one of up to
    three reads was accepted, it is given up exactly when none was, and
    the read that was refused is freed. *)
Theorem get_serial_callback_rx_loops transfer usbdev w :
  (forall tr t, usb_submit_transfer usb tr t <= 0) ->
  status_completed (status transfer) = true ->
  let a := device_add
             (get_serial_callback_serial (status transfer)
                (control_data transfer) usbdev)
             (libusb_free_transfer (xfer_ptr (completed_xfer transfer)) w) in
  0 <= fst (fst a) ->
  let r := serial_cb transfer usbdev w in
  let calls := new_calls (snd a) (snd r) in
  let started :=
    collection_count (rx_xfers (snd (fst r)))
    - collection_count (rx_xfers (snd (fst a))) in
  started = Z.of_nat (length (accepted calls))
  /\ 0 <= started <= 3
  /\ (fst (fst r) = Serial_ready <-> 1 <= started)
  /\ (fst (fst r) = Serial_no_rx_loop <-> started = 0)
  /\ freed calls = refused calls
  /\ (length (refused calls) <= 1)%nat.
Proof.
  intros Hcon Hst a Hadd r calls started. subst r calls started.
  unfold get_serial_callback. rewrite Hst. cbn [negb]. fold a.
  destruct a as [[res dev1] w1]. cbn [fst snd] in *.
  assert (Hres : (res <? 0) = false) by (apply Z.ltb_ge; exact Hadd).
  rewrite Hres.
  destruct (start_rx_loops_trace NUM_RX_LOOPS dev1 w1) as (calls & H).
  cbn zeta in H.
  destruct (rx_loops NUM_RX_LOOPS dev1 w1) as [[left dev'] w'].
  cbn [fst snd] in *.
  destruct H as (Htr & Hle & Hframe & Hperm & Hfreed & Hall & Hlen & Hc).
  destruct (Hc Hcon) as [Ha Hr].
  assert (Hcount : collection_count (rx_xfers dev')
                   - collection_count (rx_xfers dev1)
                   = Z.of_nat (length (accepted calls))).
  { unfold collection_count. rewrite (Permutation_length Hperm).
    rewrite length_app. lia. }
  unfold NUM_RX_LOOPS in *.
  destruct (Nat.eqb_spec left 3) as [E|E]; cbn [fst snd];
    rewrite (new_calls_app _ _ calls Htr), Hcount, Ha.
  - subst left. cbn in Hr.
    repeat split; try discriminate; try lia; try (intros; reflexivity).
    exact Hfreed.
  - repeat split; try discriminate; try lia; try (intros; reflexivity).
    + exact Hfreed.
    + rewrite Hr. destruct left; cbn; lia.
Qed.

End ReadLoops.

(** ** The language-id callback *)

Lemma lor_shiftl_add a b n :
  0 <= n -> 0 <= a < 2 ^ n -> 0 <= b ->
  Z.lor a (Z.shiftl b n) = a + b * 2 ^ n.
Proof.
  intros Hn Ha Hb.
  rewrite <- Z.shiftl_mul_pow2 by exact Hn.
  rewrite <- (Z.add_lor_land a (Z.shiftl b n)).
  assert (Hl : Z.land a (Z.shiftl b n) = 0).
  { apply Z.bits_inj'. intros m Hm. rewrite Z.land_spec, Z.bits_0.
    destruct (Z.lt_ge_cases m n) as [Hlt|Hge].
    - rewrite Z.shiftl_spec_low by exact Hlt. apply andb_false_r.
    - destruct (Z.eq_dec a 0) as [->|Hnz];
        [rewrite Z.bits_0; reflexivity|].
      rewrite (Z.bits_above_log2 a m); [reflexivity|lia|].
      apply Z.lt_le_trans with n; [|exact Hge].
      apply Z.log2_lt_pow2; lia. }
  rewrite Hl. lia.
Qed.

Lemma byte_val_range b : 0 <= byte_val b < 256.
Proof. destruct b; cbn; lia. Qed.

Lemma langid_of_value data :
  langid_of data
  = byte_val (data_at data 2) + 256 * byte_val (data_at data 3).
Proof.
  unfold langid_of, to_uint16.
  pose proof (byte_val_range (data_at data 2)) as H2.
  pose proof (byte_val_range (data_at data 3)) as H3.
  rewrite (lor_shiftl_add _ _ 8) by lia.
  rewrite Z.mod_small by lia. lia.
Qed.

Section LangId.

Variable usb : libusb_oracle.

(** X11.  After a completed request [get_langid_callback] re-submits
    the same transfer, with the same buffer, as the request for the
    serial string: descriptor type 3 and the index of the serial number
    in [wValue], the language id from bytes 2 and 3 of the answer in
    [wIndex], 1032 bytes, [get_serial_callback], the buffer owned by the
    transfer; it frees the transfer exactly when libusb refuses it. *)
Theorem get_langid_callback_request transfer usbdev w :
  status_completed (status transfer) = true ->
  is_uint8 (iSerialNumber (devdesc usbdev)) ->
  let calls := new_calls w (get_langid_callback usb transfer usbdev w) in
  exists t rc,
    calls = Call_submit_transfer t rc
            :: (if rc <? 0 then [Call_free_transfer (xfer_ptr t)] else [])
    /\ xfer_ptr t = xfer_ptr (completed_xfer transfer)
    /\ buffer t = buffer (completed_xfer transfer)
    /\ dev_handle t = handle usbdev
    /\ callback t = CB_get_serial_callback
    /\ user_data t = UD_device (usbdev_self usbdev)
    /\ timeout t = 1000
    /\ Z.testbit (flags t) 1 = true
    /\ setup t
       = Some {| bmRequestType := 128; bRequest := 6;
                 wValue := 768 + iSerialNumber (devdesc usbdev);
                 wIndex := byte_val (data_at (control_data transfer) 2)
                           + 256 * byte_val (data_at (control_data transfer) 3);
                 wLength := 1032 |}.
Proof.
  intros Hst Hser calls. subst calls. unfold get_langid_callback.
  rewrite Hst. cbn [negb]. unfold libusb_submit_transfer.
  set (t := serial_request transfer usbdev).
  set (rc := usb_submit_transfer usb (trace w) t).
  exists t, rc. split.
  { destruct (rc <? 0); apply new_calls_app; cbn [trace log_call libusb_free_transfer];
      rewrite <- ?app_assoc; reflexivity. }
  repeat split.
  - subst t. unfold serial_request, libusb_fill_control_transfer. cbn [flags].
    rewrite Z.lor_spec. apply orb_true_r.
  - subst t. unfold serial_request, libusb_fill_control_transfer,
      libusb_fill_control_setup. cbn [setup]. f_equal.
    pose proof (langid_of_value (control_data transfer)) as Hl.
    pose proof (byte_val_range (data_at (control_data transfer) 2)) as H2.
    pose proof (byte_val_range (data_at (control_data transfer) 3)) as H3.
    unfold is_uint8 in Hser.
    assert (Hv : Z.lor (Z.shiftl LIBUSB_DT_STRING 8)
                   (iSerialNumber (devdesc usbdev))
                 = 768 + iSerialNumber (devdesc usbdev)).
    { rewrite Z.lor_comm. change LIBUSB_DT_STRING with 3.
      rewrite (lor_shiftl_add _ 3 8) by lia. lia. }
    rewrite Hv, Hl. unfold to_uint16, to_uint8.
    f_equal; try reflexivity;
      repeat rewrite (Z.mod_small (_ + _) _) by lia; reflexivity.
Qed.

End LangId.

(** ** Timeouts and polling *)

Lemma to_int32_small z : - 2 ^ 31 <= z < 2 ^ 31 -> to_int32 z = z.
Proof. intros H. unfold to_int32. rewrite Z.mod_small; lia. Qed.

Lemma to_int32_range z : - 2 ^ 31 <= to_int32 z < 2 ^ 31.
Proof.
  unfold to_int32.
  pose proof (Z.mod_pos_bound (z + 2 ^ 31) (2 ^ 32) ltac:(lia)). lia.
Qed.

Lemma quot_1000_near x : x - 1000 < 1000 * Z.quot x 1000 < x + 1000.
Proof.
  pose proof (Z.quot_rem' x 1000) as E.
  pose proof (Z.rem_bound_abs x 1000 ltac:(lia)). lia.
Qed.

Lemma dev_poll_remain_ms_range dp next now :
  0 <= dev_poll_remain_ms dp next now < 2 ^ 31.
Proof.
  unfold dev_poll_remain_ms. destruct (dp =? 0); [lia|].
  match goal with |- context [to_int32 (to_int32 ?a + ?b)] =>
    pose proof (to_int32_range (to_int32 a + b)) as H end.
  destruct (_ <? 0) eqn:E; [lia|]. apply Z.ltb_ge in E. lia.
Qed.

(** X12.  [usb_get_timeout] is the time to the next poll, or the
    timeout libusb asks for when that is pending and sooner; it is never
    negative for a timeout of libusb that fits an [int]. *)
Theorem usb_get_timeout_min dp next now res tv :
  0 <= tv_sec tv -> 0 <= tv_usec tv ->
  tv_sec tv * 1000 + Z.quot (tv_usec tv) 1000 < 2 ^ 31 ->
  let pollrem := dev_poll_remain_ms dp next now in
  0 <= pollrem
  /\ usb_get_timeout dp next now (res, tv)
     = (if 0 <? res
        then Z.min (tv_sec tv * 1000 + Z.quot (tv_usec tv) 1000) pollrem
        else pollrem).
Proof.
  intros Hs Hu Hb pollrem.
  pose proof (dev_poll_remain_ms_range dp next now) as Hr. fold pollrem in Hr.
  split; [lia|]. unfold usb_get_timeout. fold pollrem.
  destruct (Z.eqb_spec res 0) as [->|Hne]; [reflexivity|].
  destruct (Z.ltb_spec res 0) as [Hlt|Hge].
  - destruct (Z.ltb_spec 0 res); [lia|reflexivity].
  - destruct (Z.ltb_spec 0 res); [|lia].
    assert (Hq : 0 <= Z.quot (tv_usec tv) 1000) by (apply Z.quot_pos; lia).
    rewrite (to_int32_small (tv_sec tv * 1000)) by lia.
    rewrite to_int32_small by lia.
    destruct (Z.gtb_spec (tv_sec tv * 1000 + Z.quot (tv_usec tv) 1000) pollrem);
      lia.
Qed.

Section Polling.

Variable usb : libusb_oracle.

(** X13.  The poll [usb_discover] schedules falls due one second
    later.  For normalised clock readings (microseconds from 0 to
    999999), with polling enabled, a reading [now] not before the tick
    the schedule was made at, and at most 2147483 seconds between the
    seconds of the two readings (later the [int] holding the
    milliseconds wraps): the remaining time is between 0 and 1000 ms, it
    is 0 once a second has elapsed, and before that it is within a
    millisecond of the time left. *)
Theorem dev_poll_remain_ms_after_schedule dp w now :
  dp <> 0 ->
  normal_timeval (get_tick_count usb (trace w)) ->
  normal_timeval now ->
  let elapsed := usec_between (get_tick_count usb (trace w)) now in
  0 <= elapsed ->
  tv_sec now - tv_sec (get_tick_count usb (trace w)) <= 2147483 ->
  let rem := dev_poll_remain_ms dp (schedule_next_poll usb w) now in
  0 <= rem <= 1000
  /\ (1000000 <= elapsed -> rem = 0)
  /\ (elapsed <= 999000 ->
      1000000 - elapsed - 1000 < 1000 * rem < 1000000 - elapsed + 1000).
Proof.
  intros Hdp. unfold normal_timeval, usec_between, schedule_next_poll.
  set (tick := get_tick_count usb (trace w)).
  intros Ht Hn He Hsec.
  unfold dev_poll_remain_ms. apply Z.eqb_neq in Hdp. rewrite Hdp.
  cbn [tv_sec tv_usec]. unfold DEVICE_POLL_TIME.
  assert (Hq : Z.quot (tv_usec tick + 1000 * 1000) 1000000 = 1).
  { symmetry. apply Z.quot_unique with (r := tv_usec tick); lia. }
  assert (Hr : Z.rem (tv_usec tick + 1000 * 1000) 1000000 = tv_usec tick).
  { symmetry. apply Z.rem_unique with (q := 1); lia. }
  rewrite Hq, Hr.
  pose proof (quot_1000_near (tv_usec tick - tv_usec now)) as Hnear.
  assert (Hsec0 : 0 <= tv_sec now - tv_sec tick) by nia.
  rewrite (to_int32_small ((tv_sec tick + 1 - tv_sec now) * 1000)) by lia.
  rewrite to_int32_small by lia.
  destruct (Z.ltb_spec ((tv_sec tick + 1 - tv_sec now) * 1000
                        + Z.quot (tv_usec tick - tv_usec now) 1000) 0);
    lia.
Qed.

End Polling.

Section ProcessProperties.

Variable usb : libusb_oracle.
Variable APPLE_VEND_SPECIFIC_GET_MODE : Z.
Variables VID_APPLE PID_APPLE_T2_COPROCESSOR : Z.
Variables PID_APPLE_SILICON_RESTORE_LOW PID_APPLE_SILICON_RESTORE_MAX : Z.
Variables PID_RANGE_LOW PID_RANGE_MAX : Z.
Variable reap_dead_devices : usb_state -> usb_state.
Variable handle_events : usb_state -> Z * usb_state.

Local Abbreviation process :=
  (usb_process usb APPLE_VEND_SPECIFIC_GET_MODE VID_APPLE
     PID_APPLE_T2_COPROCESSOR PID_APPLE_SILICON_RESTORE_LOW
     PID_APPLE_SILICON_RESTORE_MAX PID_RANGE_LOW PID_RANGE_MAX
     reap_dead_devices handle_events).

Local Abbreviation discover :=
  (usb_discover usb APPLE_VEND_SPECIFIC_GET_MODE VID_APPLE
     PID_APPLE_T2_COPROCESSOR PID_APPLE_SILICON_RESTORE_LOW
     PID_APPLE_SILICON_RESTORE_MAX PID_RANGE_LOW PID_RANGE_MAX
     reap_dead_devices).

(** X14.  With polling switched off [usb_process] never scans for
    devices: it handles events, returns the error if that failed, and
    otherwise reaps the dead devices and returns 0. *)
Theorem usb_process_without_polling g :
  let pump := handle_events (core_state g) in
  process 0 g
  = if fst pump <? 0 then (fst pump, with_state g (snd pump))
    else (0, with_state g (reap_dead_devices (snd pump))).
Proof.
  cbn zeta. unfold usb_process, poll_due, dev_poll_remain_ms.
  destruct (handle_events (core_state g)) as [res st]. cbn [fst snd].
  destruct (res <? 0); reflexivity.
Qed.

(** X15.  When event handling succeeded [usb_process] returns 0 or an
    error, never the count of [usb_discover]; it returns an error only
    if the poll was due, the fetch of the device list failed, and five
    fetches had failed before; the error is libusb's and no new poll is
    scheduled. *)
Theorem usb_process_failure dp g :
  let pump := handle_events (core_state g) in
  let g1 := with_state g (reap_dead_devices (snd pump)) in
  let r := process dp g in
  0 <= fst pump ->
  fst r <= 0
  /\ (fst r < 0 ->
      poll_due usb dp g1 = true /\ dp <> 0
      /\ fetch_fails usb g1 = true
      /\ 5 <= devlist_failures g
      /\ fst r = fst (usb_get_device_list usb (trace (libusb (core_state g1))))
      /\ devlist_failures (snd r) = devlist_failures g + 1
      /\ next_dev_poll_time (snd r) = next_dev_poll_time g).
Proof.
  cbn zeta. unfold usb_process.
  destruct (handle_events (core_state g)) as [res st]. cbn [fst snd].
  intros Hres. assert (E : (res <? 0) = false) by (apply Z.ltb_ge; exact Hres).
  rewrite E. set (g1 := with_state g (reap_dead_devices st)).
  destruct (poll_due usb dp g1) eqn:Edue.
  2:{ cbn [fst]. split; [lia|]. intros H. lia. }
  assert (Hdp : dp <> 0).
  { intros ->. unfold poll_due, dev_poll_remain_ms in Edue. cbn in Edue.
    discriminate Edue. }
  destruct (fetch_fails usb g1) eqn:Ef.
  - pose proof (usb_discover_failure usb APPLE_VEND_SPECIFIC_GET_MODE VID_APPLE
                  PID_APPLE_T2_COPROCESSOR PID_APPLE_SILICON_RESTORE_LOW
                  PID_APPLE_SILICON_RESTORE_MAX PID_RANGE_LOW PID_RANGE_MAX
                  reap_dead_devices g1 Ef) as H.
    cbn zeta in H. destruct H as (Hcnt & Hfail & Hr & Hnext).
    destruct (discover g1) as [res' g2]. cbn [fst snd] in *.
    change (devlist_failures g1) with (devlist_failures g) in *.
    change (next_dev_poll_time g1) with (next_dev_poll_time g) in *.
    destruct (Z.gtb_spec (devlist_failures g + 1) 5) as [Hgt|Hle].
    + subst res'. apply Z.ltb_lt in Hcnt as Hlt. rewrite Hlt. cbn [fst snd].
      split; [lia|]. intros _. repeat split; auto; lia.
    + subst res'. cbn [Z.ltb Z.compare fst snd]. split; [lia|]. intros H. lia.
  - pose proof (usb_discover_success usb APPLE_VEND_SPECIFIC_GET_MODE VID_APPLE
                  PID_APPLE_T2_COPROCESSOR PID_APPLE_SILICON_RESTORE_LOW
                  PID_APPLE_SILICON_RESTORE_MAX PID_RANGE_LOW PID_RANGE_MAX
                  reap_dead_devices g1 Ef) as [_ H].
    destruct (discover g1) as [res' g2]. cbn [fst snd] in *.
    assert (E' : (res' <? 0) = false) by (apply Z.ltb_ge; exact H).
    rewrite E'. cbn [fst]. split; [lia|]. intros H'. lia.
Qed.

End ProcessProperties.

(** ** Shutdown and departures *)

Lemma removed_app c1 c2 : removed (c1 ++ c2) = removed c1 ++ removed c2.
Proof. unfold removed. apply omap_app. Qed.

Lemma closed_app c1 c2 : closed (c1 ++ c2) = closed c1 ++ closed c2.
Proof. unfold closed. apply omap_app. Qed.

Lemma removed_map_none {A} (f : A -> teardown_call) (l : list A) :
  (forall x, match f x with Call_device_remove _ => False | _ => True end) ->
  removed (map f l) = [].
Proof.
  intros H. induction l as [|x l IH]; [reflexivity|].
  cbn [map]. change (f x :: map f l) with ([f x] ++ map f l).
  rewrite removed_app, IH, app_nil_r. specialize (H x).
  unfold removed. cbn. destruct (f x); try reflexivity. contradiction.
Qed.

Lemma closed_map_none {A} (f : A -> teardown_call) (l : list A) :
  (forall x, match f x with Call_close _ => False | _ => True end) ->
  closed (map f l) = [].
Proof.
  intros H. induction l as [|x l IH]; [reflexivity|].
  cbn [map]. change (f x :: map f l) with ([f x] ++ map f l).
  rewrite closed_app, IH, app_nil_r. specialize (H x).
  unfold closed. cbn. destruct (f x); try reflexivity. contradiction.
Qed.

Section DisconnectLog.

Variable usb_handle_events :
  list teardown_call -> usb_device -> collection usb_device ->
  Z * usb_device * collection usb_device.

Lemma usb_disconnect_log dev col log :
  exists extra,
    snd (usb_disconnect usb_handle_events dev col log) = log ++ extra
    /\ removed extra = []
    /\ length (closed extra)
       = (if bool_decide (handle dev <> None) then 1 else 0)%nat.
Proof.
  unfold usb_disconnect. destruct (handle dev) as [h|] eqn:Eh.
  2:{ exists []. rewrite app_nil_r.
      rewrite bool_decide_eq_false_2 by (intros H; apply H; reflexivity).
      repeat split. }
  rewrite bool_decide_eq_true_2 by discriminate.
  set (log1 := (log ++ _) ++ _).
  destruct (usb_disconnect_wait_calls usb_handle_events
              (Z.to_nat max_iterations) dev col log1) as (rs & Hlog & _ & _).
  destruct (usb_disconnect_wait usb_handle_events (Z.to_nat max_iterations)
              dev col log1) as [[d0 col0] log2].
  cbn [fst snd] in *. subst log2 log1.
  destruct (xfers_pending d0); cbn [snd]; rewrite <- !app_assoc;
    eexists; (split; [reflexivity|]);
    rewrite ?removed_app, ?closed_app, ?length_app;
    rewrite ?removed_map_none, ?closed_map_none by (intros; exact I);
    split; reflexivity.
Qed.

End DisconnectLog.

Section ShutdownProperties.

(** Event handling that changes only the record being disconnected. *)
Variable usb_handle_events : list teardown_call -> usb_device -> Z * usb_device.

Local Abbreviation events := (local_events usb_handle_events).

Lemma usb_disconnect_wait_local n dev col log :
  snd (fst (usb_disconnect_wait events n dev col log)) = col.
Proof.
  revert dev log. induction n as [|n IH]; intros dev log;
    cbn [usb_disconnect_wait]; [reflexivity|].
  destruct (xfers_pending dev); [|reflexivity].
  unfold local_events at 1.
  destruct (usb_handle_events log dev) as [res dev1].
  destruct (res <? 0); [reflexivity|apply IH].
Qed.

Lemma usb_disconnect_table (col : list (option usb_device)) s d log :
  unique_selfs col -> col !! s = Some (Some d) ->
  fst (usb_disconnect events d col log)
  = if bool_decide (handle d <> None) then <[s := None]> col else col.
Proof.
  intros Hu Hs. unfold usb_disconnect.
  destruct (handle d) as [h|] eqn:Eh.
  - rewrite bool_decide_eq_true_2 by discriminate.
    match goal with
    | |- context [usb_disconnect_wait events ?n d col ?l] =>
        pose proof (usb_disconnect_wait_local n d col l) as Hcol;
        destruct (usb_disconnect_wait events n d col l) as [[d0 col0] l0]
    end.
    cbn [fst snd] in Hcol. subst col0.
    destruct (xfers_pending d0); cbn [fst];
      apply collection_remove_self; assumption.
  - rewrite bool_decide_eq_false_2 by (intros H; apply H; reflexivity).
    reflexivity.
Qed.

Lemma usb_shutdown_from_spec n i (col : list (option usb_device)) log :
  unique_selfs col -> (i + n)%nat = length col ->
  let r := usb_shutdown_from events n i col log in
  fst (fst r) = true
  /\ snd (fst r) = take i col ++ map shutdown_slot (drop i col)
  /\ exists extra,
       snd r = log ++ extra
       /\ removed extra = map usbdev_self (collection_elements (drop i col))
       /\ (length (closed extra)
           + length (collection_elements (map shutdown_slot (drop i col)))
           = length (collection_elements (drop i col)))%nat.
Proof.
  revert i col log. induction n as [|n IH]; intros i col log Hu Hlen.
  - assert (E : col !! i = None) by (apply lookup_ge_None; lia).
    cbn [usb_shutdown_from]. unfold collection in *. rewrite E.
    cbn [fst snd].
    rewrite drop_ge by lia. rewrite take_ge by lia. cbn. rewrite app_nil_r.
    split; [reflexivity|]. split; [reflexivity|].
    exists []. rewrite app_nil_r. repeat split.
  - cbn [usb_shutdown_from]. unfold collection in *.
    destruct (col !! i) as [slot|] eqn:Ei.
    2:{ apply lookup_ge_None in Ei. lia. }
    rewrite (drop_S col slot i Ei). cbn [map].
    remember (shutdown_slot slot) as v eqn:Ev.
    assert (Hstep : forall col' log',
      unique_selfs col' -> length col' = length col ->
      take i col' = take i col -> drop (S i) col' = drop (S i) col ->
      col' !! i = Some v ->
      let r := usb_shutdown_from events n (S i) col' log' in
      fst (fst r) = true
      /\ snd (fst r) = take i col ++ v :: map shutdown_slot (drop (S i) col)
      /\ exists extra,
           snd r = log' ++ extra
           /\ removed extra
              = map usbdev_self (collection_elements (drop (S i) col))
           /\ (length (closed extra)
               + length (collection_elements
                           (map shutdown_slot (drop (S i) col)))
               = length (collection_elements (drop (S i) col)))%nat).
    { intros col' log' Hu' Hl' Ht Hd Hi'.
      destruct (IH (S i) col' log' Hu' ltac:(lia))
        as (He & Hf & extra & Hs & Hr & Hc).
      cbn zeta. split; [exact He|]. split.
      - etrans; [exact Hf|].
        rewrite Hd, (take_S_r col' i _ Hi'), Ht, <- app_assoc. reflexivity.
      - exists extra. rewrite <- Hd.
        split; [exact Hs|]. split; [exact Hr|exact Hc]. }
    destruct slot as [usbdev|]; cbn [shutdown_slot] in Ev.
    + pose proof (usb_disconnect_table col i usbdev
                    (log ++ [Call_device_remove (usbdev_self usbdev)])
                    Hu Ei) as Ht.
      destruct (usb_disconnect_log events usbdev col
                  (log ++ [Call_device_remove (usbdev_self usbdev)]))
        as (ex1 & Hl1 & Hr1 & Hc1).
      destruct (usb_disconnect events usbdev col _) as [col' log'].
      cbn [fst snd] in Ht, Hl1. subst col' log'.
      assert (Hgoal : forall col',
        unique_selfs col' -> length col' = length col ->
        take i col' = take i col -> drop (S i) col' = drop (S i) col ->
        col' !! i = Some v ->
        let r := usb_shutdown_from events n (S i) col'
                   ((log ++ [Call_device_remove (usbdev_self usbdev)]) ++ ex1) in
        fst (fst r) = true
        /\ snd (fst r) = take i col ++ v :: map shutdown_slot (drop (S i) col)
        /\ exists extra,
             snd r = log ++ extra
             /\ removed extra
                = map usbdev_self
                    (collection_elements (Some usbdev :: drop (S i) col))
             /\ (length (closed extra)
                 + length (collection_elements
                             (v :: map shutdown_slot (drop (S i) col)))
                 = length (collection_elements
                             (Some usbdev :: drop (S i) col)))%nat).
      { intros col' Hu' Hl' Ht' Hd' Hi'.
        destruct (Hstep col'
                    ((log ++ [Call_device_remove (usbdev_self usbdev)]) ++ ex1)
                    Hu' Hl' Ht' Hd' Hi') as (He & Hf & extra & Hs & Hr & Hc).
        cbn zeta. split; [exact He|]. split; [exact Hf|].
        exists ([Call_device_remove (usbdev_self usbdev)] ++ ex1 ++ extra).
        split; [rewrite Hs, <- !app_assoc; reflexivity|].
        rewrite !removed_app, !closed_app, !length_app, Hr1, Hr.
        split; [reflexivity|].
        change (closed [Call_device_remove (usbdev_self usbdev)]) with
          (@nil (option libusb_device_handle)).
        rewrite Hc1. cbn [length app].
        change (collection_elements (Some usbdev :: drop (S i) col))
          with (usbdev :: collection_elements (drop (S i) col)).
        cbn [length]. rewrite <- Hc. subst v.
        destruct (bool_decide (handle usbdev <> None)).
        - change (collection_elements (None :: ?l))
            with (collection_elements l). lia.
        - change (collection_elements
                    (Some usbdev :: map shutdown_slot (drop (S i) col)))
            with (usbdev :: collection_elements
                              (map shutdown_slot (drop (S i) col))).
          cbn [length]. lia. }
      destruct (bool_decide (handle usbdev <> None)) eqn:Eh.
      * apply Hgoal.
        -- apply unique_selfs_clear, Hu.
        -- apply length_insert.
        -- apply take_insert_ge. lia.
        -- apply drop_insert_lt. lia.
        -- subst v. apply list_lookup_insert_eq. lia.
      * apply Hgoal; auto. subst v. exact Ei.
    + subst v. apply Hstep; auto.
Qed.

Lemma shutdown_slot_no_handle (col : list (option usb_device)) :
  Forall (fun d => handle d = None)
    (collection_elements (map shutdown_slot col)).
Proof.
  induction col as [|[d|] rest IH]; cbn [map shutdown_slot].
  - constructor.
  - destruct (handle d) as [h|] eqn:Eh.
    + rewrite bool_decide_eq_true_2 by discriminate. exact IH.
    + rewrite bool_decide_eq_false_2 by (intros H; apply H; reflexivity).
      change (collection_elements (Some d :: ?l))
        with (d :: collection_elements l).
      constructor; [exact Eh|exact IH].
  - exact IH.
Qed.

(** X16.  [usb_shutdown], when the events handled during a teardown
    change only the record being torn down: its loop ends after one
    round for each slot; it deregisters the hot-plug callback first and
    leaves libusb last; in between it hands every record of the table to
    [device_remove], in table order, and closes every record that has a
    handle, so that only records without a handle are left. *)
Theorem usb_shutdown_spec (col : collection usb_device) log :
  unique_selfs col ->
  let r := usb_shutdown events (length col) col log in
  fst (fst r) = true
  /\ snd (fst r) = map shutdown_slot col
  /\ Forall (fun d => handle d = None) (collection_elements (snd (fst r)))
  /\ exists calls,
       snd r = log ++ [Call_hotplug_deregister_callback] ++ calls
                   ++ [Call_exit]
       /\ removed calls = map usbdev_self (collection_elements col)
       /\ (length (closed calls) + length (collection_elements (snd (fst r)))
           = length (collection_elements col))%nat.
Proof.
  intros Hu. unfold usb_shutdown.
  destruct (usb_shutdown_from_spec (length col) 0 col
              (log ++ [Call_hotplug_deregister_callback]) Hu eq_refl)
    as (He & Hf & extra & Hs & Hr & Hc).
  destruct (usb_shutdown_from events (length col) 0 col _)
    as [[ended col'] log'].
  cbn [fst snd] in *. rewrite take_0, drop_0 in *. cbn [app] in Hf.
  subst ended col' log'. cbn [fst snd]. split; [reflexivity|].
  split; [reflexivity|].
  split; [apply shutdown_slot_no_handle|].
  exists extra. rewrite <- !app_assoc. auto.
Qed.

End ShutdownProperties.

Lemma hotplug_left_find (col : list (option usb_device)) slot0 b a :
  match find_device_from col slot0 b a with
  | Some (slot, d) =>
      exists k, slot = (slot0 + k)%nat /\ col !! k = Some (Some d)
                /\ hotplug_left col b a
                   = (<[k := Some (set_alive d 0)]> col, Some (usbdev_self d))
  | None => hotplug_left col b a = (col, None)
  end.
Proof.
  revert slot0. induction col as [|[u|] rest IH]; intros slot0;
    cbn [find_device_from hotplug_left].
  - reflexivity.
  - destruct ((bus u =? b) && (address u =? a)).
    + exists 0%nat. split; [lia|]. split; reflexivity.
    + specialize (IH (S slot0)).
      destruct (find_device_from rest (S slot0) b a) as [[slot d]|].
      * destruct IH as (k & -> & Hk & ->). exists (S k).
        split; [lia|]. split; [exact Hk|reflexivity].
      * rewrite IH. reflexivity.
  - specialize (IH (S slot0)).
    destruct (find_device_from rest (S slot0) b a) as [[slot d]|].
    + destruct IH as (k & -> & Hk & ->). exists (S k).
      split; [lia|]. split; [exact Hk|reflexivity].
    + rewrite IH. reflexivity.
Qed.

Section HotplugProperties.

Variable usb : libusb_oracle.
Variable APPLE_VEND_SPECIFIC_GET_MODE : Z.
Variables VID_APPLE PID_APPLE_T2_COPROCESSOR : Z.
Variables PID_APPLE_SILICON_RESTORE_LOW PID_APPLE_SILICON_RESTORE_MAX : Z.
Variables PID_RANGE_LOW PID_RANGE_MAX : Z.
Variable usb_handle_events :
  list teardown_call -> usb_device -> collection usb_device ->
  Z * usb_device * collection usb_device.

Local Abbreviation hotplug_cb :=
  (usb_hotplug_cb usb APPLE_VEND_SPECIFIC_GET_MODE VID_APPLE
     PID_APPLE_T2_COPROCESSOR PID_APPLE_SILICON_RESTORE_LOW
     PID_APPLE_SILICON_RESTORE_MAX PID_RANGE_LOW PID_RANGE_MAX).

(** X17.  On a departure [usb_hotplug_cb] marks dead the first record
    at the device's location and hands it to [device_remove]; it changes
    nothing else, calls nothing in libusb, and returns 0. *)
Theorem usb_hotplug_cb_left device_hotplug device st :
  let r := hotplug_cb device_hotplug device
             LIBUSB_HOTPLUG_EVENT_DEVICE_LEFT st in
  fst (fst r) = 0
  /\ libusb (snd (fst r)) = libusb st
  /\ match find_device st (usb_get_bus_number usb device)
             (usb_get_device_address usb device) with
     | Some (slot, d) =>
         device_list (snd (fst r))
         = <[slot := Some (set_alive d 0)]> (device_list st)
         /\ snd r = Some (usbdev_self d)
     | None => device_list (snd (fst r)) = device_list st /\ snd r = None
     end.
Proof.
  cbn zeta. unfold usb_hotplug_cb, find_device.
  pose proof (hotplug_left_find (device_list st) 0
                (usb_get_bus_number usb device)
                (usb_get_device_address usb device)) as H.
  destruct (find_device_from _ 0 _ _) as [[slot d]|].
  - destruct H as (k & -> & _ & ->). cbn. auto.
  - rewrite H. cbn. auto.
Qed.

(** X18.  A device that left is handed to [device_remove] twice.
    [usb_hotplug_cb] does so when it marks the record dead.  If the
    records before it in the table are alive, the next
    [reap_dead_devices] passes over them without a call, hands the
    record to [device_remove] again and then to [usb_disconnect], which
    starts, if the record has a handle, by cancelling its read and then
    its write transfers; the reaper goes on from the next slot with the
    table as that teardown left it, whatever the callbacks did while
    events were handled. *)
Theorem usb_hotplug_cb_left_then_reap device_hotplug device st slot d log k :
  find_device st (usb_get_bus_number usb device)
    (usb_get_device_address usb device) = Some (slot, d) ->
  (forall s' d', (s' < slot)%nat ->
     device_list st !! s' = Some (Some d') -> alive d' <> 0) ->
  let r := hotplug_cb device_hotplug device
             LIBUSB_HOTPLUG_EVENT_DEVICE_LEFT st in
  let table := device_list (snd (fst r)) in
  let log1 := log ++ [Call_device_remove (usbdev_self d)] in
  let gone := usb_disconnect usb_handle_events (set_alive d 0) table log1 in
  snd r = Some (usbdev_self d)
  /\ table = <[slot := Some (set_alive d 0)]> (device_list st)
  /\ reap_dead_devices_table usb_handle_events (S slot + k) table log
     = reap_dead_devices_from usb_handle_events k (S slot)
         (fst gone) (snd gone)
  /\ (handle d <> None ->
      exists rest,
        snd gone
        = log1 ++ map Call_cancel_transfer
                    (collection_elements (rx_xfers d)
                     ++ collection_elements (tx_xfers d)) ++ rest).
Proof.
  intros Hfind Hlive. cbn zeta. unfold usb_hotplug_cb.
  pose proof (hotplug_left_find (device_list st) 0
                (usb_get_bus_number usb device)
                (usb_get_device_address usb device)) as H.
  unfold find_device in Hfind. rewrite Hfind in H.
  destruct H as (j & -> & Hj & ->). cbn [fst snd Nat.add device_list].
  split; [reflexivity|]. split; [reflexivity|].
  assert (Hlt : (j < length (device_list st))%nat).
  { apply lookup_lt_Some in Hj. exact Hj. }
  split.
  - apply (reap_dead_devices_reaches usb_handle_events
             (<[j := Some (set_alive d 0)]> (device_list st)) log j
             (set_alive d 0) k).
    + intros s' d' Hs' Hl. apply (Hlive s' d' Hs').
      rewrite <- Hl. symmetry. apply list_lookup_insert_ne. lia.
    + apply list_lookup_insert_eq. exact Hlt.
    + reflexivity.
  - intros Hh.
    apply (usb_disconnect_begins usb_handle_events (set_alive d 0)). exact Hh.
Qed.

End HotplugProperties.

(** ** Configuration selection *)

Lemma fetched_configs_app c1 c2 :
  fetched_configs (c1 ++ c2) = fetched_configs c1 ++ fetched_configs c2.
Proof. unfold fetched_configs. apply omap_app. Qed.

Section ConfigurationProperties.

Variable usb : libusb_oracle.
Variables INTERFACE_CLASS INTERFACE_SUBCLASS INTERFACE_PROTOCOL : Z.

Local Abbreviation scan :=
  (scan_interfaces INTERFACE_CLASS INTERFACE_SUBCLASS INTERFACE_PROTOCOL).
Local Abbreviation chosen :=
  (chosen_interface INTERFACE_CLASS INTERFACE_SUBCLASS INTERFACE_PROTOCOL).
Local Abbreviation among :=
  (chosen_among INTERFACE_CLASS INTERFACE_SUBCLASS INTERFACE_PROTOCOL).
Local Abbreviation svc_loop :=
  (set_valid_configuration_loop usb INTERFACE_CLASS INTERFACE_SUBCLASS
     INTERFACE_PROTOCOL).
Local Abbreviation svc :=
  (set_valid_configuration usb INTERFACE_CLASS INTERFACE_SUBCLASS
     INTERFACE_PROTOCOL).

Lemma scan_interfaces_cases intfs usbdev found :
  (snd (scan intfs usbdev found) = found
   /\ fst (scan intfs usbdev found) = usbdev)
  \/ (snd (scan intfs usbdev found) = true
      /\ exists i, In i intfs
                   /\ chosen usbdev (altsetting0 i)
                        (fst (scan intfs usbdev found))).
Proof.
  induction intfs as [|i rest IH]; cbn [scan_interfaces].
  - left. split; reflexivity.
  - assert (Hrest :
      (snd (scan rest usbdev found) = found
       /\ fst (scan rest usbdev found) = usbdev)
      \/ (snd (scan rest usbdev found) = true
          /\ exists i0, In i0 (i :: rest)
                        /\ chosen usbdev (altsetting0 i0)
                             (fst (scan rest usbdev found)))).
    { destruct IH as [IH|(Hf & i0 & Hin & Hc)]; [left; exact IH|].
      right. split; [exact Hf|]. exists i0. split; [right; exact Hin|exact Hc]. }
    set (intf := altsetting0 i).
    destruct ((bInterfaceClass intf =? INTERFACE_CLASS)
              || (bInterfaceSubClass intf =? INTERFACE_SUBCLASS)
              || (bInterfaceProtocol intf =? INTERFACE_PROTOCOL)) eqn:Eid;
      [|exact Hrest].
    assert (Hid : bInterfaceClass intf = INTERFACE_CLASS
                  \/ bInterfaceSubClass intf = INTERFACE_SUBCLASS
                  \/ bInterfaceProtocol intf = INTERFACE_PROTOCOL).
    { apply orb_true_iff in Eid. destruct Eid as [Eid|Eid].
      - apply orb_true_iff in Eid. destruct Eid as [Eid|Eid];
          apply Z.eqb_eq in Eid; auto.
      - apply Z.eqb_eq in Eid; auto. }
    destruct (Z.eqb_spec (bNumEndpoints intf) 2) as [En|En]; cbn [negb];
      [|exact Hrest].
    destruct ((Z.land (endpoint_address intf 0) 128 =? LIBUSB_ENDPOINT_OUT)
              && (Z.land (endpoint_address intf 1) 128 =? LIBUSB_ENDPOINT_IN))
      eqn:E01.
    { right. cbn [fst snd]. split; [reflexivity|]. exists i.
      split; [left; reflexivity|].
      apply andb_true_iff in E01. destruct E01 as [E0 E1].
      apply Z.eqb_eq in E0, E1.
      repeat split; auto. }
    destruct ((Z.land (endpoint_address intf 1) 128 =? LIBUSB_ENDPOINT_OUT)
              && (Z.land (endpoint_address intf 0) 128 =? LIBUSB_ENDPOINT_IN))
      eqn:E10; [|exact Hrest].
    right. cbn [fst snd]. split; [reflexivity|]. exists i.
    split; [left; reflexivity|].
    apply andb_true_iff in E10. destruct E10 as [E1 E0].
    apply Z.eqb_eq in E0, E1.
    repeat split; auto.
Qed.

Lemma chosen_interface_again usbdev0 d intf d' :
  d = set_endpoints usbdev0 (usb_interface d) (ep_out d) (ep_in d) ->
  chosen d intf d' -> chosen usbdev0 intf d'.
Proof.
  intros Hd (Hid & Hn & Hf & Hep & Ho & Hi).
  repeat split; auto. rewrite Hf at 1. rewrite Hd. reflexivity.
Qed.

Lemma chosen_among_more usbdev0 cs cs' d :
  among usbdev0 cs d -> among usbdev0 (cs ++ cs') d.
Proof.
  intros (config & i & Hin & Hi & Hc). exists config, i.
  split; [apply in_or_app; left; exact Hin|]. split; assumption.
Qed.

Lemma chosen_among_frame usbdev0 cs d :
  among usbdev0 cs d ->
  d = set_endpoints usbdev0 (usb_interface d) (ep_out d) (ep_in d).
Proof.
  intros (config & i & _ & _ & (_ & _ & Hf & _)).
  assert (E : usb_interface d = bInterfaceNumber (altsetting0 i))
    by (rewrite Hf; reflexivity).
  rewrite E. exact Hf.
Qed.

Lemma detach_kernel_drivers_fetches_nothing intfs h w :
  exists calls,
    trace (detach_kernel_drivers usb intfs h w) = trace w ++ calls
    /\ fetched_configs calls = [].
Proof.
  revert w. induction intfs as [|i rest IH]; intros w;
    cbn [detach_kernel_drivers].
  - exists []. rewrite app_nil_r. split; reflexivity.
  - unfold libusb_kernel_driver_active, libusb_detach_kernel_driver.
    set (c1 := Call_kernel_driver_active _ _ _).
    assert (Hone : exists calls,
      trace (detach_kernel_drivers usb rest h (log_call c1 w))
      = trace w ++ calls /\ fetched_configs calls = []).
    { destruct (IH (log_call c1 w)) as (calls & Htr & Hn).
      exists (c1 :: calls). split.
      - rewrite Htr. cbn [trace log_call]. rewrite <- app_assoc. reflexivity.
      - change (c1 :: calls) with ([c1] ++ calls).
        rewrite fetched_configs_app, Hn. reflexivity. }
    destruct (_ <? 0); [exact Hone|].
    destruct (_ =? 1); [|exact Hone].
    set (c2 := Call_detach_kernel_driver _ _ _).
    destruct (IH (log_call c2 (log_call c1 w))) as (calls & Htr & Hn).
    exists (c1 :: c2 :: calls). split.
    + rewrite Htr. cbn [trace log_call]. rewrite <- !app_assoc. reflexivity.
    + change (c1 :: c2 :: calls) with ([c1; c2] ++ calls).
      rewrite fetched_configs_app, Hn. reflexivity.
Qed.

Lemma set_valid_configuration_loop_cases usbdev0 j dev h cur d found w cs :
  (found = false /\ d = usbdev0 \/ found = true /\ among usbdev0 cs d) ->
  exists calls,
    let r := svc_loop j dev h cur d found w in
    trace (snd r) = trace w ++ calls
    /\ (snd (fst r) = false /\ fst (fst r) = usbdev0
        \/ snd (fst r) = true
           /\ among usbdev0 (cs ++ fetched_configs calls) (fst (fst r))).
Proof.
  revert d found w cs. induction j as [|j IH]; intros d found w cs Hinv.
  - exists []. cbn. rewrite !app_nil_r. split; [reflexivity|exact Hinv].
  - cbn [set_valid_configuration_loop].
    unfold libusb_get_config_descriptor_by_value.
    set (v := Z.of_nat (S j)).
    destruct (usb_get_config_descriptor_by_value usb (trace w) dev v)
      as [config|] eqn:Ecfg.
    2:{ destruct (IH d found (log_call
                    (Call_get_config_descriptor_by_value dev v None) w) cs Hinv)
          as (calls & Htr & Hres).
        exists (Call_get_config_descriptor_by_value dev v None :: calls).
        cbn zeta in *. split.
        - rewrite Htr. cbn [trace log_call]. rewrite <- app_assoc. reflexivity.
        - exact Hres. }
    set (c0 := Call_get_config_descriptor_by_value dev v (Some config)).
    assert (Hframe : d = set_endpoints usbdev0 (usb_interface d) (ep_out d)
                           (ep_in d)).
    { destruct Hinv as [[_ ->]|[_ Ha]];
        [destruct usbdev0; reflexivity|apply (chosen_among_frame _ _ _ Ha)]. }
    assert (Hinv1 : let r := scan (interface config) d found in
      snd r = false /\ fst r = usbdev0
      \/ snd r = true /\ among usbdev0 (cs ++ [config]) (fst r)).
    { destruct (scan_interfaces_cases (interface config) d found)
        as [[Hf Hd]|(Hf & i & Hin & Hc)]; cbn zeta.
      - rewrite Hf, Hd. destruct Hinv as [Hinv|[Hinv Ha]]; [left; exact Hinv|].
        right. split; [exact Hinv|]. apply chosen_among_more, Ha.
      - right. split; [exact Hf|]. exists config, i.
        split; [apply in_or_app; right; left; reflexivity|].
        split; [exact Hin|]. apply (chosen_interface_again _ d); assumption. }
    cbn zeta in Hinv1.
    destruct (scan (interface config) d found) as [d1 found1].
    cbn [fst snd] in Hinv1.
    assert (Hcont : forall calls1 w1,
      trace w1 = trace w ++ c0 :: calls1 ->
      fetched_configs calls1 = [] ->
      exists calls,
        let r := svc_loop j dev h cur d1 found1 w1 in
        trace (snd r) = trace w ++ calls
        /\ (snd (fst r) = false /\ fst (fst r) = usbdev0
            \/ snd (fst r) = true
               /\ among usbdev0 (cs ++ fetched_configs calls) (fst (fst r)))).
    { intros calls1 w1 Hw1 Hnone.
      destruct (IH d1 found1 w1 (cs ++ [config]) Hinv1) as (calls & Htr & Hres).
      exists (c0 :: calls1 ++ calls). cbn zeta in *. split.
      - rewrite Htr, Hw1, <- app_assoc. reflexivity.
      - change (c0 :: calls1 ++ calls) with ([c0] ++ calls1 ++ calls).
        rewrite !fetched_configs_app, Hnone. cbn [app].
        change (fetched_configs [c0]) with [config].
        rewrite <- app_assoc in Hres. exact Hres. }
    assert (Hstop : forall calls1 w1,
      trace w1 = trace w ++ c0 :: calls1 ->
      found1 = true ->
      exists calls,
        trace w1 = trace w ++ calls
        /\ (found1 = false /\ d1 = usbdev0
            \/ found1 = true
               /\ among usbdev0 (cs ++ fetched_configs calls) d1)).
    { intros calls1 w1 Hw1 Hf1. exists (c0 :: calls1). split; [exact Hw1|].
      right. split; [exact Hf1|].
      destruct Hinv1 as [[Hx _]|[_ Ha]]; [congruence|].
      change (c0 :: calls1) with ([c0] ++ calls1).
      rewrite fetched_configs_app, app_assoc.
      apply chosen_among_more. exact Ha. }
    destruct found1; cbn [negb].
    + destruct ((cur =? 0) || negb (bConfigurationValue config =? cur)).
      * destruct (detach_kernel_drivers_fetches_nothing (interface config) h
                    (log_call c0 w)) as (dcalls & Hd & Hdf).
        set (w2 := detach_kernel_drivers usb (interface config) h
                     (log_call c0 w)) in *.
        unfold libusb_set_configuration, libusb_free_config_descriptor.
        set (rc := usb_set_configuration usb (trace w2) h v).
        destruct (negb (rc =? 0)).
        -- apply (Hcont (dcalls ++ [Call_set_configuration h v rc;
                                    Call_free_config_descriptor config])).
           ++ cbn [trace log_call]. rewrite Hd. cbn [trace log_call].
              rewrite <- !app_assoc. reflexivity.
           ++ rewrite fetched_configs_app, Hdf. reflexivity.
        -- cbn [fst snd].
           apply (Hstop (dcalls ++ [Call_set_configuration h v rc;
                                    Call_free_config_descriptor config]));
             [|reflexivity].
           cbn [trace log_call]. rewrite Hd. cbn [trace log_call].
           rewrite <- !app_assoc. reflexivity.
      * cbn [fst snd].
        apply (Hstop [Call_free_config_descriptor config]); [|reflexivity].
        cbn [trace log_call libusb_free_config_descriptor].
        rewrite <- app_assoc. reflexivity.
    + apply (Hcont [Call_free_config_descriptor config]); [|reflexivity].
      cbn [trace log_call libusb_free_config_descriptor].
      rewrite <- app_assoc. reflexivity.
Qed.

Lemma set_valid_configuration_cases dev usbdev h w :
  let r := svc dev usbdev h w in
  let calls := new_calls w (snd r) in
  fst (fst r) = -1 /\ snd (fst r) = usbdev
  \/ fst (fst r) = 0 /\ among usbdev (fetched_configs calls) (snd (fst r)).
Proof.
  cbn zeta. unfold set_valid_configuration, libusb_get_configuration.
  destruct (usb_get_configuration usb (trace w) h) as [rc cfg].
  destruct (negb (rc =? 0)); [left; split; reflexivity|].
  set (c0 := Call_get_configuration h rc cfg).
  destruct (set_valid_configuration_loop_cases usbdev
              (Z.to_nat (bNumConfigurations (devdesc usbdev))) dev h cfg
              usbdev false (log_call c0 w) [] (or_introl (conj eq_refl eq_refl)))
    as (calls & Htr & Hres).
  cbn zeta in *.
  destruct (svc_loop _ dev h cfg usbdev false (log_call c0 w))
    as [[d1 found1] w1].
  cbn [fst snd] in *.
  destruct Hres as [[-> ->]|[-> Ha]]; cbn [negb fst snd].
  - left. split; reflexivity.
  - right. split; [reflexivity|].
    rewrite (new_calls_app _ _ (c0 :: calls)).
    + exact Ha.
    + rewrite Htr. cbn [trace log_call]. rewrite <- app_assoc. reflexivity.
Qed.

(** X19.  [set_valid_configuration] submits no transfer and returns 0
    or -1.  After -1 the record is unchanged.  After 0 only the
    interface and the endpoints of the record have changed: they are
    those of an interface, of a configuration libusb described, that has
    the class, the subclass or the protocol of usbmux and two endpoints,
    one OUT and one IN. *)
Theorem set_valid_configuration_result dev usbdev h w :
  let r := svc dev usbdev h w in
  let calls := new_calls w (snd r) in
  submitted calls = []
  /\ (fst (fst r) = -1 /\ snd (fst r) = usbdev
      \/ fst (fst r) = 0
         /\ among usbdev (fetched_configs calls) (snd (fst r))).
Proof.
  cbn zeta. split; [|apply set_valid_configuration_cases].
  destruct (set_valid_configuration_quiet usb INTERFACE_CLASS
              INTERFACE_SUBCLASS INTERFACE_PROTOCOL dev usbdev h w)
    as (calls & Htr & Hsub).
  rewrite (new_calls_app _ _ (Call_get_configuration h
             (fst (usb_get_configuration usb (trace w) h))
             (snd (usb_get_configuration usb (trace w) h)) :: calls)).
  - exact Hsub.
  - rewrite Htr. cbn [trace log_call]. rewrite <- app_assoc. reflexivity.
Qed.

Local Abbreviation dci :=
  (device_complete_initialization usb INTERFACE_CLASS INTERFACE_SUBCLASS
     INTERFACE_PROTOCOL).

Lemma set_endpoints_frame u d :
  d = set_endpoints u (usb_interface d) (ep_out d) (ep_in d) ->
  usbdev_self d = usbdev_self u /\ rx_xfers d = rx_xfers u
  /\ tx_xfers d = tx_xfers u /\ devdesc d = devdesc u.
Proof. intros ->. repeat split. Qed.

(** X20.  [device_complete_initialization] changes one slot of the
    table, keeping the record's address and its pending transfers.  The
    record is either marked dead, or alive with the handle, the location
    of the context, a positive [wMaxPacketSize], an OUT and an IN
    endpoint, and exactly one transfer submitted: the request for the
    language ids. *)
Theorem device_complete_initialization_record context h st slot usbdev :
  find_device st (ctx_bus context) (ctx_address context)
  = Some (slot, usbdev) ->
  let st' := dci context h st in
  let subs := submitted (new_calls (libusb st) (libusb st')) in
  exists d,
    device_list st' = <[slot := Some d]> (device_list st)
    /\ usbdev_self d = usbdev_self usbdev
    /\ rx_xfers d = rx_xfers usbdev /\ tx_xfers d = tx_xfers usbdev
    /\ (alive d = 0
        \/ alive d = 1 /\ handle d = h /\ 0 < wMaxPacketSize d
           /\ bus d = ctx_bus context /\ address d = ctx_address context
           /\ devdesc d = devdesc usbdev
           /\ Z.land (ep_out d) 0x80 = LIBUSB_ENDPOINT_OUT
           /\ Z.land (ep_in d) 0x80 = LIBUSB_ENDPOINT_IN
           /\ exists t, subs = [t] /\ from_get_langid t
                        /\ user_data t = UD_device (usbdev_self usbdev)
                        /\ dev_handle t = h).
Proof.
  intros Hfind. cbn zeta. unfold device_complete_initialization.
  rewrite Hfind.
  pose proof (set_valid_configuration_cases (ctx_dev context) usbdev h
                (libusb st)) as Hc.
  pose proof (set_valid_configuration_quiet usb INTERFACE_CLASS
                INTERFACE_SUBCLASS INTERFACE_PROTOCOL (ctx_dev context)
                usbdev h (libusb st)) as H0.
  assert (Hq0 : quiet (libusb st)
                  (log_call (Call_get_configuration h
                     (fst (usb_get_configuration usb (trace (libusb st)) h))
                     (snd (usb_get_configuration usb (trace (libusb st)) h)))
                     (libusb st))) by (apply quiet_log; reflexivity).
  pose proof (quiet_trans _ _ _ Hq0 H0) as H1. clear H0 Hq0.
  cbn zeta in Hc.
  destruct (svc (ctx_dev context) usbdev h (libusb st)) as [[res d1] w1].
  cbn [fst snd] in *.
  assert (Hdoom : forall d w,
    usbdev_self d = usbdev_self usbdev -> rx_xfers d = rx_xfers usbdev ->
    tx_xfers d = tx_xfers usbdev ->
    exists d',
      device_list (store_device slot (set_alive d 0) st w)
      = <[slot := Some d']> (device_list st)
      /\ usbdev_self d' = usbdev_self usbdev
      /\ rx_xfers d' = rx_xfers usbdev /\ tx_xfers d' = tx_xfers usbdev
      /\ (alive d' = 0
          \/ alive d' = 1 /\ handle d' = h /\ 0 < wMaxPacketSize d'
             /\ bus d' = ctx_bus context /\ address d' = ctx_address context
             /\ devdesc d' = devdesc usbdev
             /\ Z.land (ep_out d') 0x80 = LIBUSB_ENDPOINT_OUT
             /\ Z.land (ep_in d') 0x80 = LIBUSB_ENDPOINT_IN
             /\ exists t,
                  submitted (new_calls (libusb st)
                               (libusb (store_device slot (set_alive d 0) st w)))
                  = [t]
                  /\ from_get_langid t
                  /\ user_data t = UD_device (usbdev_self usbdev)
                  /\ dev_handle t = h)).
  { intros d w Hs Hr Ht. exists (set_alive d 0).
    split; [reflexivity|]. repeat split; auto. }
  destruct Hc as [[-> ->]|[-> Ha]]; cbn [Z.eqb negb].
  { apply Hdoom; reflexivity. }
  destruct (set_endpoints_frame usbdev d1 (chosen_among_frame _ _ _ Ha))
    as (Hs1 & Hr1 & Ht1 & Hdd1).
  destruct Ha as (config & i & _ & _ & (_ & _ & _ & _ & Hout & Hin)).
  unfold libusb_claim_interface.
  set (w2 := log_call _ w1).
  assert (H2 : quiet (libusb st) w2).
  { eapply quiet_trans; [exact H1|]. apply quiet_log; reflexivity. }
  destruct (negb (_ =? 0)); [apply Hdoom; assumption|].
  unfold libusb_alloc_transfer_checked.
  destruct (usb_alloc_fails usb (trace w2)); [apply Hdoom; assumption|].
  cbn [libusb_alloc_transfer].
  set (w3 := {| trace := trace w2 ++ _; last_ptr := _ |}).
  assert (H3 : quiet (libusb st) w3).
  { eapply quiet_trans; [exact H2|].
    eexists. split; [reflexivity|reflexivity]. }
  unfold malloc_checked.
  destruct (malloc_fails usb (trace w3)); [apply Hdoom; assumption|].
  cbn [malloc].
  set (w4 := {| trace := trace w3; last_ptr := _ |}).
  assert (H4 : quiet (libusb st) w4).
  { eapply quiet_trans; [exact H3|]. apply quiet_same_trace. reflexivity. }
  unfold libusb_get_max_packet_size, libusb_get_device_speed.
  set (w5 := log_call _ w4).
  set (w6 := log_call _ w5).
  assert (H6 : quiet (libusb st) w6).
  { eapply quiet_trans; [exact H4|].
    eapply quiet_trans; apply quiet_log; reflexivity. }
  unfold libusb_submit_transfer.
  match goal with
  | |- context [usb_submit_transfer usb (trace w6) ?t0] =>
      set (t := t0); set (rc := usb_submit_transfer usb (trace w6) t)
  end.
  match goal with
  | |- context [store_device slot ?d0 st (log_call _ w6)] => set (d := d0)
  end.
  assert (Hd : usbdev_self d = usbdev_self usbdev
               /\ rx_xfers d = rx_xfers usbdev
               /\ tx_xfers d = tx_xfers usbdev).
  { subst d. destruct (_ <=? 0); auto. }
  destruct Hd as (Hsd & Hrd & Htd).
  destruct (rc <? 0).
  { apply Hdoom; assumption. }
  exists d. split; [reflexivity|].
  split; [exact Hsd|]. split; [exact Hrd|]. split; [exact Htd|].
  assert (Hall : alive d = 1 /\ handle d = h /\ 0 < wMaxPacketSize d
                 /\ bus d = ctx_bus context /\ address d = ctx_address context
                 /\ devdesc d = devdesc usbdev
                 /\ ep_out d = ep_out d1 /\ ep_in d = ep_in d1).
  { subst d.
    destruct (_ <=? 0) eqn:Em; cbn; repeat split; auto; try lia.
    apply Z.leb_gt in Em. exact Em. }
  destruct Hall as (Ha & Hh & Hm & Hb & Had & Hdd & Heo & Hei).
  right. rewrite Heo, Hei. repeat (split; [assumption|]).
  exists t. split.
  { destruct H6 as (calls & Htr & Hsub). cbn [store_device libusb].
    rewrite (new_calls_app _ _ (calls ++ [Call_submit_transfer t rc])).
    - rewrite submitted_app, Hsub. reflexivity.
    - cbn [trace log_call]. rewrite Htr, <- app_assoc. reflexivity. }
  split; [split; reflexivity|].
  split; [|reflexivity].
  subst t. unfold libusb_fill_control_transfer. cbn [user_data].
  f_equal. exact Hsd.
Qed.

End ConfigurationProperties.



(** ** The mode decision *)

Section ModeDecision.

Variable usb : libusb_oracle.
Variables INTERFACE_CLASS INTERFACE_SUBCLASS INTERFACE_PROTOCOL : Z.
Variable APPLE_VEND_SPECIFIC_SET_MODE : Z.

Local Abbreviation guess :=
  (guess_mode usb INTERFACE_CLASS INTERFACE_SUBCLASS INTERFACE_PROTOCOL).
Local Abbreviation init :=
  (device_complete_initialization usb INTERFACE_CLASS INTERFACE_SUBCLASS
     INTERFACE_PROTOCOL).
Local Abbreviation mode_cb :=
  (get_mode_cb usb INTERFACE_CLASS INTERFACE_SUBCLASS INTERFACE_PROTOCOL
     APPLE_VEND_SPECIFIC_SET_MODE).

Lemma guess_mode_quiet dev usbdev w : quiet w (snd (guess dev usbdev w)).
Proof.
  unfold guess_mode.
  destruct (_ =? 1); [apply quiet_refl|].
  destruct (_ <=? 4); [apply quiet_refl|].
  destruct (_ =? 6); [apply quiet_refl|].
  destruct (negb _); [apply quiet_refl|].
  unfold libusb_get_config_descriptor_by_value.
  destruct (usb_get_config_descriptor_by_value usb (trace w) dev 5)
    as [config|]; [|apply quiet_log; reflexivity].
  destruct (fold_left _ _ _) as [[a b] c].
  assert (H : quiet w (libusb_free_config_descriptor config
                         (log_call (Call_get_config_descriptor_by_value dev 5
                                      (Some config)) w))).
  { eapply quiet_trans; apply quiet_log; reflexivity. }
  destruct (a && c); [exact H|]. destruct (b && c); exact H.
Qed.

(** X21.  [get_mode_cb], for a device of the table whose GET_MODE
    request completed: it asks for a mode switch exactly when the
    desired mode is from 1 to 5, the guessed mode is known, and the two
    differ; the record is marked dead if libusb does not accept that
    request.
    Otherwise it goes on with [device_complete_initialization] and no
    SET_MODE request is submitted. *)
Theorem get_mode_cb_decision env context transfer st slot dev :
  find_device st (ctx_bus context) (ctx_address context) = Some (slot, dev) ->
  status_completed (status transfer) = true ->
  let desired := get_desired_mode env in
  let g := guess (ctx_dev context) dev (libusb st) in
  let h := dev_handle (completed_xfer transfer) in
  let st' := mode_cb env context transfer st in
  let subs := submitted (new_calls (libusb st) (libusb st')) in
  if (1 <=? desired) && (desired <=? 5) && (0 <? fst g)
     && negb (fst g =? desired)
  then
    exists t rc,
      subs = [t]
      /\ is_set_mode_request APPLE_VEND_SPECIFIC_SET_MODE t = true
      /\ callback t = CB_switch_mode_cb
      /\ dev_handle t = h
      /\ option_map wIndex (setup t) = Some desired
      /\ option_map wLength (setup t) = Some 1
      /\ In (Call_submit_transfer t rc) (new_calls (libusb st) (libusb st'))
      /\ device_list st'
         = (if rc =? 0 then device_list st
            else <[slot := Some (set_alive dev 0)]> (device_list st))
  else
    st' = init context h (with_libusb st (snd g))
    /\ existsb (is_set_mode_request APPLE_VEND_SPECIFIC_SET_MODE) subs = false.
Proof.
  intros Hfind Hst desired g h st' subs. subst st' subs h.
  unfold get_mode_cb. rewrite Hfind, Hst. cbn [negb]. fold desired.
  pose proof (guess_mode_quiet (ctx_dev context) dev (libusb st)) as Hq.
  fold g in Hq |- *. destruct g as [guessed w1]. cbn [fst snd] in *.
  assert (Hcond : (desired >=? 1) && (desired <=? 5) && (guessed >? 0)
                  && negb (guessed =? desired)
                  = (1 <=? desired) && (desired <=? 5) && (0 <? guessed)
                    && negb (guessed =? desired)).
  { rewrite Z.geb_leb, Z.gtb_ltb. reflexivity. }
  rewrite Hcond. clear Hcond.
  destruct ((1 <=? desired) && (desired <=? 5) && (0 <? guessed)
            && negb (guessed =? desired)) eqn:Ec.
  - apply andb_true_iff in Ec. destruct Ec as [Ec _].
    apply andb_true_iff in Ec. destruct Ec as [Ec _].
    apply andb_true_iff in Ec. destruct Ec as [E1 E5].
    apply Z.leb_le in E1, E5.
    destruct Hq as (gcalls & Hg & Hgs).
    unfold submit_vendor_specific. cbn [libusb_alloc_transfer malloc].
    unfold libusb_submit_transfer.
    match goal with
    | |- context [usb_submit_transfer usb ?tr ?t0] =>
        set (xf := t0); set (rc := usb_submit_transfer usb tr xf)
    end.
    exists xf, rc.
    assert (Hw : to_uint16 desired = desired)
      by (unfold to_uint16; apply Z.mod_small; lia).
    assert (Hnew : forall w',
      trace w' = trace w1 ++ [Call_alloc_transfer (xfer_ptr xf);
                              Call_submit_transfer xf rc] ->
      new_calls (libusb st) w'
      = gcalls ++ [Call_alloc_transfer (xfer_ptr xf);
                   Call_submit_transfer xf rc]).
    { intros w' Hw'. apply new_calls_app.
      rewrite Hw', Hg, <- app_assoc. reflexivity. }
    assert (Hcalls :
      new_calls (libusb st)
        (libusb
           (if negb (rc =? 0)
            then store_device slot (set_alive dev 0) st
                   (log_call (Call_submit_transfer xf rc)
                      {| trace := trace w1
                                  ++ [Call_alloc_transfer (xfer_ptr xf)];
                         last_ptr := S (S (last_ptr w1)) |})
            else with_libusb st
                   (log_call (Call_submit_transfer xf rc)
                      {| trace := trace w1
                                  ++ [Call_alloc_transfer (xfer_ptr xf)];
                         last_ptr := S (S (last_ptr w1)) |})))
      = gcalls ++ [Call_alloc_transfer (xfer_ptr xf);
                   Call_submit_transfer xf rc]).
    { destruct (negb (rc =? 0)); cbn [store_device with_libusb libusb];
        apply Hnew; cbn [trace log_call]; rewrite <- app_assoc; reflexivity. }
    split.
    { etrans; [apply (f_equal submitted Hcalls)|].
      rewrite submitted_app, Hgs. reflexivity. }
    split.
    { unfold is_set_mode_request, xf.
      cbn [setup libusb_fill_control_transfer libusb_fill_control_setup
           bmRequestType bRequest set_mode_context ctx_bRequest].
      rewrite to_uint8_idem, !Z.eqb_refl. reflexivity. }
    split; [reflexivity|]. split; [reflexivity|].
    split.
    { unfold xf.
      cbn [setup libusb_fill_control_transfer libusb_fill_control_setup
           wIndex set_mode_context ctx_wIndex option_map].
      rewrite !Hw. reflexivity. }
    split; [reflexivity|].
    split.
    { assert (Hin : In (Call_submit_transfer xf rc)
                      (gcalls ++ [Call_alloc_transfer (xfer_ptr xf);
                                  Call_submit_transfer xf rc]))
        by (apply in_or_app; right; right; left; reflexivity).
      rewrite <- Hcalls in Hin. exact Hin. }
    destruct (rc =? 0); reflexivity.
  - split; [reflexivity|].
    assert (Hfind' : find_device (with_libusb st w1) (ctx_bus context)
                       (ctx_address context) = Some (slot, dev))
      by exact Hfind.
    pose proof (device_complete_initialization_calls usb INTERFACE_CLASS
                  INTERFACE_SUBCLASS INTERFACE_PROTOCOL context
                  (dev_handle (completed_xfer transfer))
                  (with_libusb st w1) slot dev Hfind')
      as (calls & Htr & Hall).
    destruct Hq as (gcalls & Hg & Hgs).
    cbn [with_libusb libusb log_call trace] in Htr.
    rewrite Hg, <- !app_assoc in Htr.
    rewrite (new_calls_app _ _ _ Htr).
    rewrite !submitted_app, Hgs. cbn [app].
    change (submitted [Call_get_configuration ?a ?b ?c]) with (@nil libusb_transfer).
    cbn [app].
    eapply existsb_false_Forall;
      [apply from_get_langid_not_set_mode|exact Hall].
Qed.

End ModeDecision.

(** ** The result of a scan *)

Section ScanResult.

Variable usb : libusb_oracle.
Variable APPLE_VEND_SPECIFIC_GET_MODE : Z.
Variables VID_APPLE PID_APPLE_T2_COPROCESSOR : Z.
Variables PID_APPLE_SILICON_RESTORE_LOW PID_APPLE_SILICON_RESTORE_MAX : Z.
Variables PID_RANGE_LOW PID_RANGE_MAX : Z.
Variable reap_dead_devices : usb_state -> usb_state.

Local Abbreviation discover :=
  (usb_discover usb APPLE_VEND_SPECIFIC_GET_MODE VID_APPLE
     PID_APPLE_T2_COPROCESSOR PID_APPLE_SILICON_RESTORE_LOW
     PID_APPLE_SILICON_RESTORE_MAX PID_RANGE_LOW PID_RANGE_MAX
     reap_dead_devices).

(** X22.  When the device list is fetched [usb_discover] returns a
    count between 0 and the number of devices listed, sets the failure
    counter to 0, frees the list last, and schedules the next poll. *)
Theorem usb_discover_success_result g :
  fetch_fails usb g = false ->
  let fetch := usb_get_device_list usb (trace (libusb (core_state g))) in
  let r := discover g in
  0 <= fst r <= Z.min (fst fetch) (Z.of_nat (length (snd fetch)))
  /\ devlist_failures (snd r) = 0
  /\ next_dev_poll_time (snd r)
     = schedule_next_poll usb (libusb (core_state (snd r)))
  /\ last (trace (libusb (core_state (snd r))))
     = Some (Call_free_device_list (snd fetch)).
Proof.
  unfold fetch_fails, usb_discover, libusb_get_device_list.
  destruct (usb_get_device_list usb (trace (libusb (core_state g))))
    as [cnt devs].
  cbn [fst snd]. intros Hf. rewrite Hf. cbv zeta.
  apply Z.ltb_ge in Hf.
  match goal with
  | |- context [add_devices _ _ _ _ _ _ _ _ ?l ?s 0] =>
      pose proof (add_devices_bounds usb APPLE_VEND_SPECIFIC_GET_MODE VID_APPLE
                    PID_APPLE_T2_COPROCESSOR PID_APPLE_SILICON_RESTORE_LOW
                    PID_APPLE_SILICON_RESTORE_MAX PID_RANGE_LOW PID_RANGE_MAX
                    l s 0) as Hb;
      destruct (add_devices usb APPLE_VEND_SPECIFIC_GET_MODE VID_APPLE
                  PID_APPLE_T2_COPROCESSOR PID_APPLE_SILICON_RESTORE_LOW
                  PID_APPLE_SILICON_RESTORE_MAX PID_RANGE_LOW
                  PID_RANGE_MAX l s 0) as [valid_count st']
  end.
  cbn [fst snd devlist_failures next_dev_poll_time core_state with_libusb
       libusb] in *.
  rewrite length_take in Hb.
  split; [lia|]. split; [reflexivity|]. split; [reflexivity|].
  cbn [log_call trace]. apply last_snoc.
Qed.

End ScanResult.

(** ** Reads that fail *)

Lemma collection_elements_remove_perm (col : list (option ptr)) x :
  In x (collection_elements col) ->
  Permutation (collection_elements col)
    (x :: collection_elements (collection_remove Nat.eqb col x)).
Proof.
  induction col as [|[z|] rest IH]; cbn [collection_remove]; intros Hin.
  - destruct Hin.
  - destruct (Nat.eqb_spec z x) as [->|Hne]; [reflexivity|].
    change (collection_elements (Some z :: ?l))
      with (z :: collection_elements l) in *.
    destruct Hin as [Hin|Hin]; [contradiction|].
    rewrite (IH Hin) at 1. apply perm_swap.
  - exact (IH Hin).
Qed.

Section ReadFailures.

Variable usb : libusb_oracle.
Variable USB_MRU : Z.
Variable device_data_input :
  usb_device -> list byte -> Z -> libusb_world -> usb_device * libusb_world.

Local Abbreviation rx_cbs := (rx_callbacks usb device_data_input).

Lemma rx_callbacks_failed status ts dev w rest :
  status_completed status = false ->
  Permutation (collection_elements (rx_xfers dev)) (map xfer_ptr ts ++ rest) ->
  let r := rx_cbs status ts dev w in
  Permutation (collection_elements (rx_xfers (fst r))) rest
  /\ trace (snd r) = trace w ++ map Call_free_transfer (map xfer_ptr ts)
  /\ alive (fst r) = match ts with [] => alive dev | _ :: _ => 0 end
  /\ fst r = set_alive (set_rx_xfers dev (rx_xfers (fst r))) (alive (fst r)).
Proof.
  intros Hst. revert dev w. induction ts as [|t ts IH]; intros dev w Hperm.
  - cbn. rewrite app_nil_r. repeat split; auto. destruct dev; reflexivity.
  - cbn [rx_callbacks]. unfold rx_callback. cbn [bulk_status bulk_xfer].
    rewrite Hst.
    set (dev1 := set_alive (set_rx_xfers dev _) 0).
    set (w1 := libusb_free_transfer (xfer_ptr t) w).
    assert (Hperm1 : Permutation (collection_elements (rx_xfers dev1))
                       (map xfer_ptr ts ++ rest)).
    { subst dev1. cbn [rx_xfers set_alive set_rx_xfers].
      apply (Permutation_cons_inv (a := xfer_ptr t)).
      rewrite <- collection_elements_remove_perm; [exact Hperm|].
      apply (Permutation_in _ (Permutation_sym Hperm)). left. reflexivity. }
    destruct (IH dev1 w1 Hperm1) as (Hp & Htr & Ha & Hf). cbn zeta in *.
    split; [exact Hp|]. split.
    { rewrite Htr. subst w1. cbn [trace log_call libusb_free_transfer map].
      rewrite <- app_assoc. reflexivity. }
    split.
    { rewrite Ha. destruct ts; reflexivity. }
    rewrite Hf at 1. reflexivity.
Qed.

(** X23.  Reads that end without completing leave [rx_xfers]: after
    [rx_callback] has run with such a status for each read that was
    started, in whichever order, the pending reads are those from before
    the loop, each transfer has been freed once, nothing was
    re-submitted, and the device is dead if any read was started. *)
Theorem start_rx_loops_then_failures n dev w status ts w2 :
  status_completed status = false ->
  let r := start_rx_loops usb USB_MRU n dev w in
  Permutation (map xfer_ptr ts) (accepted (new_calls w (snd r))) ->
  let r2 := rx_cbs status ts (snd (fst r)) w2 in
  Permutation (collection_elements (rx_xfers (fst r2)))
    (collection_elements (rx_xfers dev))
  /\ freed (new_calls w2 (snd r2)) = map xfer_ptr ts
  /\ submitted (new_calls w2 (snd r2)) = []
  /\ alive (fst r2) = match ts with [] => alive dev | _ :: _ => 0 end.
Proof.
  intros Hst r Hperm r2. subst r r2.
  destruct (start_rx_loops_trace usb USB_MRU n dev w) as (calls & H).
  cbn zeta in H.
  destruct (start_rx_loops usb USB_MRU n dev w) as [[left dev'] w'].
  cbn [fst snd] in *.
  destruct H as (Htr & _ & Hframe & Hp & _).
  rewrite (new_calls_app _ _ calls Htr) in Hperm.
  assert (Hp' : Permutation (collection_elements (rx_xfers dev'))
                  (map xfer_ptr ts ++ collection_elements (rx_xfers dev))).
  { rewrite Hp. apply Permutation_app_tail. symmetry. exact Hperm. }
  destruct (rx_callbacks_failed status ts dev' w2 _ Hst Hp')
    as (Hr & Htr2 & Ha & _).
  cbn zeta in *. split; [exact Hr|].
  rewrite (new_calls_app _ _ _ Htr2).
  split.
  { clear. induction (map xfer_ptr ts) as [|p l IH]; [reflexivity|].
    cbn [map]. change (freed (?c :: ?l)) with (freed [c] ++ freed l).
    cbn. f_equal. exact IH. }
  split.
  { clear. induction (map xfer_ptr ts) as [|p l IH]; [reflexivity|exact IH]. }
  rewrite Ha. destruct ts; [rewrite Hframe; reflexivity|reflexivity].
Qed.

End ReadFailures.

(** * Concrete runs *)

(** ** The concrete table *)

Lemma ex_table_unique_selfs : unique_selfs ex_table.
Proof.
  intros s1 s2 d1 d2 H1 H2.
  destruct s1 as [|[|[|s1]]], s2 as [|[|[|s2]]]; cbn in H1, H2;
    try discriminate; try reflexivity;
    injection H1 as <-; injection H2 as <-; cbn; intros; discriminate.
Qed.

Lemma ex_table_unique_locations : unique_locations ex_table.
Proof.
  intros s1 s2 d1 d2 H1 H2.
  destruct s1 as [|[|[|s1]]], s2 as [|[|[|s2]]]; cbn in H1, H2;
    try discriminate; try reflexivity;
    injection H1 as <-; injection H2 as <-; cbn; intros; discriminate.
Qed.

Lemma ex_table_selfs_allocated : selfs_allocated ex_table_state.
Proof.
  intros s d H.
  destruct s as [|[|[|s]]]; cbn in H; try discriminate;
    injection H as <-; cbn; lia.
Qed.

Lemma usb_disconnect_calls_witness :
  handle ex_gone_device <> None
  /\ fst (usb_disconnect ex_failing_events ex_gone_device ex_table [])
     = [Some (set_alive (ex_device 4) 0); None; None].
Proof.
  assert (H : handle ex_gone_device <> None) by discriminate.
  split; [exact H|].
  destruct (usb_disconnect_calls ex_failing_events ex_gone_device ex_table []
              H) as (rs & forced & _ & _ & _ & _ & Ht).
  exact Ht.
Defined.

Lemma reap_dead_devices_first_dead_witness :
  (forall s' d', (s' < 2)%nat -> ex_table !! s' = Some (Some d') ->
                 alive d' <> 0)
  /\ fst (reap_dead_devices_table ex_failing_events 3 ex_table [])
     = (true, [Some (set_alive (ex_device 4) 0); None; None]).
Proof.
  assert (H : forall s' d', (s' < 2)%nat ->
                ex_table !! s' = Some (Some d') -> alive d' <> 0).
  { intros [|[|s']] d' Hs Hl; [| |lia].
    - injection Hl as <-. discriminate.
    - discriminate Hl. }
  split; [exact H|].
  destruct (reap_dead_devices_first_dead ex_failing_events ex_table [] 2%nat H)
    as [_ Hd].
  pose proof (Hd ex_gone_device eq_refl eq_refl 0%nat) as E.
  cbn [Nat.add] in E. rewrite E. reflexivity.
Defined.

Lemma usb_device_add_keeps_invariants_witness :
  unique_locations ex_table /\ unique_selfs ex_table
  /\ selfs_allocated ex_table_state
  /\ unique_locations
       (device_list (snd (ex_usb_device_add ex_usb_ok 7%nat ex_table_state)))
  /\ unique_selfs
       (device_list (snd (ex_usb_device_add ex_usb_ok 7%nat ex_table_state)))
  /\ selfs_allocated (snd (ex_usb_device_add ex_usb_ok 7%nat ex_table_state)).
Proof.
  split; [exact ex_table_unique_locations|].
  split; [exact ex_table_unique_selfs|].
  split; [exact ex_table_selfs_allocated|].
  destruct (usb_device_add_keeps_invariants ex_usb_ok 0x45 0x05ac 0x8600
              0x1901 0x1905 0x1290 0x12af 7%nat ex_table_state
              ex_table_unique_locations ex_table_unique_selfs
              ex_table_selfs_allocated) as (H1 & H2 & H3 & _).
  split; [exact H1|]. split; [exact H2|exact H3].
Defined.

Lemma usb_discover_marks_witness :
  fetch_fails ex_usb_listing (ex_table_core 0) = false
  /\ unique_locations ex_table
  /\ exists marked,
       core_state
         (snd (usb_discover ex_usb_listing 0x45 0x05ac 0x8600 0x1901 0x1905
                 0x1290 0x12af (fun st => st) (ex_table_core 0)))
       = with_libusb marked
           (log_call (Call_free_device_list [5%nat]) (libusb marked))
       /\ device_list marked !! 2%nat = Some (Some ex_gone_device).
Proof.
  split; [reflexivity|]. split; [exact ex_table_unique_locations|].
  exact (usb_discover_marks ex_usb_listing 0x45 0x05ac 0x8600 0x1901
           0x1905 0x1290 0x12af (fun st => st) (ex_table_core 0)
           2%nat ex_gone_device eq_refl ex_table_unique_locations eq_refl).
Defined.

Lemma usb_send_completions_restore_tx_xfers_witness :
  fst (fst ex_send) = 0
  /\ collection_elements (tx_xfers (snd (fst ex_send)))
     = [101%nat; 102%nat]
  /\ collection_elements
       (tx_xfers
          (fst (tx_callbacks LIBUSB_TRANSFER_COMPLETED
                  (rev (usb_send_submitted ex_usb_ok (ex_device 4) 200%nat
                          128 ex_world))
                  (snd (fst ex_send)) (snd ex_send))))
     = [].
Proof.
  split; [reflexivity|]. split; [reflexivity|].
  destruct (usb_send_completions_restore_tx_xfers ex_usb_ok (ex_device 4)
              200%nat 128 ex_world LIBUSB_TRANSFER_COMPLETED
              (rev (usb_send_submitted ex_usb_ok (ex_device 4) 200%nat 128
                      ex_world))
              (snd ex_send)) as (H & _).
  - intros p [].
  - reflexivity.
  - symmetry. apply Permutation_rev.
  - exact H.
Defined.

Lemma get_serial_callback_rx_loops_witness :
  (forall tr t, usb_submit_transfer ex_usb_ok tr t <= 0)
  /\ fst (fst (get_serial_callback ex_usb_ok 65536 ex_device_add
                 ex_serial_completion (ex_device 4) ex_world))
     = Serial_ready.
Proof.
  assert (Hc : forall tr t, usb_submit_transfer ex_usb_ok tr t <= 0)
    by (intros; cbn; lia).
  split; [exact Hc|].
  destruct (get_serial_callback_rx_loops ex_usb_ok 65536 ex_device_add
              ex_serial_completion (ex_device 4) ex_world Hc eq_refl)
    as (_ & _ & Hready & _).
  - cbn. lia.
  - apply Hready. vm_compute. discriminate.
Defined.

Lemma get_langid_callback_request_witness :
  is_uint8 (iSerialNumber (devdesc (ex_device 4)))
  /\ exists t,
       submitted (new_calls ex_world
                    (get_langid_callback ex_usb_ok ex_langid_completion
                       (ex_device 4) ex_world)) = [t]
       /\ option_map wValue (setup t) = Some 771
       /\ option_map wIndex (setup t) = Some 1033.
Proof.
  assert (Hs : is_uint8 (iSerialNumber (devdesc (ex_device 4))))
    by (unfold is_uint8; cbn; lia).
  split; [exact Hs|].
  destruct (get_langid_callback_request ex_usb_ok ex_langid_completion
              (ex_device 4) ex_world eq_refl Hs)
    as (t & rc & Hcalls & _ & _ & _ & _ & _ & _ & _ & Hsetup).
  exists t. rewrite Hcalls, Hsetup. split.
  - destruct (rc <? 0); reflexivity.
  - split; reflexivity.
Defined.

Lemma usb_get_timeout_min_witness :
  usb_get_timeout 1 {| tv_sec := 10; tv_usec := 600000 |}
    {| tv_sec := 10; tv_usec := 500000 |}
    (1, {| tv_sec := 0; tv_usec := 50000 |}) = 50.
Proof.
  destruct (usb_get_timeout_min 1 {| tv_sec := 10; tv_usec := 600000 |}
              {| tv_sec := 10; tv_usec := 500000 |} 1
              {| tv_sec := 0; tv_usec := 50000 |}) as [_ H].
  - cbn. lia.
  - cbn. lia.
  - reflexivity.
  - exact H.
Defined.

Lemma dev_poll_remain_ms_after_schedule_witness :
  normal_timeval (get_tick_count ex_usb_ok (trace ex_world))
  /\ usec_between (get_tick_count ex_usb_ok (trace ex_world))
       {| tv_sec := 11; tv_usec := 200000 |} = 700000
  /\ 299000
     < 1000 * dev_poll_remain_ms 1 (schedule_next_poll ex_usb_ok ex_world)
                {| tv_sec := 11; tv_usec := 200000 |}
     < 301000.
Proof.
  assert (Ht : normal_timeval (get_tick_count ex_usb_ok (trace ex_world)))
    by (unfold normal_timeval; cbn; lia).
  split; [exact Ht|]. split; [reflexivity|].
  destruct (dev_poll_remain_ms_after_schedule ex_usb_ok 1 ex_world
              {| tv_sec := 11; tv_usec := 200000 |}) as (_ & _ & H).
  - discriminate.
  - exact Ht.
  - unfold normal_timeval. cbn. lia.
  - unfold usec_between. cbn. lia.
  - cbn. lia.
  - assert (He : usec_between (get_tick_count ex_usb_ok (trace ex_world))
                   {| tv_sec := 11; tv_usec := 200000 |} <= 999000)
      by (unfold usec_between; cbn; lia).
    exact (H He).
Defined.

Lemma usb_process_failure_witness :
  0 <= fst (ex_idle_events (core_state (ex_table_core 5)))
  /\ fst (ex_usb_process ex_usb_no_list 1 (ex_table_core 5)) = -11
  /\ devlist_failures (snd (ex_usb_process ex_usb_no_list 1 (ex_table_core 5)))
     = 6.
Proof.
  assert (H0 : 0 <= fst (ex_idle_events (core_state (ex_table_core 5))))
    by (cbn; lia).
  split; [exact H0|].
  destruct (usb_process_failure ex_usb_no_list 0x45 0x05ac 0x8600 0x1901
              0x1905 0x1290 0x12af (fun st => st) ex_idle_events 1
              (ex_table_core 5) H0) as [_ H].
  destruct H as (_ & _ & _ & _ & Hres & Hfail & _).
  - vm_compute. reflexivity.
  - split; [exact Hres|exact Hfail].
Defined.

Lemma usb_shutdown_spec_witness :
  unique_selfs ex_table
  /\ fst (usb_shutdown (local_events ex_handle_events) (length ex_table)
            ex_table [])
     = (true, [None; None; None]).
Proof.
  split; [exact ex_table_unique_selfs|].
  destruct (usb_shutdown_spec ex_handle_events ex_table []
              ex_table_unique_selfs) as (He & Ht & _).
  cbn zeta in He, Ht.
  destruct (usb_shutdown (local_events ex_handle_events) (length ex_table)
              ex_table []) as [[ended col] log].
  cbn [fst snd] in *. rewrite He, Ht. reflexivity.
Defined.

Lemma usb_hotplug_cb_left_then_reap_witness :
  find_device ex_table_state (usb_get_bus_number ex_usb_ok 5%nat)
    (usb_get_device_address ex_usb_ok 5%nat) = Some (0%nat, ex_device 4)
  /\ removed
       (snd (reap_dead_devices_table ex_failing_events 3
               (device_list
                  (snd (fst (usb_hotplug_cb ex_usb_ok 0x45 0x05ac 0x8600
                               0x1901 0x1905 0x1290 0x12af 1 5%nat
                               LIBUSB_HOTPLUG_EVENT_DEVICE_LEFT
                               ex_table_state))))
               []))
     = [100%nat; 90%nat].
Proof.
  split; [reflexivity|].
  destruct (usb_hotplug_cb_left_then_reap ex_usb_ok 0x45 0x05ac 0x8600 0x1901
              0x1905 0x1290 0x12af ex_failing_events 1 5%nat ex_table_state
              0%nat (ex_device 4) [] 2%nat eq_refl)
    as (_ & _ & H & _).
  - intros s' d' Hs. lia.
  - cbn zeta in H. cbn [Nat.add] in H. rewrite H. reflexivity.
Defined.

Lemma device_complete_initialization_record_witness :
  find_device (ex_state 5) (ctx_bus ex_context) (ctx_address ex_context)
  = Some (0%nat, ex_device 5)
  /\ exists d,
       device_list
         (device_complete_initialization ex_usb_ok 255 254 2 ex_context
            (Some 7%nat) (ex_state 5))
       = [Some d]
       /\ usbdev_self d = 100%nat.
Proof.
  split; [reflexivity|].
  destruct (device_complete_initialization_record ex_usb_ok 255 254 2
              ex_context (Some 7%nat) (ex_state 5) 0%nat (ex_device 5)
              eq_refl) as (d & Hl & Hs & _).
  exists d. split; [exact Hl|exact Hs].
Defined.

Lemma get_mode_cb_decision_witness :
  fst (guess_mode ex_usb_ok 255 254 2 (ctx_dev ex_context) (ex_device 5)
         (libusb (ex_state 5))) = 2
  /\ exists t,
       submitted
         (new_calls (libusb (ex_state 5))
            (libusb (get_mode_cb ex_usb_ok 255 254 2 0x52 (Some "3"%string)
                       ex_context
                       (ex_completion LIBUSB_TRANSFER_COMPLETED
                          [x02; x00; x00; x00])
                       (ex_state 5)))) = [t]
       /\ is_set_mode_request 0x52 t = true
       /\ option_map wIndex (setup t) = Some 3.
Proof.
  split; [reflexivity|].
  destruct (get_mode_cb_decision ex_usb_ok 255 254 2 0x52 (Some "3"%string)
              ex_context
              (ex_completion LIBUSB_TRANSFER_COMPLETED [x02; x00; x00; x00])
              (ex_state 5) 0%nat (ex_device 5) eq_refl eq_refl)
    as (t & rc & Hs & Hm & _ & _ & Hi & _).
  exists t. split; [exact Hs|]. split; [exact Hm|exact Hi].
Defined.

Lemma usb_discover_success_result_witness :
  fetch_fails ex_usb_listing (ex_table_core 3) = false
  /\ 0 <= fst (ex_usb_discover ex_usb_listing (ex_table_core 3)) <= 1
  /\ devlist_failures (snd (ex_usb_discover ex_usb_listing (ex_table_core 3)))
     = 0.
Proof.
  split; [reflexivity|].
  destruct (usb_discover_success_result ex_usb_listing 0x45 0x05ac 0x8600
              0x1901 0x1905 0x1290 0x12af (fun st => st) (ex_table_core 3)
              eq_refl) as (H & Hf & _).
  split; [exact H|exact Hf].
Defined.

Lemma start_rx_loops_then_failures_witness :
  accepted (new_calls ex_world (snd ex_rx_loops))
  = [101%nat; 103%nat; 105%nat]
  /\ collection_elements
       (rx_xfers
          (fst (rx_callbacks ex_usb_ok ex_device_data_input
                  LIBUSB_TRANSFER_CANCELLED
                  (rev (submitted (new_calls ex_world (snd ex_rx_loops))))
                  (snd (fst ex_rx_loops)) (snd ex_rx_loops))))
     = [].
Proof.
  split; [reflexivity|].
  destruct (start_rx_loops_then_failures ex_usb_ok 65536 ex_device_data_input
              NUM_RX_LOOPS (ex_device 4) ex_world LIBUSB_TRANSFER_CANCELLED
              (rev (submitted (new_calls ex_world (snd ex_rx_loops))))
              (snd ex_rx_loops) eq_refl) as (H & _).
  - change (Permutation (rev [101%nat; 103%nat; 105%nat])
              [101%nat; 103%nat; 105%nat]).
    symmetry. apply Permutation_rev.
  - apply Permutation_nil_r in H. exact H.
Defined.
